(** * mistral-ocr: the OCR service abstraction and its Mistral binding

    A shallow embedding of [src/mistral_ocr/base.py],
    [src/mistral_ocr/mistral.py] and the [ocr] command of
    [src/mistral_ocr/__main__.py].

    Python text and bytes are both modelled by [string], a sequence of
    8-bit characters: text is held as its UTF-8 encoding, and text that
    Python decoded from the name of a file as the bytes of that name,
    which need not be UTF-8.  The file system, the process environment
    and the remote service are explicit state, threaded through a
    state-and-exception monad. *)

From Stdlib Require Import String Ascii List NArith ZArith Bool Lia DecimalString.
From Stdlib Require DecimalPos DecimalZ.
From stdpp Require Import base option list strings gmap fin_maps.

Open Scope string_scope.

(** ** Python strings *)

Module PyStr.

(** [str.lower] on one character (ASCII letters; other bytes are kept). *)
Definition lower_char (c : ascii) : ascii :=
  let n := nat_of_ascii c in
  if (65 <=? n)%nat && (n <=? 90)%nat then ascii_of_nat (n + 32) else c.

Fixpoint lower (s : string) : string :=
  match s with
  | EmptyString => EmptyString
  | String c s' => String (lower_char c) (lower s')
  end.

(** The newline character. *)
Definition nl : string := String "010"%char "".

(** [s.rfind(c)]: the highest index of [c] in [s]; [None] stands for -1. *)
Fixpoint rfind (c : ascii) (s : string) : option nat :=
  match s with
  | EmptyString => None
  | String a s' =>
      match rfind c s' with
      | Some i => Some (S i)
      | None => if Ascii.eqb a c then Some 0%nat else None
      end
  end.

(** [s.lstrip(c)] for a one-character set. *)
Fixpoint lstrip (c : ascii) (s : string) : string :=
  match s with
  | EmptyString => EmptyString
  | String a s' => if Ascii.eqb a c then lstrip c s' else s
  end.

(** [s[i:]] and [s[:i]]. *)
Definition slice_from (i : nat) (s : string) : string :=
  substring i (String.length s - i) s.
Definition slice_to (i : nat) (s : string) : string :=
  substring 0 i s.

(** [sep.join(items)], written as the accumulating loop it is: the
    separator is emitted before every item except the first. *)
Fixpoint join_loop (sep : string) (acc : string) (items : list string) : string :=
  match items with
  | [] => acc
  | x :: rest => join_loop sep (acc +:+ sep +:+ x) rest
  end.

Definition join (sep : string) (items : list string) : string :=
  match items with
  | [] => ""
  | x :: rest => join_loop sep x rest
  end.

(** [str(n)] for a natural number, and two lower-case hexadecimal digits. *)
Definition decimal (n : nat) : string := NilEmpty.string_of_uint (Nat.to_uint n).

Definition hex_digit (n : nat) : ascii :=
  match String.get n "0123456789abcdef" with
  | Some c => c
  | None => "0"%char
  end.

Definition hex2 (n : nat) : string :=
  String (hex_digit (n / 16)) (String (hex_digit (n mod 16)) "").

(** [c in s] for a character. *)
Fixpoint contains (c : ascii) (s : string) : bool :=
  match s with
  | EmptyString => false
  | String a s' => Ascii.eqb a c || contains c s'
  end.

End PyStr.

(** ** UTF-8

    The name of a file is a sequence of bytes.  Python decodes it with
    the [surrogateescape] error handler: a well-formed UTF-8 sequence is
    one character, and every other byte becomes one lone surrogate
    (U+DC80 to U+DCFF).  Text with a lone surrogate has no UTF-8
    encoding.  A [string] that stands for text holds the bytes the text
    was decoded from. *)

Module Utf8.

(** The byte at index [i], 256 when there is none. *)
Definition byte (i : nat) (s : string) : nat :=
  match String.get i s with
  | Some c => nat_of_ascii c
  | None => 256
  end.

Definition within (lo hi n : nat) : bool := (lo <=? n)%nat && (n <=? hi)%nat.

Definition continuation : nat -> bool := within 128 191.

(** The number of bytes of the well-formed sequence at the start of [s]
    (the table of well-formed UTF-8 byte sequences of the Unicode
    standard); 0 when the first byte starts no such sequence. *)
Definition sequence (s : string) : nat :=
  let a := byte 0 s in
  let b := byte 1 s in
  let c := byte 2 s in
  let d := byte 3 s in
  if within 0 127 a then 1
  else if within 194 223 a then
    if continuation b then 2 else 0
  else if within 224 239 a then
    if (if (a =? 224)%nat then within 160 191 b
        else if (a =? 237)%nat then within 128 159 b
        else continuation b)
       && continuation c
    then 3 else 0
  else if within 240 244 a then
    if (if (a =? 240)%nat then within 144 191 b
        else if (a =? 244)%nat then within 128 143 b
        else continuation b)
       && continuation c && continuation d
    then 4 else 0
  else 0.

(** The first byte that does not decode: its index among the characters
    of the text, and the bytes from it on.  [skip] bytes of a sequence
    already recognised are still to be passed. *)
Fixpoint undecodable (skip : nat) (pos : nat) (s : string) : option (nat * string) :=
  match s with
  | EmptyString => None
  | String _ s' =>
      match skip with
      | S skip' => undecodable skip' pos s'
      | O =>
          match sequence s with
          | O => Some (pos, s)
          | S skip' => undecodable skip' (S pos) s'
          end
      end
  end.

(** The number of bytes at the start of [s] that do not decode, one
    after the other. *)
Fixpoint run (s : string) : nat :=
  match s with
  | EmptyString => 0
  | String _ s' =>
      match sequence s with
      | O => S (run s')
      | S _ => 0
      end
  end.

Definition valid (s : string) : bool :=
  match undecodable 0 0 s with
  | None => true
  | Some _ => false
  end.

End Utf8.

(** [repr(s)] for text.  The quote is the single one unless the text
    holds a single quote and no double quote.  Backslash, the quote,
    tab, newline and carriage return are escaped with a backslash, the
    other characters that are not printable in hexadecimal, a lone
    surrogate as [\udcXX].  Beyond U+00FF a character is taken to be
    printable. *)
Module PyRepr.

Definition dquote : ascii := "034"%char.
Definition squote : ascii := "039"%char.

Definition quote_of (s : string) : ascii :=
  if PyStr.contains squote s && negb (PyStr.contains dquote s)
  then dquote else squote.

(** One ASCII character. *)
Definition escape_ascii (quote : ascii) (c : ascii) : string :=
  let n := nat_of_ascii c in
  if Ascii.eqb c "\"%char then "\\"
  else if Ascii.eqb c quote then String "\"%char (String quote "")
  else if (n =? 9)%nat then "\t"
  else if (n =? 10)%nat then "\n"
  else if (n =? 13)%nat then "\r"
  else if (n <? 32)%nat || (n =? 127)%nat then "\x" +:+ PyStr.hex2 n
  else String c "".

(** U+0080 to U+00A0 and U+00AD, the characters of Latin-1 that are not
    printable: the sequences C2 80 to C2 A0, and C2 AD. *)
Definition latin1_unprintable (s : string) : bool :=
  (Utf8.byte 0 s =? 194)%nat
  && (Utf8.within 128 160 (Utf8.byte 1 s) || (Utf8.byte 1 s =? 173)%nat).

(** [skip] bytes of the current character are still to be passed; they
    are copied when [emit] is set. *)
Fixpoint escape (quote : ascii) (skip : nat) (emit : bool) (s : string) : string :=
  match s with
  | EmptyString => ""
  | String a s' =>
      match skip with
      | S skip' =>
          if emit then String a (escape quote skip' emit s')
          else escape quote skip' emit s'
      | O =>
          match Utf8.sequence s with
          | O => "\udc" +:+ PyStr.hex2 (nat_of_ascii a) +:+ escape quote 0 true s'
          | 1 => escape_ascii quote a +:+ escape quote 0 true s'
          | S skip' =>
              if latin1_unprintable s
              then "\x" +:+ PyStr.hex2 (Utf8.byte 1 s) +:+ escape quote skip' false s'
              else String a (escape quote skip' true s')
          end
      end
  end.

Definition repr (s : string) : string :=
  let quote := quote_of s in
  String quote (escape quote 0 true s +:+ String quote "").

End PyRepr.

(** ** pathlib.Path

    A path is its anchor (absolute or relative) and its components.
    pathlib normalises on construction: no component is empty, is ["."]
    or contains the separator. *)

Record Path := mkPath { absolute : bool; parts : list string }.

#[global] Instance Path_eq_dec : EqDecision Path.
Proof. solve_decision. Defined.

#[global] Instance Path_countable : Countable Path.
Proof.
  apply (inj_countable' (fun p => (absolute p, parts p))
                        (fun t => mkPath (fst t) (snd t))).
  by intros [].
Defined.

Module PyPath.

(** [path.name]: the final component, [""] when there is none. *)
Definition name (p : Path) : string := List.last (parts p) "".

(** [path.suffix]:
    [i = name.rfind('.'); name[i:] if 0 < i < len(name) - 1 else ''] *)
Definition suffix (p : Path) : string :=
  let n := name p in
  match PyStr.rfind "."%char n with
  | Some i =>
      if (0 <? i)%nat && (i <? String.length n - 1)%nat
      then PyStr.slice_from i n else ""
  | None => ""
  end.

(** [path.stem]: the name without its suffix. *)
Definition stem (p : Path) : string :=
  let n := name p in
  match PyStr.rfind "."%char n with
  | Some i =>
      if (0 <? i)%nat && (i <? String.length n - 1)%nat
      then PyStr.slice_to i n else n
  | None => n
  end.

(** [path / component], for a component that is a single name. *)
Definition joinpath (p : Path) (component : string) : Path :=
  mkPath (absolute p) (parts p ++ [component]).

(** [path.parent]; the parent of an anchor is itself. *)
Definition parent (p : Path) : Path :=
  mkPath (absolute p) (removelast (parts p)).

(** [str(path)]. *)
Definition str (p : Path) : string :=
  if absolute p then "/" +:+ PyStr.join "/" (parts p)
  else match parts p with
       | [] => "."
       | _ => PyStr.join "/" (parts p)
       end.

End PyPath.

(** ** Python values stored in metadata and keyword arguments *)

Inductive PyVal :=
| PyNone
| PyBool (b : bool)
| PyInt (n : Z)
| PyString (s : string).

#[global] Instance PyVal_eq_dec : EqDecision PyVal.
Proof. solve_decision. Defined.

(** Truth value testing. *)
Definition truthy (v : PyVal) : bool :=
  match v with
  | PyNone => false
  | PyBool b => b
  | PyInt n => negb (n =? 0)%Z
  | PyString s => negb (String.eqb s "")
  end.

(** ** dict[str, Any]

    Python dictionaries keep insertion order, which [json.dump] writes
    out, so a dictionary is the list of its items in that order. *)

Definition Dict := list (string * PyVal).

Module PyDict.

Fixpoint get (d : Dict) (k : string) : option PyVal :=
  match d with
  | [] => None
  | (k', v) :: rest => if String.eqb k' k then Some v else get rest k
  end.

(** [d.get(k, default)] *)
Definition get_default (d : Dict) (k : string) (default : PyVal) : PyVal :=
  match get d k with Some v => v | None => default end.

(** [k in d] *)
Definition contains (d : Dict) (k : string) : bool :=
  match get d k with Some _ => true | None => false end.

(** [d[k] = v]: replaces in place, a new key goes last. *)
Fixpoint set (d : Dict) (k : string) (v : PyVal) : Dict :=
  match d with
  | [] => [(k, v)]
  | (k', v') :: rest =>
      if String.eqb k' k then (k', v) :: rest else (k', v') :: set rest k v
  end.

End PyDict.

(** ** Exceptions

    The values below are instances of subclasses of Python's [Exception],
    the ones an [except Exception] clause catches. *)

Inductive ExcClass :=
| FileNotFoundError
| PermissionError
| IsADirectoryError
| NotADirectoryError
| FileExistsError
| RuntimeError
| ValueError
| UnicodeEncodeError
| TypeError
| SDKError.

#[global] Instance ExcClass_eq_dec : EqDecision ExcClass.
Proof. solve_decision. Defined.

(** [exc_str] is [str(e)]. *)
Record Exception := mkExc { exc_class : ExcClass; exc_str : string }.

#[global] Instance Exception_eq_dec : EqDecision Exception.
Proof. solve_decision. Defined.

(** [isinstance(e, OSError)]: the I/O error kind. *)
Definition is_OSError (e : Exception) : bool :=
  match exc_class e with
  | FileNotFoundError | PermissionError | IsADirectoryError
  | NotADirectoryError | FileExistsError => true
  | RuntimeError | ValueError | UnicodeEncodeError | TypeError | SDKError => false
  end.

(** [text.encode("utf-8")], as a file opened with [encoding="utf-8"]
    encodes what is written to it.  The error names the first run of
    lone surrogates by the index of its characters in [text]. *)
Definition utf_8_encode (text : string) : Exception + string :=
  match Utf8.undecodable 0 0 text with
  | None => inr text
  | Some (start, rest) =>
      let n := Utf8.run rest in
      inl (mkExc UnicodeEncodeError
             ("'utf-8' codec can't encode "
              +:+ (if (n =? 1)%nat then
                     "character '\udc" +:+ PyStr.hex2 (Utf8.byte 0 rest)
                     +:+ "' in position " +:+ PyStr.decimal start
                   else
                     "characters in position " +:+ PyStr.decimal start
                     +:+ "-" +:+ PyStr.decimal (start + n - 1))
              +:+ ": surrogates not allowed"))
  end.

(** ** The file system

    A finite map from paths to nodes.  A path without components is the
    anchor itself (the root, or the working directory), which always is a
    directory.  Regular files carry their read and write permission and
    their bytes.

    Scope: directories can always be searched and written to, a new file
    is created readable and writable, names and paths are within the
    length limits of the file system, and the device neither fills up nor
    fails; the errors modelled are those of missing nodes, of nodes of
    the wrong kind and of the permissions of regular files. *)

Inductive Node :=
| Directory
| RegularFile (readable writable : bool) (data : string).

#[global] Instance Node_eq_dec : EqDecision Node.
Proof. solve_decision. Defined.

Module FS.

Definition stat (fs : gmap Path Node) (p : Path) : option Node :=
  match parts p with
  | [] => Some Directory
  | _ => fs !! p
  end.

Definition is_dir (fs : gmap Path Node) (p : Path) : bool :=
  match stat fs p with Some Directory => true | _ => false end.

(** The text of an [OSError] raised by the operating system for a path:
    [f"[Errno {errno}] {strerror}: {filename!r}"]. *)
Definition os_error (c : ExcClass) (errno : string) (strerror : string) (p : Path)
  : Exception :=
  mkExc c ("[Errno " +:+ errno +:+ "] " +:+ strerror +:+ ": "
           +:+ PyRepr.repr (PyPath.str p)).

Definition ENOENT := os_error FileNotFoundError "2" "No such file or directory".
Definition EACCES := os_error PermissionError "13" "Permission denied".
Definition EEXIST := os_error FileExistsError "17" "File exists".
Definition ENOTDIR := os_error NotADirectoryError "20" "Not a directory".
Definition EISDIR := os_error IsADirectoryError "21" "Is a directory".

(** The components of a path are resolved from the anchor down.
    [through_file] tells whether, on the way to the last component, a
    regular file is met where a directory is needed, before any
    component is found missing; [prefix] is the part resolved so far. *)
Fixpoint through_file (fs : gmap Path Node) (abs : bool)
    (prefix : list string) (components : list string) : bool :=
  match components with
  | [] => false
  | component :: rest =>
      match stat fs (mkPath abs prefix) with
      | Some Directory => through_file fs abs (prefix ++ [component]) rest
      | Some (RegularFile _ _ _) => true
      | None => false
      end
  end.

(** The error for a path that has no node. *)
Definition missing (fs : gmap Path Node) (p : Path) : Exception :=
  if through_file fs (absolute p) [] (parts p) then ENOTDIR p else ENOENT p.

(** [open(p, "rb")] followed by [read()]. *)
Definition read_bytes (fs : gmap Path Node) (p : Path) : Exception + string :=
  match stat fs p with
  | None => inl (missing fs p)
  | Some Directory => inl (EISDIR p)
  | Some (RegularFile false _ _) => inl (EACCES p)
  | Some (RegularFile true _ data) => inr data
  end.

(** [open(p, "w")], the write of [data], and the close. *)
Definition write (fs : gmap Path Node) (p : Path) (data : string)
  : Exception + gmap Path Node :=
  match stat fs p with
  | Some Directory => inl (EISDIR p)
  | Some (RegularFile _ false _) => inl (EACCES p)
  | Some (RegularFile r true _) => inr (<[p := RegularFile r true data]> fs)
  | None =>
      match stat fs (PyPath.parent p) with
      | Some Directory => inr (<[p := RegularFile true true data]> fs)
      | _ => inl (missing fs p)
      end
  end.

(** [os.mkdir(p)] *)
Definition os_mkdir (fs : gmap Path Node) (p : Path) : Exception + gmap Path Node :=
  match stat fs p with
  | Some _ => inl (EEXIST p)
  | None =>
      match stat fs (PyPath.parent p) with
      | Some Directory => inr (<[p := Directory]> fs)
      | _ => inl (missing fs p)
      end
  end.

(** [Path.mkdir(parents=False, exist_ok=True)]: an [OSError] other than
    [FileNotFoundError] is dropped when the path is a directory. *)
Definition mkdir_exist_ok (fs : gmap Path Node) (p : Path)
  : Exception + gmap Path Node :=
  match os_mkdir fs p with
  | inr fs' => inr fs'
  | inl e =>
      match exc_class e with
      | FileNotFoundError => inl e
      | _ => if is_dir fs p then inr fs else inl e
      end
  end.

(** [Path.mkdir(parents=True, exist_ok=True)], by recursion on the
    components of the path, last one first:
<<
    try: os.mkdir(self)
    except FileNotFoundError:
        if not parents or self.parent == self: raise
        self.parent.mkdir(parents=True, exist_ok=True)
        self.mkdir(parents=False, exist_ok=exist_ok)
    except OSError:
        if not exist_ok or not self.is_dir(): raise
>> *)
Fixpoint mkdir_parents_from (abs : bool) (rparts : list string)
                            (fs : gmap Path Node) : Exception + gmap Path Node :=
  let p := mkPath abs (rev rparts) in
  match os_mkdir fs p with
  | inr fs' => inr fs'
  | inl e =>
      match exc_class e with
      | FileNotFoundError =>
          match rparts with
          | [] => inl e
          | _ :: rparent =>
              match mkdir_parents_from abs rparent fs with
              | inl e' => inl e'
              | inr fs1 => mkdir_exist_ok fs1 p
              end
          end
      | _ => if is_dir fs p then inr fs else inl e
      end
  end.

Definition mkdir_parents (fs : gmap Path Node) (p : Path)
  : Exception + gmap Path Node :=
  mkdir_parents_from (absolute p) (rev (parts p)) fs.

End FS.

(** ** base64.b64encode *)

Module Base64.

Definition alphabet : string :=
  "ABCDEFGHIJKLMNOPQRSTUVWXYZabcdefghijklmnopqrstuvwxyz0123456789+/".

Definition digit (n : N) : ascii :=
  match String.get (N.to_nat n) alphabet with
  | Some c => c
  | None => "="%char
  end.

Fixpoint b64encode (bytes : string) : string :=
  match bytes with
  | EmptyString => ""
  | String a EmptyString =>
      let x := N_of_ascii a in
      String (digit (x / 4)) (String (digit ((x mod 4) * 16)) "==")
  | String a (String b EmptyString) =>
      let x := N_of_ascii a in
      let y := N_of_ascii b in
      String (digit (x / 4))
        (String (digit ((x mod 4) * 16 + y / 16))
           (String (digit ((y mod 16) * 4)) "="))
  | String a (String b (String c rest)) =>
      let x := N_of_ascii a in
      let y := N_of_ascii b in
      let z := N_of_ascii c in
      String (digit (x / 4))
        (String (digit ((x mod 4) * 16 + y / 16))
           (String (digit ((y mod 16) * 4 + z / 64))
              (String (digit (z mod 64)) (b64encode rest))))
  end%N.

End Base64.

(** ** json.dump(obj, f, indent=2, ensure_ascii=False) for a flat dictionary *)

Module Json.

Definition dquote : ascii := "034"%char.

Definition hex_digit (n : nat) : ascii :=
  match String.get n "0123456789abcdef" with
  | Some c => c
  | None => "0"%char
  end.

(** One character of a JSON string: quotes, backslashes and control
    characters are escaped, everything else is written as it is. *)
Definition escape_char (c : ascii) : string :=
  let n := nat_of_ascii c in
  if Ascii.eqb c dquote then String "\"%char (String dquote "")
  else if Ascii.eqb c "\"%char then "\\"
  else if (n =? 10)%nat then "\n"
  else if (n =? 13)%nat then "\r"
  else if (n =? 9)%nat then "\t"
  else if (n =? 8)%nat then "\b"
  else if (n =? 12)%nat then "\f"
  else if (n <? 32)%nat then
    "\u00" +:+ String (hex_digit (n / 16)) (String (hex_digit (n mod 16)) "")
  else String c "".

Fixpoint escape (s : string) : string :=
  match s with
  | EmptyString => ""
  | String c s' => escape_char c +:+ escape s'
  end.

Definition quote (s : string) : string :=
  String dquote (escape s +:+ String dquote "").

Definition dump_value (v : PyVal) : string :=
  match v with
  | PyNone => "null"
  | PyBool true => "true"
  | PyBool false => "false"
  | PyInt n => NilZero.string_of_int (Z.to_int n)
  | PyString s => quote s
  end.

Definition dump_item (kv : string * PyVal) : string :=
  "  " +:+ quote (fst kv) +:+ ": " +:+ dump_value (snd kv).

Definition dumps (d : Dict) : string :=
  match d with
  | [] => "{}"
  | _ =>
      "{" +:+ PyStr.nl +:+ PyStr.join ("," +:+ PyStr.nl) (map dump_item d)
      +:+ PyStr.nl +:+ "}"
  end.

(** [JSONEncoder(indent=2, ensure_ascii=False).iterencode(d)]: the
    pieces [json.dump] hands to [f.write] one by one, whose concatenation
    is [dumps d]. *)
Definition item_chunks (kv : string * PyVal) : list string :=
  [quote (fst kv); ": "; dump_value (snd kv)].

Definition iterencode (d : Dict) : list string :=
  match d with
  | [] => ["{}"]
  | first :: rest =>
      ["{"; PyStr.nl +:+ "  "]
      ++ item_chunks first
      ++ flat_map (fun kv => ("," +:+ PyStr.nl +:+ "  ") :: item_chunks kv) rest
      ++ [PyStr.nl; "}"]
  end%list.

End Json.

(** ** The world: file system, environment, remote service *)

(** What the Mistral SDK returns. *)
Module Sdk.
Record UploadedFile := mkUploadedFile { id : string }.
Record SignedUrl := mkSignedUrl { url : string }.
Record OCRPage := mkOCRPage { index : Z; markdown : string }.
Record OCRResponse := mkOCRResponse { pages : list OCRPage }.
End Sdk.

(** The calls made to the remote service, in the order they are made. *)
Inductive Request :=
| FilesUpload (file_name content purpose : string)
| FilesGetSignedUrl (file_id : string)
| OcrProcess (model : string) (document : Dict) (include_image_base64 : PyVal).

#[global] Instance Request_eq_dec : EqDecision Request.
Proof. solve_decision. Defined.

(** [R] is the state of the remote service, whatever it is. *)
Record World (R : Type) := mkWorld {
  fs : gmap Path Node;
  environ : gmap string string;
  remote : R;
  requests : list Request
}.
Arguments mkWorld {R} _ _ _ _.
Arguments fs {R} _.
Arguments environ {R} _.
Arguments remote {R} _.
Arguments requests {R} _.

(** The SDK client ([self.client]): each endpoint answers, or raises, from
    the remote state and moves it on. *)
Record MistralClient (R : Type) := mkClient {
  files_upload : string -> string -> string -> R -> (Exception + Sdk.UploadedFile) * R;
  files_get_signed_url : string -> R -> (Exception + Sdk.SignedUrl) * R;
  ocr_process : string -> Dict -> PyVal -> R -> (Exception + Sdk.OCRResponse) * R
}.
Arguments mkClient {R} _ _ _.
Arguments files_upload {R} _ _ _ _ _.
Arguments files_get_signed_url {R} _ _ _.
Arguments ocr_process {R} _ _ _ _ _.

(** ** The monad of Python code: state, and exceptions that keep the state
    reached when they were raised *)

Definition M (R A : Type) : Type := World R -> (Exception + A) * World R.

Module PyM.
Section Ops.
Context {R : Type}.

Definition ret {A} (a : A) : M R A := fun w => (inr a, w).

Definition bind {A B} (c : M R A) (k : A -> M R B) : M R B :=
fun w =>
  match c w with
  | (inr a, w') => k a w'
  | (inl e, w') => (inl e, w')
  end.

Definition raise {A} (e : Exception) : M R A := fun w => (inl e, w).

(** [try: c  except Exception as e: handler(e)] *)
Definition try_except {A} (c : M R A) (handler : Exception -> M R A) : M R A :=
fun w =>
  match c w with
  | (inr a, w') => (inr a, w')
  | (inl e, w') => handler e w'
  end.

Definition with_fs (w : World R) (fs' : gmap Path Node) : World R :=
mkWorld fs' (environ w) (remote w) (requests w).

Definition sent (w : World R) (r' : R) (q : Request) : World R :=
mkWorld (fs w) (environ w) r' (requests w ++ [q]).

(** [os.environ.get(k)] *)
Definition environ_get (k : string) : M R (option string) :=
fun w => (inr (environ w !! k), w).

Definition read_bytes (p : Path) : M R string :=
fun w => (FS.read_bytes (fs w) p, w).

Definition fs_update (op : gmap Path Node -> Exception + gmap Path Node) : M R unit :=
fun w =>
  match op (fs w) with
  | inr fs' => (inr tt, with_fs w fs')
  | inl e => (inl e, w)
  end.

Definition mkdir_parents (p : Path) : M R unit :=
fs_update (fun fs => FS.mkdir_parents fs p).

Definition write (p : Path) (data : string) : M R unit :=
fs_update (fun fs => FS.write fs p data).

(** The loop [for chunk in chunks: f.write(chunk)] on a text file opened
    with [encoding="utf-8"]: every chunk is encoded when it is written;
    the loop ends at the first chunk that cannot be.  It yields the error,
    if any, and the bytes the file has taken. *)
Fixpoint write_loop (chunks : list string) (written : string)
  : option Exception * string :=
  match chunks with
  | [] => (None, written)
  | chunk :: rest =>
      match utf_8_encode chunk with
      | inl e => (Some e, written)
      | inr bytes => write_loop rest (written +:+ bytes)
      end
  end.

(** [with open(p, "w", encoding="utf-8") as f: for chunk in chunks:
    f.write(chunk)].  Opening the file creates or empties it, and comes
    first, so that its error is the one raised.  The file is closed when
    the block is left, also by an exception: the bytes taken so far are
    then what the file holds. *)
Definition write_chunks (p : Path) (chunks : list string) : M R unit :=
fun w =>
  let (error, written) := write_loop chunks "" in
  match FS.write (fs w) p written with
  | inl e => (inl e, w)
  | inr fs' =>
      match error with
      | None => (inr tt, with_fs w fs')
      | Some e => (inl e, with_fs w fs')
      end
  end.

(** A call to an endpoint: it is logged, then answered. *)
Definition call {A} (q : Request) (endpoint : R -> (Exception + A) * R) : M R A :=
fun w => let (a, r') := endpoint (remote w) in (a, sent w r' q).

End Ops.
End PyM.

Notation "x <- c ;; k" := (PyM.bind c (fun x => k))
  (at level 100, c at next level, right associativity).
Notation "c ;;; k" := (PyM.bind c (fun _ => k))
  (at level 100, right associativity).

(** ** base.py *)

Record OCRResult := mkOCRResult {
  content : string;
  metadata : Dict;
  output_path : option Path
}.

#[global] Instance OCRResult_eq_dec : EqDecision OCRResult.
Proof. solve_decision. Defined.

(** The abstract members of [BaseOCRService]; [kwargs] are the keyword
    arguments handed through by [process_files]. *)
Class BaseOCRService (R : Type) (S : Type) := {
  provider_name : S -> string;
  process_file : S -> Path -> option Path -> Dict -> M R OCRResult
}.

Section Base.
Context {R S : Type} `{BaseOCRService R S}.

(** The body of the [except Exception as e] clause. *)
Definition failed_result (self : S) (file_path : Path) (e : Exception) : OCRResult :=
  mkOCRResult ""
    [("error", PyString (exc_str e));
     ("provider", PyString (provider_name self));
     ("source_file", PyString (PyPath.str file_path));
     ("success", PyBool false)]
    None.

(** The [for] loop, [results] being the list built so far. *)
Fixpoint process_files_loop (self : S) (file_paths : list Path)
    (output_dir : option Path) (kwargs : Dict) (results : list OCRResult)
  : M R (list OCRResult) :=
  match file_paths with
  | [] => PyM.ret results
  | file_path :: rest =>
      results <- PyM.try_except
                   (result <- process_file self file_path output_dir kwargs ;;
                    PyM.ret (results ++ [result])%list)
                   (fun e =>
                      let failed_result := failed_result self file_path e in
                      PyM.ret (results ++ [failed_result])%list) ;;
      process_files_loop self rest output_dir kwargs results
  end.

Definition process_files (self : S) (file_paths : list Path)
    (output_dir : option Path) (kwargs : Dict) : M R (list OCRResult) :=
  process_files_loop self file_paths output_dir kwargs [].

End Base.

(** ** mistral.py *)

Module MistralOCRService.

(** The attributes of an instance. *)
Record t (R : Type) := mk {
  model : string;
  api_key : string;
  client : MistralClient R
}.
Arguments mk {R} _ _ _.
Arguments model {R} _.
Arguments api_key {R} _.
Arguments client {R} _.

Section Methods.
Context {R : Type}.

(** The SDK's constructor [Mistral(api_key=...)]. *)
Variable Mistral : string -> Exception + MistralClient R.

Definition __init__ (api_key : option string) (model : string) : M R (t R) :=
  from_env <- PyM.environ_get "MISTRAL_API_KEY" ;;
  (* self.api_key = api_key or os.environ.get("MISTRAL_API_KEY") *)
  let self_api_key :=
    match api_key with
    | Some k => if String.eqb k "" then from_env else Some k
    | None => from_env
    end in
  match self_api_key with
  | None | Some "" =>
      PyM.raise (mkExc ValueError
        "MISTRAL_API_KEY environment variable must be set or api_key provided")
  | Some key =>
      match Mistral key with
      | inr client => PyM.ret (mk model key client)
      | inl e =>
          PyM.raise (mkExc RuntimeError
            ("Error initializing Mistral client: " +:+ exc_str e))
      end
  end.

Definition provider_name (self : t R) : string := "mistral".

Definition image_extensions : list string :=
  [".png"; ".jpg"; ".jpeg"; ".avif"; ".gif"; ".bmp"; ".tiff"; ".tif"].

Definition _is_image_file (file_path : Path) : bool :=
  bool_decide (PyStr.lower (PyPath.suffix file_path) ∈ image_extensions).

Definition _encode_file_to_base64 (file_path : Path) : M R string :=
  PyM.try_except
    (bytes <- PyM.read_bytes file_path ;;
     PyM.ret (Base64.b64encode bytes))
    (fun e =>
       match exc_class e with
       | FileNotFoundError =>
           PyM.raise (mkExc FileNotFoundError
             ("File not found: " +:+ PyPath.str file_path))
       | _ =>
           PyM.raise (mkExc RuntimeError
             ("Error encoding file " +:+ PyPath.str file_path +:+ ": " +:+ exc_str e))
       end).

Definition _extract_content_from_response (ocr_response : Sdk.OCRResponse) : string :=
  PyStr.join (PyStr.nl +:+ PyStr.nl) (map Sdk.markdown (Sdk.pages ocr_response)).

Definition _create_metadata (self : t R) (ocr_response : Sdk.OCRResponse)
    (source_path : Path) (include_image_base64 : PyVal) : Dict :=
  let metadata :=
    [("scheme", PyString "mistral_ocr");
     ("provider", PyString (provider_name self));
     ("model", PyString (model self));
     ("source_file", PyString (PyPath.str source_path));
     ("include_image_base64", include_image_base64)] in
  match Sdk.pages ocr_response with
  | [] => metadata
  | _ :: _ =>
      let pages := Sdk.pages ocr_response in
      if (0 <? length pages)%nat
      then PyDict.set metadata "pages" (PyInt (Z.of_nat (length pages)))
      else metadata
  end.

(** "Determine document type and prepare data": the first statement of
    [process_file], which yields [document]. *)
Definition prepare_document (self : t R) (file_path : Path) : M R Dict :=
  if _is_image_file file_path then
    base64_data <- _encode_file_to_base64 file_path ;;
    let mime_type :=
      "image/" +:+ PyStr.lstrip "."%char (PyStr.lower (PyPath.suffix file_path)) in
    let mime_type :=
      if String.eqb mime_type "image/jpg" then "image/jpeg" else mime_type in
    PyM.ret [("type", PyString "image_url");
             ("image_url",
              PyString ("data:" +:+ mime_type +:+ ";base64," +:+ base64_data))]
  else
    file <- PyM.read_bytes file_path ;;
    uploaded_file <-
      PyM.call (FilesUpload (PyPath.name file_path) file "ocr")
        (files_upload (client self) (PyPath.name file_path) file "ocr") ;;
    signed_url <-
      PyM.call (FilesGetSignedUrl (Sdk.id uploaded_file))
        (files_get_signed_url (client self) (Sdk.id uploaded_file)) ;;
    PyM.ret [("type", PyString "document_url");
             ("document_url", PyString (Sdk.url signed_url))].

(** "Save to files if output_dir is specified"; a [Path] is always
    true, so the test is on [None].  [content] is text of the response
    of the service, taken to be Unicode text without lone surrogates, so
    that [write_text] can encode it; [json.dump] writes the metadata
    piece by piece, among them the path of the source and the name of
    the model as the caller gave them, which need not be. *)
Definition save (file_path : Path) (output_dir : option Path)
    (content : string) (metadata : Dict) : M R (option Path) :=
  match output_dir with
  | None => PyM.ret None
  | Some output_dir =>
      PyM.mkdir_parents output_dir ;;;
      let output_path :=
        PyPath.joinpath output_dir (PyPath.stem file_path +:+ ".ocr.md") in
      PyM.write output_path content ;;;
      let metadata_path :=
        PyPath.joinpath output_dir (PyPath.stem file_path +:+ ".ocr.json") in
      PyM.write_chunks metadata_path (Json.iterencode metadata) ;;;
      PyM.ret (Some output_path)
  end.

Definition process_file (self : t R) (file_path : Path)
    (output_dir : option Path) (include_image_base64 : PyVal) : M R OCRResult :=
  document <- prepare_document self file_path ;;
  ocr_response <-
    PyM.call (OcrProcess (model self) document include_image_base64)
      (ocr_process (client self) (model self) document include_image_base64) ;;
  let content := _extract_content_from_response ocr_response in
  let metadata := _create_metadata self ocr_response file_path include_image_base64 in
  output_path <- save file_path output_dir content metadata ;;
  PyM.ret (mkOCRResult content metadata output_path).

(** [self.process_file(file_path, output_dir, **kwargs)] as
    [process_files] calls it: [include_image_base64] is taken from the
    keyword arguments, with [False] as its default; a keyword named
    like the first positional parameter is a [TypeError]; the other
    keywords are ignored. *)
Definition process_file_kwargs (self : t R) (file_path : Path)
    (output_dir : option Path) (kwargs : Dict) : M R OCRResult :=
  if PyDict.contains kwargs "file_path" then
    PyM.raise (mkExc TypeError
      "MistralOCRService.process_file() got multiple values for argument 'file_path'")
  else
    process_file self file_path output_dir
      (PyDict.get_default kwargs "include_image_base64" (PyBool false)).

End Methods.

#[global] Instance service (R : Type) : BaseOCRService R (t R) :=
  Build_BaseOCRService R (t R) provider_name process_file_kwargs.

End MistralOCRService.

(** ** __main__.py: the [ocr] command *)

(** [str(v)], as an f-string formats a value. *)
Definition py_str (v : PyVal) : string :=
  match v with
  | PyNone => "None"
  | PyBool true => "True"
  | PyBool false => "False"
  | PyInt n => NilZero.string_of_int (Z.to_int n)
  | PyString s => s
  end.

(** What the command shows: the text given to [console.print] (markup
    included), and the text of the status line. *)
Inductive ConsoleEvent :=
| Print (text : string)
| Status (text : string).

#[global] Instance ConsoleEvent_eq_dec : EqDecision ConsoleEvent.
Proof. solve_decision. Defined.

(** How the command ends: it returns, or [typer.Exit(code)] is raised, or
    another exception leaves it. *)
Inductive Outcome :=
| Returned
| Exit (code : Z)
| Raised (e : Exception).

(** Scope: [console.print] and [status.update] are taken to show their
    text and return.  Rich reads the text as markup and raises
    [MarkupError] for a closing tag that matches no open tag, which the
    name of a file or the text of an error can bring in; and
    [Path.exists()] and [Path.is_file()] are taken to answer, where the
    operating system can refuse (a name that is too long, a directory
    that cannot be searched).  Runs in which that happens are outside the
    model of the command. *)

Module Cli.

(** [str(len(xs))] and the like. *)
Definition decimal (n : nat) : string := NilEmpty.string_of_uint (Nat.to_uint n).

(** [path.exists()] and [path.is_file()]. *)
Definition exists_ (fs : gmap Path Node) (p : Path) : bool :=
  match FS.stat fs p with Some _ => true | None => false end.

Definition is_file (fs : gmap Path Node) (p : Path) : bool :=
  match FS.stat fs p with Some (RegularFile _ _ _) => true | _ => false end.

(** "Validate input files": the first loop.  It ends with the message of
    the first path that fails a test, or with [valid_files]. *)
Fixpoint validate (fs : gmap Path Node) (files : list Path) (valid_files : list Path)
  : string + list Path :=
  match files with
  | [] => inr valid_files
  | file_path :: rest =>
      if negb (exists_ fs file_path) then
        inl ("[red]Error:[/red] File " +:+ PyPath.str file_path +:+ " does not exist")
      else if negb (is_file fs file_path) then
        inl ("[red]Error:[/red] " +:+ PyPath.str file_path +:+ " is not a file")
      else validate fs rest (valid_files ++ [file_path])%list
  end.

(** [f"{result.output_path}"] *)
Definition str_output_path (output_path : option Path) : string :=
  match output_path with
  | Some p => PyPath.str p
  | None => "None"
  end.

(** The loop over [enumerate(zip(valid_files, results))]; [i] counts from
    0.  The command's [output_dir] is a [Path], which is always true, so
    the line printed for a success is the one with the output path. *)
Fixpoint report (total_count : nat) (i : nat) (pairs : list (Path * OCRResult))
    (success_count : nat) (console : list ConsoleEvent) : nat * list ConsoleEvent :=
  match pairs with
  | [] => (success_count, console)
  | (file_path, result) :: rest =>
      let console :=
        (console ++ [Status ("Processing " +:+ PyPath.name file_path +:+ "... ("
                             +:+ decimal (i + 1) +:+ "/" +:+ decimal total_count
                             +:+ ")")])%list in
      if truthy (PyDict.get_default (metadata result) "success" (PyBool true)) then
        report total_count (S i) rest (success_count + 1)
          (console ++ [Print ("[green]✓[/green] Processed " +:+ PyPath.name file_path
                              +:+ " → " +:+ str_output_path (output_path result))])%list
      else
        let error :=
          PyDict.get_default (metadata result) "error" (PyString "Unknown error") in
        report total_count (S i) rest success_count
          (console ++ [Print ("[red]✗[/red] Failed " +:+ PyPath.name file_path
                              +:+ ": " +:+ py_str error)])%list
  end.

(** "Summary" *)
Definition summary (success_count total_count : nat) : ConsoleEvent :=
  if (success_count =? total_count)%nat then
    Print ("[bold green]Successfully processed all " +:+ decimal total_count
           +:+ " files![/bold green]")
  else
    Print ("[yellow]Processed " +:+ decimal success_count +:+ "/"
           +:+ decimal total_count +:+ " files successfully[/yellow]").

Section Command.
Context {R : Type}.

(** The SDK's constructor, as in [MistralOCRService.__init__]. *)
Variable Mistral : string -> Exception + MistralClient R.

(** The command on its parsed arguments.  It yields how it ended, what it
    showed, and the world it leaves. *)
Definition ocr (files : list Path) (output_dir : Path) (model : string)
    (include_image_base64 : bool) (w : World R)
  : Outcome * list ConsoleEvent * World R :=
  match validate (fs w) files [] with
  | inl message => (Exit 1, [Print message], w)
  | inr [] => (Returned, [Print "[yellow]Warning:[/yellow] No valid files to process"], w)
  | inr valid_files =>
      match MistralOCRService.__init__ Mistral None model w with
      | (inl e, w1) =>
          (Exit 1,
           [Print ("[red]Error initializing Mistral OCR service:[/red] " +:+ exc_str e)],
           w1)
      | (inr service, w1) =>
          let console :=
            [Print ("Processing " +:+ decimal (length valid_files)
                    +:+ " files with Mistral OCR...")] in
          let total_count := length valid_files in
          let console :=
            (console ++ [Status "[bold green]Processing files...[/bold green]"])%list in
          match process_files service valid_files (Some output_dir)
                  [("include_image_base64", PyBool include_image_base64)] w1 with
          | (inl e, w2) => (Raised e, console, w2)
          | (inr results, w2) =>
              let (success_count, console) :=
                report total_count 0 (zip valid_files results) 0 console in
              (Returned, (console ++ [summary success_count total_count])%list, w2)
          end
      end
  end.

End Command.

End Cli.

(** ** Vocabulary of the specification *)

Section BatchVocabulary.
Context {R S : Type} `{BaseOCRService R S}.

(** What one pass of the loop body appends for [file_path], run in [w]. *)
Definition item_result (self : S) (output_dir : option Path) (kwargs : Dict)
    (file_path : Path) (w : World R) : OCRResult :=
  match process_file self file_path output_dir kwargs w with
  | (inr result, _) => result
  | (inl e, _) => failed_result self file_path e
  end.

(** The world that pass leaves. *)
Definition item_world (self : S) (output_dir : option Path) (kwargs : Dict)
    (file_path : Path) (w : World R) : World R :=
  snd (process_file self file_path output_dir kwargs w).

(** The world after the paths have been gone through, in order. *)
Definition world_after (self : S) (output_dir : option Path) (kwargs : Dict)
    (file_paths : list Path) (w : World R) : World R :=
  fold_left (fun w file_path => item_world self output_dir kwargs file_path w)
            file_paths w.

(** The Results of the passes, in order. *)
Fixpoint results_from (self : S) (output_dir : option Path) (kwargs : Dict)
    (file_paths : list Path) (w : World R) : list OCRResult :=
  match file_paths with
  | [] => []
  | file_path :: rest =>
      item_result self output_dir kwargs file_path w
        :: results_from self output_dir kwargs rest
             (item_world self output_dir kwargs file_path w)
  end.

End BatchVocabulary.

(** A Result counts as successful the way the command line counts it:
    [result.metadata.get("success", True)]. *)
Definition is_successful (result : OCRResult) : bool :=
  truthy (PyDict.get_default (metadata result) "success" (PyBool true)).

(** A failure marker in the metadata: [success] set to [False], or an
    [error] key. *)
Definition has_failure_marker (metadata : Dict) : bool :=
  match PyDict.get metadata "success" with
  | Some (PyBool false) => true
  | _ => false
  end
  || PyDict.contains metadata "error".

(** The invariant of the data model: a failure marker comes with empty
    content and no output path, and a successful Result has no marker. *)
Definition result_invariant (result : OCRResult) : Prop :=
  (has_failure_marker (metadata result) = true ->
   content result = "" /\ output_path result = None)
  /\ (is_successful result = true ->
      PyDict.contains (metadata result) "error" = false
      /\ PyDict.get (metadata result) "success" <> Some (PyBool false)).

(** The remote service is deterministic: every endpoint gives the same
    response to the same request, whatever state it is in. *)
Definition deterministic {R : Type} (client : MistralClient R) : Prop :=
  (forall file_name content purpose r r',
      fst (files_upload client file_name content purpose r)
      = fst (files_upload client file_name content purpose r'))
  /\ (forall file_id r r',
        fst (files_get_signed_url client file_id r)
        = fst (files_get_signed_url client file_id r'))
  /\ (forall model document include_image_base64 r r',
        fst (ocr_process client model document include_image_base64 r)
        = fst (ocr_process client model document include_image_base64 r')).

(** What [mkdir(parents=True, exist_ok=True)] leaves when it returns:
    the path is a directory, and the only change is the creation of
    directories along the path. *)
Definition only_creates_directories (abs : bool) (components : list string)
    (fs fs' : gmap Path Node) : Prop :=
  forall q,
    fs' !! q = fs !! q
    \/ (fs !! q = None /\ fs' !! q = Some Directory
        /\ absolute q = abs /\ parts q `prefix_of` components).

(** What [process_file] raises when reading the source file fails with
    [e0]: the error itself for a document; for an image a
    [FileNotFoundError] for a missing file and a [RuntimeError] around
    any other error. *)
Definition raised_for_unreadable (file_path : Path) (e0 : Exception) : Exception :=
  if MistralOCRService._is_image_file file_path then
    match exc_class e0 with
    | FileNotFoundError =>
        mkExc FileNotFoundError ("File not found: " +:+ PyPath.str file_path)
    | _ =>
        mkExc RuntimeError
          ("Error encoding file " +:+ PyPath.str file_path +:+ ": " +:+ exc_str e0)
    end
  else e0.

(** No credential: nothing, or the empty string. *)
Definition no_key (key : option string) : Prop := key = None \/ key = Some "".

(** ** Reading back what was written

    A reader of base64 and a reader of JSON objects whose values are
    strings, integers, booleans or null, to say what a payload or a file
    holds.  Both are strict: what they accept, [base64.b64decode] and
    [json.loads] accept as well, with the same result. *)

Module Decode.

(** The index of a character in the base64 alphabet. *)
Fixpoint index_from (c : ascii) (alphabet : string) (i : N) : option N :=
  match alphabet with
  | EmptyString => None
  | String a rest => if Ascii.eqb a c then Some i else index_from c rest (i + 1)
  end.

Definition index (c : ascii) : option N := index_from c Base64.alphabet 0.

(** Groups of four characters give three bytes; the last group may end
    in one or two [=], and gives two bytes or one. *)
Fixpoint b64decode (s : string) : option string :=
  match s with
  | EmptyString => Some ""
  | String c0 (String c1 (String c2 (String c3 rest))) =>
      match index c0, index c1 with
      | Some i0, Some i1 =>
          let x := ascii_of_N (i0 * 4 + i1 / 16) in
          if Ascii.eqb c2 "="%char then
            if Ascii.eqb c3 "="%char && String.eqb rest "" && (i1 mod 16 =? 0)
            then Some (String x "") else None
          else
            match index c2 with
            | Some i2 =>
                let y := ascii_of_N ((i1 mod 16) * 16 + i2 / 4) in
                if Ascii.eqb c3 "="%char then
                  if String.eqb rest "" && (i2 mod 4 =? 0)
                  then Some (String x (String y "")) else None
                else
                  match index c3, b64decode rest with
                  | Some i3, Some tail =>
                      let z := ascii_of_N ((i2 mod 4) * 64 + i3) in
                      Some (String x (String y (String z tail)))
                  | _, _ => None
                  end
            | None => None
            end
      | _, _ => None
      end
  | _ => None
  end%N.

(** JSON: white space. *)
Definition is_ws (c : ascii) : bool :=
  let n := nat_of_ascii c in
  (n =? 32)%nat || (n =? 9)%nat || (n =? 10)%nat || (n =? 13)%nat.

Fixpoint skip_ws (s : string) : string :=
  match s with
  | EmptyString => ""
  | String c s' => if is_ws c then skip_ws s' else s
  end.

(** The character a one-letter escape stands for. *)
Definition unescape (c : ascii) : option ascii :=
  if Ascii.eqb c Json.dquote then Some Json.dquote
  else if Ascii.eqb c "\"%char then Some "\"%char
  else if Ascii.eqb c "/"%char then Some "/"%char
  else if Ascii.eqb c "b"%char then Some "008"%char
  else if Ascii.eqb c "f"%char then Some "012"%char
  else if Ascii.eqb c "n"%char then Some "010"%char
  else if Ascii.eqb c "r"%char then Some "013"%char
  else if Ascii.eqb c "t"%char then Some "009"%char
  else None.

Definition hex_value (c : ascii) : option N :=
  let n := N_of_ascii c in
  if (48 <=? n)%N && (n <=? 57)%N then Some (n - 48)%N
  else if (97 <=? n)%N && (n <=? 102)%N then Some (n - 87)%N
  else if (65 <=? n)%N && (n <=? 70)%N then Some (n - 55)%N
  else None.

(** The text of [\uXXXX]: the UTF-8 encoding of the code point; a
    surrogate is not read. *)
Definition code_point (h1 h2 h3 h4 : ascii) : option string :=
  match hex_value h1, hex_value h2, hex_value h3, hex_value h4 with
  | Some a, Some b, Some c, Some d =>
      let n := ((a * 16 + b) * 16 + c) * 16 + d in
      if n <? 128 then Some (String (ascii_of_N n) "")
      else if n <? 2048 then
        Some (String (ascii_of_N (192 + n / 64))
                (String (ascii_of_N (128 + n mod 64)) ""))
      else if (55296 <=? n) && (n <=? 57343) then None
      else
        Some (String (ascii_of_N (224 + n / 4096))
                (String (ascii_of_N (128 + (n / 64) mod 64))
                   (String (ascii_of_N (128 + n mod 64)) "")))
  | _, _, _, _ => None
  end%N.

(** A string, from behind its opening quote: its text, and what follows
    its closing quote. *)
Fixpoint read_string (s : string) : option (string * string) :=
  match s with
  | EmptyString => None
  | String c s1 =>
      if Ascii.eqb c Json.dquote then Some ("", s1)
      else if Ascii.eqb c "\"%char then
        match s1 with
        | EmptyString => None
        | String e s2 =>
            if Ascii.eqb e "u"%char then
              match s2 with
              | String h1 (String h2 (String h3 (String h4 s3))) =>
                  match code_point h1 h2 h3 h4, read_string s3 with
                  | Some text, Some (x, rest) => Some (text +:+ x, rest)
                  | _, _ => None
                  end
              | _ => None
              end
            else
              match unescape e, read_string s2 with
              | Some a, Some (x, rest) => Some (String a x, rest)
              | _, _ => None
              end
        end
      else if (nat_of_ascii c <? 32)%nat then None
      else
        match read_string s1 with
        | Some (x, rest) => Some (String c x, rest)
        | None => None
        end
  end.

(** A value that is no string ends at white space, a comma or a brace. *)
Definition is_delimiter (c : ascii) : bool :=
  is_ws c || Ascii.eqb c ","%char || Ascii.eqb c "}"%char.

Fixpoint read_token (s : string) : string * string :=
  match s with
  | EmptyString => ("", "")
  | String c s' =>
      if is_delimiter c then ("", s)
      else let (token, rest) := read_token s' in (String c token, rest)
  end.

(** Integers are read in the form they are written in. *)
Definition literal (token : string) : option PyVal :=
  if String.eqb token "null" then Some PyNone
  else if String.eqb token "true" then Some (PyBool true)
  else if String.eqb token "false" then Some (PyBool false)
  else
    match NilZero.int_of_string token with
    | Some d =>
        let n := Z.of_int d in
        if String.eqb (NilZero.string_of_int (Z.to_int n)) token
        then Some (PyInt n) else None
    | None => None
    end.

Definition read_value (s : string) : option (PyVal * string) :=
  match s with
  | EmptyString => None
  | String c s' =>
      if Ascii.eqb c Json.dquote then
        match read_string s' with
        | Some (x, rest) => Some (PyString x, rest)
        | None => None
        end
      else
        let (token, rest) := read_token s in
        match literal token with
        | Some v => Some (v, rest)
        | None => None
        end
  end.

(** The members of an object, from the opening quote of a key, entered
    into [d] in the order they are read; [fuel] bounds their number. *)
Fixpoint read_members (fuel : nat) (s : string) (d : Dict) : option Dict :=
  match fuel with
  | O => None
  | S fuel' =>
      match s with
      | EmptyString => None
      | String c s1 =>
          if negb (Ascii.eqb c Json.dquote) then None
          else
            match read_string s1 with
            | None => None
            | Some (k, s2) =>
                match skip_ws s2 with
                | EmptyString => None
                | String colon s3 =>
                    if negb (Ascii.eqb colon ":"%char) then None
                    else
                      match read_value (skip_ws s3) with
                      | None => None
                      | Some (v, s4) =>
                          match skip_ws s4 with
                          | EmptyString => None
                          | String next s5 =>
                              if Ascii.eqb next ","%char then
                                read_members fuel' (skip_ws s5) (PyDict.set d k v)
                              else if Ascii.eqb next "}"%char then
                                match skip_ws s5 with
                                | EmptyString => Some (PyDict.set d k v)
                                | String _ _ => None
                                end
                              else None
                          end
                      end
                end
            end
      end
  end.

(** [json.loads(s)] for an object. *)
Definition json_loads (s : string) : option Dict :=
  match skip_ws s with
  | EmptyString => None
  | String c s1 =>
      if negb (Ascii.eqb c "{"%char) then None
      else
        match skip_ws s1 with
        | EmptyString => None
        | String c' s2 =>
            if Ascii.eqb c' "}"%char then
              match skip_ws s2 with
              | EmptyString => Some []
              | String _ _ => None
              end
            else read_members (String.length s) (String c' s2) []
        end
  end.

End Decode.

(** A file system is a tree when the parent of every node is a
    directory. *)
Definition tree (fs : gmap Path Node) : Prop :=
  forall p node, fs !! p = Some node -> FS.is_dir fs (PyPath.parent p) = true.

(** ** A concrete scenario *)

Module Scenario.

(** The remote state is the number of files uploaded so far. *)
Definition upload (file_name content purpose : string) (n : nat)
  : (Exception + Sdk.UploadedFile) * nat :=
  (inr (Sdk.mkUploadedFile ("file-" +:+ file_name)), Datatypes.S n).

Definition get_signed_url (file_id : string) (n : nat)
  : (Exception + Sdk.SignedUrl) * nat :=
  (inr (Sdk.mkSignedUrl ("https://files.example/" +:+ file_id)), n).

Definition ocr (model : string) (document : Dict) (include_image_base64 : PyVal)
    (n : nat) : (Exception + Sdk.OCRResponse) * nat :=
  (inr (Sdk.mkOCRResponse [Sdk.mkOCRPage 0 "# Title"; Sdk.mkOCRPage 1 "Body"]), n).

(** An OCR endpoint that is down. *)
Definition ocr_down (model : string) (document : Dict) (include_image_base64 : PyVal)
    (n : nat) : (Exception + Sdk.OCRResponse) * nat :=
  (inl (mkExc SDKError "API error occurred: Status 503"), n).

Definition service : MistralOCRService.t nat :=
  MistralOCRService.mk "mistral-ocr-latest" "secret"
    (mkClient upload get_signed_url ocr).

Definition service_down : MistralOCRService.t nat :=
  MistralOCRService.mk "mistral-ocr-latest" "secret"
    (mkClient upload get_signed_url ocr_down).

Definition Mistral (api_key : string) : Exception + MistralClient nat :=
  inr (mkClient upload get_signed_url ocr).

Definition scan_png : Path := mkPath false ["scan.png"].
Definition report_pdf : Path := mkPath false ["in"; "report.pdf"].
Definition scan_pdf : Path := mkPath false ["in"; "scan.pdf"].
Definition locked_png : Path := mkPath false ["locked.png"].
Definition missing_png : Path := mkPath false ["missing.png"].
Definition out : Path := mkPath false ["out"; "ocr"].

Definition disk : gmap Path Node :=
  <[scan_png := RegularFile true true "PNG"]>
  (<[mkPath false ["in"] := Directory]>
  (<[report_pdf := RegularFile true true "%PDF-1.7"]>
  (<[scan_pdf := RegularFile true true "%PDF-1.4"]>
  (<[locked_png := RegularFile false false "PNG"]> ∅)))).

Definition world : World nat := mkWorld disk ∅ 0%nat [].

(** The image processed into [out], and the world this leaves. *)
Definition scan_png_result : OCRResult :=
  mkOCRResult ("# Title" +:+ PyStr.nl +:+ PyStr.nl +:+ "Body")
    [("scheme", PyString "mistral_ocr");
     ("provider", PyString "mistral");
     ("model", PyString "mistral-ocr-latest");
     ("source_file", PyString "scan.png");
     ("include_image_base64", PyBool false);
     ("pages", PyInt 2)]
    (Some (mkPath false ["out"; "ocr"; "scan.ocr.md"])).

Definition after_scan_png : World nat :=
  snd (MistralOCRService.process_file service scan_png (Some out) (PyBool false)
         world).

(** The text of [out/ocr/scan.ocr.json], character by character. *)
Definition quoted (s : string) : string :=
  String "034"%char (s +:+ String "034"%char "").

Definition scan_ocr_json : string :=
  "{" +:+ PyStr.nl
  +:+ "  " +:+ quoted "scheme" +:+ ": " +:+ quoted "mistral_ocr" +:+ "," +:+ PyStr.nl
  +:+ "  " +:+ quoted "provider" +:+ ": " +:+ quoted "mistral" +:+ "," +:+ PyStr.nl
  +:+ "  " +:+ quoted "model" +:+ ": " +:+ quoted "mistral-ocr-latest" +:+ ","
  +:+ PyStr.nl
  +:+ "  " +:+ quoted "source_file" +:+ ": " +:+ quoted "scan.png" +:+ "," +:+ PyStr.nl
  +:+ "  " +:+ quoted "include_image_base64" +:+ ": false," +:+ PyStr.nl
  +:+ "  " +:+ quoted "pages" +:+ ": 2" +:+ PyStr.nl
  +:+ "}".

End Scenario.

(** ** Further cases *)

Module Cases.

(** The scenario with a credential in the environment. *)
Definition keyed : World nat :=
  mkWorld Scenario.disk {["MISTRAL_API_KEY" := "secret"]} 0%nat [].

(** A photograph whose extension is in upper case. *)
Definition photo_JPG : Path := mkPath false ["Photo.JPG"].

Definition photos : World nat :=
  mkWorld (<[photo_JPG := RegularFile true true "JFIF"]> Scenario.disk) ∅ 0%nat [].

(** An image whose name is not UTF-8: the byte E9, Latin-1 for e with an
    acute accent, then [.png]. *)
Definition latin1_png : Path := mkPath false [String "233"%char ".png"].

Definition latin1 : World nat :=
  mkWorld (<[latin1_png := RegularFile true true "PNG"]> Scenario.disk) ∅ 0%nat [].

(** What is left of the metadata file of [latin1_png]. *)
Definition truncated_json : string :=
  "{" +:+ PyStr.nl
  +:+ "  " +:+ Scenario.quoted "scheme" +:+ ": " +:+ Scenario.quoted "mistral_ocr"
  +:+ "," +:+ PyStr.nl
  +:+ "  " +:+ Scenario.quoted "provider" +:+ ": " +:+ Scenario.quoted "mistral"
  +:+ "," +:+ PyStr.nl
  +:+ "  " +:+ Scenario.quoted "model" +:+ ": " +:+ Scenario.quoted "mistral-ocr-latest"
  +:+ "," +:+ PyStr.nl
  +:+ "  " +:+ Scenario.quoted "source_file" +:+ ": ".

(** An SDK whose client cannot be constructed. *)
Definition broken_sdk (api_key : string) : Exception + MistralClient nat :=
  inl (mkExc SDKError "invalid api key").

(** The output directory exists, and a directory sits where the metadata
    of [scan.png] should be written. *)
Definition blocked : World nat :=
  mkWorld
    (<[mkPath false ["out"; "ocr"; "scan.ocr.json"] := Directory]>
     (<[mkPath false ["out"; "ocr"] := Directory]>
      (<[mkPath false ["out"] := Directory]> Scenario.disk)))
    ∅ 0%nat [].

End Cases.

(** * Properties *)

(** ** The batch operation of [BaseOCRService] *)

Section BaseProperties.
Context {R S : Type} `{BaseOCRService R S}.
Implicit Types (self : S) (w : World R) (file_paths : list Path).

Lemma loop_body_spec self output_dir kwargs file_path results w :
  PyM.try_except
    (result <- process_file self file_path output_dir kwargs ;;
     PyM.ret (results ++ [result])%list)
    (fun e =>
       let failed := failed_result self file_path e in
       PyM.ret (results ++ [failed])%list) w
  = (inr (results ++ [item_result self output_dir kwargs file_path w])%list,
     item_world self output_dir kwargs file_path w).
Proof.
  unfold PyM.try_except, PyM.bind, PyM.ret, item_result, item_world.
  destruct (process_file self file_path output_dir kwargs w) as [[e|r] w'];
    reflexivity.
Qed.

Lemma process_files_loop_spec self output_dir kwargs file_paths :
  forall results w,
    process_files_loop self file_paths output_dir kwargs results w
    = (inr (results ++ results_from self output_dir kwargs file_paths w)%list,
       world_after self output_dir kwargs file_paths w).
Proof.
  induction file_paths as [|file_path rest IH]; intros results w; simpl.
  - by rewrite app_nil_r.
  - unfold PyM.bind at 1. rewrite loop_body_spec, IH.
    by rewrite <- app_assoc.
Qed.

Lemma results_from_length self output_dir kwargs file_paths :
  forall w, length (results_from self output_dir kwargs file_paths w)
            = length file_paths.
Proof. induction file_paths; intros w; simpl; [done | by rewrite IHfile_paths]. Qed.

Lemma results_from_lookup self output_dir kwargs file_paths :
  forall i w,
    results_from self output_dir kwargs file_paths w !! i
    = (fun file_path =>
         item_result self output_dir kwargs file_path
           (world_after self output_dir kwargs (take i file_paths) w))
      <$> file_paths !! i.
Proof.
  induction file_paths as [|file_path rest IH]; intros [|i] w; simpl;
    [done | done | done | apply IH].
Qed.

Lemma process_files_spec self output_dir kwargs file_paths w :
  process_files self file_paths output_dir kwargs w
  = (inr (results_from self output_dir kwargs file_paths w),
     world_after self output_dir kwargs file_paths w).
Proof. unfold process_files. by rewrite process_files_loop_spec. Qed.

(** C1: [process_files] always returns, its list has one Result per
    input path, and the Result at each position is the one the loop
    body produces from the path at that position, run in the world the
    earlier paths left behind: the Result of [process_file] when it
    returns, the synthetic failed Result when it raises.  No raise of
    [process_file] stops the loop. *)
Theorem process_files_one_result_per_path self file_paths output_dir kwargs w :
  exists results,
    process_files self file_paths output_dir kwargs w
      = (inr results, world_after self output_dir kwargs file_paths w)
    /\ length results = length file_paths
    /\ forall i,
         results !! i
         = (fun file_path =>
              item_result self output_dir kwargs file_path
                (world_after self output_dir kwargs (take i file_paths) w))
           <$> file_paths !! i.
Proof.
  exists (results_from self output_dir kwargs file_paths w).
  split; [| split].
  - apply process_files_spec.
  - apply results_from_length.
  - intros i. apply results_from_lookup.
Qed.

(** C2: when [process_file] raises on the path at position [i], the
    list returned by [process_files] holds at position [i] a Result with
    empty content, no output path, and metadata made of the error
    description [str(e)], the provider name, the source file path and
    [success] set to [False]. *)
Theorem process_files_substitutes_failed_result
    self file_paths output_dir kwargs w i file_path e w' :
  file_paths !! i = Some file_path ->
  process_file self file_path output_dir kwargs
    (world_after self output_dir kwargs (take i file_paths) w) = (inl e, w') ->
  exists results result,
    fst (process_files self file_paths output_dir kwargs w) = inr results
    /\ results !! i = Some result
    /\ content result = ""
    /\ output_path result = None
    /\ metadata result
       = [("error", PyString (exc_str e));
          ("provider", PyString (provider_name self));
          ("source_file", PyString (PyPath.str file_path));
          ("success", PyBool false)]
    /\ PyDict.get (metadata result) "error" = Some (PyString (exc_str e))
    /\ PyDict.get (metadata result) "provider" = Some (PyString (provider_name self))
    /\ PyDict.get (metadata result) "source_file"
       = Some (PyString (PyPath.str file_path))
    /\ PyDict.get (metadata result) "success" = Some (PyBool false).
Proof.
  intros Hi Hraise.
  exists (results_from self output_dir kwargs file_paths w),
         (failed_result self file_path e).
  split; [by rewrite process_files_spec |].
  split.
  - rewrite results_from_lookup, Hi. simpl. unfold item_result. by rewrite Hraise.
  - repeat split; reflexivity.
Qed.

End BaseProperties.

(** ** The monad *)

Section MonadLemmas.
Context {R : Type}.

Lemma bind_inr {A B} (c : M R A) (k : A -> M R B) w a w1 :
  c w = (inr a, w1) -> PyM.bind c k w = k a w1.
Proof. intros Hc. unfold PyM.bind. by rewrite Hc. Qed.

Lemma bind_inl {A B} (c : M R A) (k : A -> M R B) w e w1 :
  c w = (inl e, w1) -> PyM.bind c k w = (inl e, w1).
Proof. intros Hc. unfold PyM.bind. by rewrite Hc. Qed.

Lemma bind_inr_inv {A B} (c : M R A) (k : A -> M R B) w b w' :
  PyM.bind c k w = (inr b, w') ->
  exists a w1, c w = (inr a, w1) /\ k a w1 = (inr b, w').
Proof.
  unfold PyM.bind. destruct (c w) as [[e|a] w1]; [discriminate |].
  intros Hk. by exists a, w1.
Qed.

Lemma call_inr_inv {A} (q : Request) (endpoint : R -> (Exception + A) * R) w a w' :
  PyM.call q endpoint w = (inr a, w') ->
  exists r', endpoint (remote w) = (inr a, r') /\ w' = PyM.sent w r' q.
Proof.
  unfold PyM.call. destruct (endpoint (remote w)) as [x r'].
  intros [= -> <-]. by exists r'.
Qed.

Lemma call_eq {A} (q : Request) (endpoint : R -> (Exception + A) * R) w x r' :
  endpoint (remote w) = (x, r') -> PyM.call q endpoint w = (x, PyM.sent w r' q).
Proof. intros He. unfold PyM.call. by rewrite He. Qed.

Lemma run_inr {A} (run : (Exception + A) * World R) a :
  fst run = inr a -> run = (inr a, snd run).
Proof. destruct run as [x w]. simpl. by intros ->. Qed.

Lemma run_inl {A} (run : (Exception + A) * World R) e :
  fst run = inl e -> run = (inl e, snd run).
Proof. destruct run as [x w]. simpl. by intros ->. Qed.

End MonadLemmas.

(** ** Strings *)

Lemma append_cons (x : ascii) (a b : string) : String x a +:+ b = String x (a +:+ b).
Proof. reflexivity. Qed.

Lemma append_assoc (a b c : string) : (a +:+ b) +:+ c = a +:+ (b +:+ c).
Proof.
  induction a as [|x a IH]; [reflexivity |].
  by rewrite !append_cons, IH.
Qed.

Lemma append_nil_r (a : string) : a +:+ "" = a.
Proof.
  induction a as [|x a IH]; [reflexivity |].
  by rewrite append_cons, IH.
Qed.

Lemma join_loop_concat sep items :
  forall acc,
    PyStr.join_loop sep acc items
    = acc +:+ match items with
              | [] => ""
              | _ => sep +:+ String.concat sep items
              end.
Proof.
  induction items as [|x rest IH]; intros acc; cbn.
  - by rewrite append_nil_r.
  - rewrite IH. destruct rest as [|y rest].
    + by rewrite append_nil_r.
    + by rewrite !append_assoc.
Qed.

Lemma join_concat sep items : PyStr.join sep items = String.concat sep items.
Proof.
  destruct items as [|x rest]; cbn; [done |].
  rewrite join_loop_concat. destruct rest; [by rewrite append_nil_r | done].
Qed.

(** ** Writing text piece by piece *)

Lemma foldr_append_app (a b : list string) :
  foldr String.append "" (a ++ b)
  = foldr String.append "" a +:+ foldr String.append "" b.
Proof.
  induction a as [|x a IH]; [reflexivity |].
  cbn [foldr app]. by rewrite IH, append_assoc.
Qed.

Lemma item_chunks_dump_item (kv : string * PyVal) :
  "  " +:+ foldr String.append "" (Json.item_chunks kv) = Json.dump_item kv.
Proof.
  unfold Json.item_chunks, Json.dump_item. cbn [foldr].
  by rewrite append_nil_r.
Qed.

Lemma iterencode_rest (rest : list (string * PyVal)) :
  foldr String.append ""
    (flat_map (fun kv => ("," +:+ PyStr.nl +:+ "  ") :: Json.item_chunks kv) rest)
  = match rest with
    | [] => ""
    | _ => ("," +:+ PyStr.nl)
           +:+ String.concat ("," +:+ PyStr.nl) (map Json.dump_item rest)
    end.
Proof.
  induction rest as [|kv rest IH]; [reflexivity |].
  cbn [flat_map]. rewrite foldr_append_app.
  change (foldr String.append "" (("," +:+ PyStr.nl +:+ "  ") :: Json.item_chunks kv))
    with (("," +:+ PyStr.nl +:+ "  ") +:+ foldr String.append "" (Json.item_chunks kv)).
  rewrite IH.
  destruct rest as [|kv' rest]; cbn [map String.concat];
    rewrite <- (item_chunks_dump_item kv).
  - by rewrite append_nil_r, !append_assoc.
  - by rewrite !append_assoc.
Qed.

Lemma iterencode_dumps (d : Dict) :
  foldr String.append "" (Json.iterencode d) = Json.dumps d.
Proof.
  destruct d as [|kv rest]; [reflexivity |].
  unfold Json.iterencode, Json.dumps.
  rewrite join_concat, !foldr_append_app, iterencode_rest.
  destruct rest as [|kv' rest]; cbn [map String.concat foldr];
    rewrite <- (item_chunks_dump_item kv).
  - by rewrite !append_nil_r, !append_assoc.
  - by rewrite !append_nil_r, !append_assoc.
Qed.

Lemma utf_8_encode_inr (text bytes : string) :
  utf_8_encode text = inr bytes -> bytes = text.
Proof.
  unfold utf_8_encode.
  destruct (Utf8.undecodable 0 0 text) as [[start rest]|]; [done |].
  by intros [= <-].
Qed.

Lemma write_loop_None (chunks : list string) :
  forall acc written,
    PyM.write_loop chunks acc = (None, written) ->
    written = acc +:+ foldr String.append "" chunks.
Proof.
  induction chunks as [|chunk rest IH]; intros acc written; cbn [PyM.write_loop foldr].
  - intros [= <-]. by rewrite append_nil_r.
  - destruct (utf_8_encode chunk) as [e|bytes] eqn:Hencode; [done |].
    apply utf_8_encode_inr in Hencode as ->.
    intros Hrest. apply IH in Hrest. by rewrite Hrest, append_assoc.
Qed.

Lemma write_loop_requests {R} (p : Path) (chunks : list string) (w : World R) :
  requests (snd (PyM.write_chunks p chunks w)) = requests w
  /\ remote (snd (PyM.write_chunks p chunks w)) = remote w.
Proof.
  unfold PyM.write_chunks.
  destruct (PyM.write_loop chunks "") as [error written].
  destruct (FS.write (fs w) p written) as [e|fs']; [done |].
  by destruct error.
Qed.

(** ** Reading back: base64 *)

Lemma digits_indexed :
  forallb (fun n => match Decode.index (Base64.digit n) with
                    | Some m => N.eqb m n
                    | None => false
                    end
                    && negb (Ascii.eqb (Base64.digit n) "="%char))
          (map N.of_nat (seq 0 64)) = true.
Proof. vm_compute. reflexivity. Qed.

Lemma index_digit (n : N) :
  (n < 64)%N ->
  Decode.index (Base64.digit n) = Some n
  /\ Ascii.eqb (Base64.digit n) "="%char = false.
Proof.
  intros Hn. pose proof digits_indexed as Hall.
  rewrite forallb_forall in Hall. specialize (Hall n).
  assert (Hin : In n (map N.of_nat (seq 0 64))).
  { apply in_map_iff. exists (N.to_nat n). split; [lia |]. apply in_seq. lia. }
  apply Hall in Hin.
  destruct (Decode.index (Base64.digit n)) as [m|]; [| done].
  apply andb_true_iff in Hin as [Hm Hpad].
  apply N.eqb_eq in Hm as ->. by apply negb_true_iff in Hpad.
Qed.

Lemma b64decode_group (c0 c1 c2 c3 : ascii) (rest : string) :
  Decode.b64decode (String c0 (String c1 (String c2 (String c3 rest))))
  = match Decode.index c0, Decode.index c1 with
    | Some i0, Some i1 =>
        let x := ascii_of_N (i0 * 4 + i1 / 16) in
        if Ascii.eqb c2 "="%char then
          if Ascii.eqb c3 "="%char && String.eqb rest "" && (i1 mod 16 =? 0)%N
          then Some (String x "") else None
        else
          match Decode.index c2 with
          | Some i2 =>
              let y := ascii_of_N ((i1 mod 16) * 16 + i2 / 4) in
              if Ascii.eqb c3 "="%char then
                if String.eqb rest "" && (i2 mod 4 =? 0)%N
                then Some (String x (String y "")) else None
              else
                match Decode.index c3, Decode.b64decode rest with
                | Some i3, Some tail =>
                    let z := ascii_of_N ((i2 mod 4) * 64 + i3) in
                    Some (String x (String y (String z tail)))
                | _, _ => None
                end
          | None => None
          end
    | _, _ => None
    end.
Proof. reflexivity. Qed.

Lemma byte_bound (a : ascii) : (N_of_ascii a < 256)%N.
Proof. apply N_ascii_bounded. Qed.

Lemma string_ind3 (P : string -> Prop) :
  P "" ->
  (forall a, P (String a "")) ->
  (forall a b, P (String a (String b ""))) ->
  (forall a b c s, P s -> P (String a (String b (String c s)))) ->
  forall s, P s.
Proof.
  intros H0 H1 H2 H3 s.
  enough (P s /\ (forall a, P (String a s)) /\ forall a b, P (String a (String b s)))
    by tauto.
  induction s as [|c s (IH0 & IH1 & IH2)]; [by repeat split |].
  split; [apply IH1 |]. split; [intros a; apply IH2 |]. intros a b. by apply H3.
Qed.

(** Division and remainder by constants, for [lia]. *)
Ltac Zify.zify_post_hook ::= Z.to_euclidean_division_equations.

Lemma b64decode_b64encode (bytes : string) :
  Decode.b64decode (Base64.b64encode bytes) = Some bytes.
Proof.
  induction bytes as [|a|a b|a b c rest IH] using string_ind3.
  - reflexivity.
  - cbn [Base64.b64encode].
    pose proof (byte_bound a) as Ha.
    set (x := N_of_ascii a) in *.
    change (String (Base64.digit (x / 4))
              (String (Base64.digit ((x mod 4) * 16)) "=="))
      with (String (Base64.digit (x / 4))
              (String (Base64.digit ((x mod 4) * 16))
                 (String "="%char (String "="%char "")))).
    rewrite b64decode_group.
    destruct (index_digit (x / 4)) as [-> _]; [lia |].
    destruct (index_digit ((x mod 4) * 16)) as [-> _]; [lia |].
    cbn [Ascii.eqb Bool.eqb String.eqb andb].
    replace ((x mod 4 * 16) mod 16 =? 0)%N with true
      by (symmetry; apply N.eqb_eq; lia).
    cbn zeta. replace (x / 4 * 4 + x mod 4 * 16 / 16)%N with x by lia.
    subst x. by rewrite ascii_N_embedding.
  - cbn [Base64.b64encode].
    pose proof (byte_bound a) as Ha. pose proof (byte_bound b) as Hb.
    set (x := N_of_ascii a) in *. set (y := N_of_ascii b) in *.
    change (String (Base64.digit (x / 4))
              (String (Base64.digit ((x mod 4) * 16 + y / 16))
                 (String (Base64.digit ((y mod 16) * 4)) "=")))
      with (String (Base64.digit (x / 4))
              (String (Base64.digit ((x mod 4) * 16 + y / 16))
                 (String (Base64.digit ((y mod 16) * 4)) (String "="%char "")))).
    rewrite b64decode_group.
    destruct (index_digit (x / 4)) as [-> _]; [lia |].
    destruct (index_digit ((x mod 4) * 16 + y / 16)) as [-> _]; [lia |].
    destruct (index_digit ((y mod 16) * 4)) as [-> ->]; [lia |].
    cbn [Ascii.eqb Bool.eqb String.eqb andb].
    replace ((y mod 16 * 4) mod 4 =? 0)%N with true
      by (symmetry; apply N.eqb_eq; lia).
    cbn zeta.
    replace (x / 4 * 4 + (x mod 4 * 16 + y / 16) / 16)%N with x by lia.
    replace ((x mod 4 * 16 + y / 16) mod 16 * 16 + y mod 16 * 4 / 4)%N with y by lia.
    subst x y. by rewrite !ascii_N_embedding.
  - cbn [Base64.b64encode].
    pose proof (byte_bound a) as Ha. pose proof (byte_bound b) as Hb.
    pose proof (byte_bound c) as Hc.
    set (x := N_of_ascii a) in *. set (y := N_of_ascii b) in *.
    set (z := N_of_ascii c) in *.
    rewrite b64decode_group, IH.
    destruct (index_digit (x / 4)) as [-> _]; [lia |].
    destruct (index_digit ((x mod 4) * 16 + y / 16)) as [-> _]; [lia |].
    destruct (index_digit ((y mod 16) * 4 + z / 64)) as [-> ->]; [lia |].
    destruct (index_digit (z mod 64)) as [-> ->]; [lia |].
    cbn zeta.
    replace (x / 4 * 4 + (x mod 4 * 16 + y / 16) / 16)%N with x by lia.
    replace ((x mod 4 * 16 + y / 16) mod 16 * 16 + (y mod 16 * 4 + z / 64) / 4)%N
      with y by lia.
    replace ((y mod 16 * 4 + z / 64) mod 4 * 64 + z mod 64)%N with z by lia.
    subst x y z. by rewrite !ascii_N_embedding.
Qed.

Ltac Zify.zify_post_hook ::= idtac.

(** ** Reading back: JSON *)

Lemma read_string_escape_char (c : ascii) (tail : string) :
  Decode.read_string (Json.escape_char c +:+ tail)
  = match Decode.read_string tail with
    | Some (x, rest) => Some (String c x, rest)
    | None => None
    end.
Proof. destruct c as [[] [] [] [] [] [] [] []]; reflexivity. Qed.

Lemma read_string_escape (s rest : string) :
  Decode.read_string (Json.escape s +:+ String Json.dquote rest) = Some (s, rest).
Proof.
  induction s as [|c s IH]; [reflexivity |].
  cbn [Json.escape]. by rewrite append_assoc, read_string_escape_char, IH.
Qed.

Lemma quote_append (s tail : string) :
  Json.quote s +:+ tail
  = String Json.dquote (Json.escape s +:+ String Json.dquote tail).
Proof. unfold Json.quote. by rewrite append_cons, append_assoc. Qed.

(** What may follow a value that is no string. *)
Lemma read_token_app (token rest : string) :
  forallb (fun c => negb (Decode.is_delimiter c)) (list_ascii_of_string token) = true ->
  match rest with
  | EmptyString => True
  | String c _ => Decode.is_delimiter c = true
  end ->
  Decode.read_token (token +:+ rest) = (token, rest).
Proof.
  intros Htoken Hrest. induction token as [|c token IH].
  - change ("" +:+ rest) with rest. destruct rest as [|c rest]; [done |].
    cbn [Decode.read_token]. by rewrite Hrest.
  - cbn [list_ascii_of_string forallb] in Htoken.
    apply andb_true_iff in Htoken as [Hc Htoken].
    rewrite append_cons. cbn [Decode.read_token].
    apply negb_true_iff in Hc. rewrite Hc. by rewrite (IH Htoken).
Qed.

Lemma string_of_uint_plain (u : Decimal.uint) :
  forallb (fun c => negb (Decode.is_delimiter c))
          (list_ascii_of_string (NilEmpty.string_of_uint u)) = true.
Proof. induction u as [|u IH|u IH|u IH|u IH|u IH|u IH|u IH|u IH|u IH|u IH]; done. Qed.

Lemma string_of_int_plain (d : Decimal.int) :
  forallb (fun c => negb (Decode.is_delimiter c))
          (list_ascii_of_string (NilZero.string_of_int d)) = true.
Proof.
  destruct d as [u|u]; cbn [NilZero.string_of_int];
    destruct u; try done; try apply (string_of_uint_plain (_ u));
    cbn [NilZero.string_of_uint list_ascii_of_string forallb];
    apply (string_of_uint_plain (_ u)).
Qed.

Lemma to_int_proper (n : Z) :
  Z.to_int n <> Decimal.Pos Decimal.Nil /\ Z.to_int n <> Decimal.Neg Decimal.Nil.
Proof.
  destruct n as [|p|p]; cbn; split; try done;
    intros [= Hnil]; by apply DecimalPos.Unsigned.to_uint_nonnil in Hnil.
Qed.

Lemma literal_int (n : Z) :
  Decode.literal (NilZero.string_of_int (Z.to_int n)) = Some (PyInt n).
Proof.
  unfold Decode.literal.
  destruct (to_int_proper n) as [Hpos Hneg].
  rewrite (NilZero.isi _ Hpos Hneg), DecimalZ.of_to, String.eqb_refl.
  destruct (Z.to_int n) as [u|u]; [| reflexivity].
  destruct u; reflexivity.
Qed.

Lemma dump_value_head (v : PyVal) :
  exists c text,
    Json.dump_value v = String c text
    /\ Decode.is_ws c = false
    /\ match v with
       | PyString _ => c = Json.dquote
       | _ => Ascii.eqb c Json.dquote = false
       end.
Proof.
  destruct v as [|[|]|n|s]; try (by eexists _, _).
  cbn [Json.dump_value].
  destruct (Z.to_int n) as [u|u]; [| by eexists _, _].
  destruct u; by eexists _, _.
Qed.

Lemma literal_dump_value (v : PyVal) :
  match v with
  | PyString _ => True
  | _ => Decode.literal (Json.dump_value v) = Some v
         /\ forallb (fun c => negb (Decode.is_delimiter c))
                    (list_ascii_of_string (Json.dump_value v)) = true
  end.
Proof.
  destruct v as [|[|]|n|s]; try done.
  split; [apply literal_int | apply string_of_int_plain].
Qed.

Lemma read_value_dump (v : PyVal) (rest : string) :
  match rest with
  | EmptyString => True
  | String c _ => Decode.is_delimiter c = true
  end ->
  Decode.read_value (Json.dump_value v +:+ rest) = Some (v, rest).
Proof.
  intros Hrest.
  destruct (dump_value_head v) as (c & text & Hshape & _ & Hquote).
  pose proof (literal_dump_value v) as Hliteral.
  destruct v as [| b | n | s].
  1-3: destruct Hliteral as [Hliteral Hplain];
       unfold Decode.read_value;
       pose proof (read_token_app _ rest Hplain Hrest) as Htoken;
       rewrite Hshape in *; rewrite append_cons, Hquote;
       rewrite <- append_cons, Htoken; by rewrite Hliteral.
  cbn [Json.dump_value]. rewrite quote_append.
  unfold Decode.read_value. rewrite Ascii.eqb_refl.
  by rewrite read_string_escape.
Qed.

Lemma skip_ws_dump_value (v : PyVal) (rest : string) :
  Decode.skip_ws (Json.dump_value v +:+ rest) = Json.dump_value v +:+ rest.
Proof.
  destruct (dump_value_head v) as (c & text & -> & Hws & _).
  rewrite append_cons. cbn [Decode.skip_ws]. by rewrite Hws.
Qed.

(** One member, and what the reader does after it. *)
Lemma read_members_step (fuel : nat) (k : string) (v : PyVal) (d : Dict) (tail : string) :
  match tail with
  | EmptyString => True
  | String c _ => Decode.is_delimiter c = true
  end ->
  Decode.read_members (S fuel) (Json.quote k +:+ ": " +:+ Json.dump_value v +:+ tail) d
  = match Decode.skip_ws tail with
    | EmptyString => None
    | String next s5 =>
        if Ascii.eqb next ","%char then
          Decode.read_members fuel (Decode.skip_ws s5) (PyDict.set d k v)
        else if Ascii.eqb next "}"%char then
          match Decode.skip_ws s5 with
          | EmptyString => Some (PyDict.set d k v)
          | String _ _ => None
          end
        else None
    end.
Proof.
  intros Htail. rewrite quote_append.
  cbn [Decode.read_members]. rewrite Ascii.eqb_refl. cbn [negb].
  rewrite read_string_escape.
  change (": " +:+ Json.dump_value v +:+ tail)
    with (String ":"%char (String " "%char (Json.dump_value v +:+ tail))).
  cbn [Decode.skip_ws]. change (Decode.is_ws ":"%char) with false.
  change (Decode.is_ws " "%char) with true. cbn iota.
  change (negb (Ascii.eqb ":"%char ":"%char)) with false. cbn iota.
  change (Decode.skip_ws (String " "%char (Json.dump_value v +:+ tail)))
    with (Decode.skip_ws (Json.dump_value v +:+ tail)).
  by rewrite skip_ws_dump_value, (read_value_dump _ _ Htail).
Qed.

Lemma skip_ws_quote (s tail : string) :
  Decode.skip_ws (Json.quote s +:+ tail) = Json.quote s +:+ tail.
Proof. by rewrite quote_append. Qed.

Lemma skip_ws_indent (tail : string) :
  Decode.skip_ws (PyStr.nl +:+ "  " +:+ tail) = Decode.skip_ws tail.
Proof. reflexivity. Qed.

Lemma skip_ws_comma (tail : string) :
  Decode.skip_ws ("," +:+ tail) = String ","%char tail.
Proof. reflexivity. Qed.

(** The members of [kv :: rest] as [Json.dumps] writes them, from the
    opening quote of the first key to the closing brace. *)
Lemma read_members_dumps (rest : Dict) :
  forall (kv : string * PyVal) (fuel : nat) (d : Dict),
    length rest < fuel ->
    Decode.read_members fuel
      (Json.quote (fst kv) +:+ ": " +:+ Json.dump_value (snd kv)
       +:+ match rest with
           | [] => ""
           | _ :: _ =>
               ("," +:+ PyStr.nl)
               +:+ String.concat ("," +:+ PyStr.nl) (map Json.dump_item rest)
           end
       +:+ PyStr.nl +:+ "}") d
    = Some (fold_left (fun d kv => PyDict.set d (fst kv) (snd kv)) (kv :: rest) d).
Proof.
  induction rest as [|next rest IH]; intros kv fuel d Hfuel;
    destruct fuel as [|fuel]; try (simpl in Hfuel; lia).
  - change ("" +:+ PyStr.nl +:+ "}") with (PyStr.nl +:+ "}").
    by rewrite read_members_step.
  - rewrite read_members_step by done.
    rewrite (append_assoc ("," +:+ PyStr.nl)), (append_assoc ","),
      (skip_ws_comma _).
    cbn [Ascii.eqb Bool.eqb]. cbn iota.
    assert (Htext :
      Decode.skip_ws
        (PyStr.nl
         +:+ String.concat ("," +:+ PyStr.nl) (map Json.dump_item (next :: rest))
         +:+ PyStr.nl +:+ "}")
      = Json.quote (fst next) +:+ ": " +:+ Json.dump_value (snd next)
        +:+ match rest with
            | [] => ""
            | _ :: _ =>
                ("," +:+ PyStr.nl)
                +:+ String.concat ("," +:+ PyStr.nl) (map Json.dump_item rest)
            end
        +:+ PyStr.nl +:+ "}").
    { destruct rest as [|another rest]; cbn [map String.concat];
        unfold Json.dump_item; rewrite !append_assoc;
        rewrite (skip_ws_indent _); apply skip_ws_quote. }
    rewrite Htext, IH by (simpl in Hfuel; lia). reflexivity.
Qed.

Lemma length_append (a b : string) :
  String.length (a +:+ b) = String.length a + String.length b.
Proof.
  induction a as [|x a IH]; [reflexivity |].
  rewrite append_cons. simpl. by rewrite IH.
Qed.

Lemma length_concat_items (sep : string) (items : Dict) :
  length items <= String.length (String.concat sep (map Json.dump_item items)).
Proof.
  induction items as [|kv [|next rest] IH]; [done | |].
  - cbn [map String.concat]. unfold Json.dump_item. rewrite length_append.
    simpl. lia.
  - change (String.concat sep (map Json.dump_item (kv :: next :: rest)))
      with (Json.dump_item kv +:+ sep
            +:+ String.concat sep (map Json.dump_item (next :: rest))).
    rewrite !length_append. unfold Json.dump_item at 1. rewrite length_append.
    cbn [length] in *. simpl String.length at 1. lia.
Qed.

Lemma set_fresh (d : Dict) (k : string) (v : PyVal) :
  k ∉ map fst d -> PyDict.set d k v = (d ++ [(k, v)])%list.
Proof.
  induction d as [|[key value] d IH]; [done |].
  intros Hfresh. cbn [PyDict.set app].
  destruct (String.eqb_spec key k) as [->|Hne].
  - exfalso. apply Hfresh. cbn. left.
  - rewrite IH; [done |]. intros Hin. apply Hfresh. cbn. by right.
Qed.

Lemma fold_set_distinct (items : Dict) :
  forall d,
    NoDup (map fst (d ++ items)%list) ->
    fold_left (fun d kv => PyDict.set d (fst kv) (snd kv)) items d
    = (d ++ items)%list.
Proof.
  induction items as [|[k v] items IH]; intros d Hdistinct.
  - by rewrite app_nil_r.
  - cbn [fold_left fst snd].
    assert (Hsplit : (d ++ (k, v) :: items = (d ++ [(k, v)]) ++ items)%list)
      by (by rewrite <- app_assoc).
    rewrite Hsplit in *.
    rewrite set_fresh.
    + by apply IH.
    + rewrite !map_app in Hdistinct. apply NoDup_app in Hdistinct as [Hd _].
      apply NoDup_app in Hd as (_ & Hfresh & _).
      intros Hin. apply (Hfresh k Hin). cbn. left.
Qed.

Lemma json_loads_object (members : string) :
  Decode.json_loads ("{" +:+ PyStr.nl +:+ "  " +:+ String Json.dquote members)
  = Decode.read_members
      (String.length ("{" +:+ PyStr.nl +:+ "  " +:+ String Json.dquote members))
      (String Json.dquote members) [].
Proof. reflexivity. Qed.

(** [Json.dumps] loses nothing: a dictionary with distinct keys is read
    back from its text, key by key and value by value. *)
Lemma json_loads_dumps (d : Dict) :
  NoDup (map fst d) -> Decode.json_loads (Json.dumps d) = Some d.
Proof.
  intros Hdistinct. destruct d as [|kv rest]; [reflexivity |].
  unfold Json.dumps. rewrite join_concat.
  assert (Hfuel :
    length rest
    < String.length
        ("{" +:+ PyStr.nl
         +:+ String.concat ("," +:+ PyStr.nl) (map Json.dump_item (kv :: rest))
         +:+ PyStr.nl +:+ "}")).
  { rewrite !length_append.
    pose proof (length_concat_items ("," +:+ PyStr.nl) (kv :: rest)) as Hlen.
    cbn [length] in Hlen. lia. }
  assert (Hbody :
    String.concat ("," +:+ PyStr.nl) (map Json.dump_item (kv :: rest))
    +:+ PyStr.nl +:+ "}"
    = "  " +:+ Json.quote (fst kv) +:+ ": " +:+ Json.dump_value (snd kv)
      +:+ match rest with
          | [] => ""
          | _ :: _ =>
              ("," +:+ PyStr.nl)
              +:+ String.concat ("," +:+ PyStr.nl) (map Json.dump_item rest)
          end
      +:+ PyStr.nl +:+ "}").
  { destruct rest as [|next rest]; cbn [map String.concat]; unfold Json.dump_item;
      by rewrite !append_assoc. }
  rewrite Hbody, quote_append in Hfuel |- *.
  rewrite json_loads_object.
  revert Hfuel. generalize (String.length
    ("{" +:+ PyStr.nl +:+ "  "
     +:+ String Json.dquote
           (Json.escape (fst kv)
            +:+ String Json.dquote
                  (": " +:+ Json.dump_value (snd kv)
                   +:+ match rest with
                       | [] => ""
                       | _ :: _ =>
                           ("," +:+ PyStr.nl)
                           +:+ String.concat ("," +:+ PyStr.nl)
                                 (map Json.dump_item rest)
                       end
                   +:+ PyStr.nl +:+ "}")))).
  intros fuel Hfuel.
  rewrite <- quote_append, (read_members_dumps rest kv fuel [] Hfuel).
  by rewrite (fold_set_distinct (kv :: rest) []).
Qed.

(** ** The file system *)

Section FileSystemLemmas.
Implicit Types (fs : gmap Path Node) (p q : Path).

Lemma stat_lookup fs p : parts p <> [] -> FS.stat fs p = fs !! p.
Proof. unfold FS.stat. by destruct (parts p). Qed.

Lemma stat_None fs p : FS.stat fs p = None -> parts p <> [] /\ fs !! p = None.
Proof. unfold FS.stat. by destruct (parts p). Qed.

Lemma joinpath_parts d component : parts (PyPath.joinpath d component) <> [].
Proof. simpl. by destruct (parts d). Qed.

Lemma joinpath_parent d component : PyPath.parent (PyPath.joinpath d component) = d.
Proof.
  unfold PyPath.parent, PyPath.joinpath. simpl.
  rewrite removelast_last. by destruct d.
Qed.

Lemma joinpath_inj d a b : PyPath.joinpath d a = PyPath.joinpath d b -> a = b.
Proof.
  unfold PyPath.joinpath. intros [= Heq].
  apply app_inv_head in Heq. by injection Heq.
Qed.

Lemma output_paths_differ d stem :
  PyPath.joinpath d (stem +:+ ".ocr.md") <> PyPath.joinpath d (stem +:+ ".ocr.json").
Proof.
  intros Heq. apply joinpath_inj in Heq.
  by apply (inj (String.append stem)) in Heq.
Qed.

Lemma is_dir_insert fs p : FS.is_dir (<[p := Directory]> fs) p = true.
Proof.
  unfold FS.is_dir, FS.stat. destruct (parts p); [done |].
  by rewrite lookup_insert_eq.
Qed.

Lemma os_mkdir_inr fs p fs' :
  FS.os_mkdir fs p = inr fs' ->
  fs !! p = None /\ fs' = <[p := Directory]> fs.
Proof.
  unfold FS.os_mkdir. destruct (FS.stat fs p) eqn:Hstat; [done |].
  apply stat_None in Hstat as [_ Hnone].
  destruct (FS.stat fs (PyPath.parent p)) as [[| ? ? ?]|]; try done.
  by intros [= <-].
Qed.

Lemma mkdir_exist_ok_inr fs p fs' :
  FS.mkdir_exist_ok fs p = inr fs' ->
  (fs !! p = None /\ fs' = <[p := Directory]> fs)
  \/ (FS.is_dir fs p = true /\ fs' = fs).
Proof.
  unfold FS.mkdir_exist_ok.
  destruct (FS.os_mkdir fs p) as [e|fs1] eqn:Hmk.
  - destruct (FS.is_dir fs p) eqn:Hdir;
      destruct (exc_class e); try done; intros [= <-]; by right.
  - intros [= <-]. left. by apply os_mkdir_inr.
Qed.

Lemma only_creates_refl abs components fs :
  only_creates_directories abs components fs fs.
Proof. intros q. by left. Qed.

Lemma only_creates_insert abs components fs :
  fs !! mkPath abs components = None ->
  only_creates_directories abs components fs
    (<[mkPath abs components := Directory]> fs).
Proof.
  intros Hnone q. destruct (decide (q = mkPath abs components)) as [->|Hne].
  - right. by rewrite lookup_insert_eq.
  - left. by rewrite lookup_insert_ne.
Qed.

Lemma mkdir_parents_from_inr abs rparts :
  forall fs fs',
    FS.mkdir_parents_from abs rparts fs = inr fs' ->
    FS.is_dir fs' (mkPath abs (rev rparts)) = true
    /\ only_creates_directories abs (rev rparts) fs fs'.
Proof.
  induction rparts as [|x rparent IH]; intros fs fs'.
  - cbn. intros [= <-]. split; [done | apply only_creates_refl].
  - cbn [FS.mkdir_parents_from].
    set (p := mkPath abs (rev (x :: rparent))).
    assert (Hself : forall fs1,
               FS.is_dir fs1 p = true -> fs1 = fs' -> fs1 = fs ->
               FS.is_dir fs' p = true
               /\ only_creates_directories abs (rev (x :: rparent)) fs fs').
    { intros fs1 Hdir <- ->. split; [done | apply only_creates_refl]. }
    destruct (FS.os_mkdir fs p) as [e|fs1] eqn:Hmk.
    + destruct (exc_class e) eqn:Hclass;
        try (destruct (FS.is_dir fs p) eqn:Hdir; [| done];
             intros [= <-]; by apply (Hself fs)).
      destruct (FS.mkdir_parents_from abs rparent fs) as [e'|fs1] eqn:Hrec; [done |].
      apply IH in Hrec as [_ Hframe].
      intros Hlast. apply mkdir_exist_ok_inr in Hlast as [[Hnone ->]|[Hdir ->]].
      * split; [apply is_dir_insert |].
        intros q. destruct (decide (q = p)) as [->|Hne].
        -- right. rewrite lookup_insert_eq.
           destruct (Hframe p) as [Heq|(_ & Hnew & _)]; [| congruence].
           rewrite <- Heq. by repeat split.
        -- rewrite lookup_insert_ne by done.
           destruct (Hframe q) as [Heq|(Hq & Hnew & Habs & Hpre)]; [by left |].
           right. repeat split; try done.
           simpl. by apply prefix_app_r.
      * split; [done |].
        intros q. destruct (Hframe q) as [Heq|(Hq & Hnew & Habs & Hpre)]; [by left |].
        right. repeat split; try done.
        simpl. by apply prefix_app_r.
    + intros [= <-]. apply os_mkdir_inr in Hmk as [Hnone ->].
      split; [apply is_dir_insert | by apply only_creates_insert].
Qed.

Lemma mkdir_parents_inr fs d fs' :
  FS.mkdir_parents fs d = inr fs' ->
  FS.is_dir fs' d = true
  /\ only_creates_directories (absolute d) (parts d) fs fs'.
Proof.
  unfold FS.mkdir_parents. intros Hmk.
  apply mkdir_parents_from_inr in Hmk. rewrite rev_involutive in Hmk.
  by destruct d.
Qed.

Lemma mkdir_parents_existing fs d :
  FS.is_dir fs d = true -> FS.mkdir_parents fs d = inr fs.
Proof.
  intros Hdir. unfold FS.mkdir_parents.
  assert (Hstep : forall rparts,
             mkPath (absolute d) (rev rparts) = d ->
             FS.mkdir_parents_from (absolute d) rparts fs = inr fs).
  { intros rparts Hp. destruct rparts; cbn [FS.mkdir_parents_from]; rewrite Hp;
      unfold FS.os_mkdir; unfold FS.is_dir in Hdir;
      destruct (FS.stat fs d) as [[| ? ? ?]|] eqn:Hstat; try done;
      cbn; unfold FS.is_dir; by rewrite Hstat. }
  apply Hstep. rewrite rev_involutive. by destruct d.
Qed.

Lemma write_inr fs p data fs' :
  parts p <> [] ->
  FS.write fs p data = inr fs' ->
  exists readable, fs' = <[p := RegularFile readable true data]> fs.
Proof.
  intros Hp. unfold FS.write. rewrite (stat_lookup fs p Hp).
  destruct (fs !! p) as [[|r [|] old]|].
  - done.
  - intros [= <-]. by exists r.
  - done.
  - destruct (FS.stat fs (PyPath.parent p)) as [[| ? ? ?]|]; try done.
    intros [= <-]. by exists true.
Qed.

Lemma write_existing fs p data readable old :
  parts p <> [] ->
  fs !! p = Some (RegularFile readable true old) ->
  FS.write fs p data = inr (<[p := RegularFile readable true data]> fs).
Proof.
  intros Hp Hfile. unfold FS.write. by rewrite (stat_lookup fs p Hp), Hfile.
Qed.

Lemma read_bytes_error_is_OSError fs p e :
  FS.read_bytes fs p = inl e -> is_OSError e = true.
Proof.
  unfold FS.read_bytes, FS.missing.
  destruct (FS.stat fs p) as [[|[|] ? ?]|]; try done; try by intros [= <-].
  destruct (FS.through_file _ _ _ _); by intros [= <-].
Qed.

Lemma is_dir_insert_directory fs p d :
  FS.is_dir fs d = true -> FS.is_dir (<[p := Directory]> fs) d = true.
Proof.
  unfold FS.is_dir, FS.stat. destruct (parts d); [done |].
  destruct (decide (d = p)) as [->|Hne].
  - by rewrite lookup_insert_eq.
  - by rewrite lookup_insert_ne.
Qed.

Lemma os_mkdir_parent fs p fs' :
  FS.os_mkdir fs p = inr fs' -> FS.is_dir fs (PyPath.parent p) = true.
Proof.
  unfold FS.os_mkdir, FS.is_dir. destruct (FS.stat fs p); [done |].
  by destruct (FS.stat fs (PyPath.parent p)) as [[| ? ? ?]|].
Qed.

Lemma tree_insert_directory fs p :
  tree fs -> FS.is_dir fs (PyPath.parent p) = true ->
  tree (<[p := Directory]> fs).
Proof.
  intros Htree Hparent q node Hq. apply is_dir_insert_directory.
  destruct (decide (q = p)) as [->|Hne]; [done |].
  rewrite lookup_insert_ne in Hq by done. by eapply Htree.
Qed.

Lemma os_mkdir_tree fs p fs' :
  tree fs -> FS.os_mkdir fs p = inr fs' -> tree fs'.
Proof.
  intros Htree Hmk. pose proof (os_mkdir_parent _ _ _ Hmk) as Hparent.
  apply os_mkdir_inr in Hmk as [_ ->]. by apply tree_insert_directory.
Qed.

Lemma mkdir_exist_ok_tree fs p fs' :
  tree fs -> FS.mkdir_exist_ok fs p = inr fs' -> tree fs'.
Proof.
  intros Htree. unfold FS.mkdir_exist_ok.
  destruct (FS.os_mkdir fs p) as [e|fs1] eqn:Hmk.
  - destruct (FS.is_dir fs p), (exc_class e); try done; by intros [= <-].
  - intros [= <-]. by eapply os_mkdir_tree.
Qed.

Lemma mkdir_parents_from_tree abs rparts :
  forall fs fs',
    tree fs -> FS.mkdir_parents_from abs rparts fs = inr fs' -> tree fs'.
Proof.
  induction rparts as [|x rparent IH]; intros fs fs' Htree.
  - cbn. by intros [= <-].
  - cbn [FS.mkdir_parents_from].
    destruct (FS.os_mkdir fs (mkPath abs (rev (x :: rparent)))) as [e|fs1] eqn:Hmk.
    + destruct (exc_class e) eqn:Hclass;
        try (destruct (FS.is_dir fs _); [| done]; by intros [= <-]).
      destruct (FS.mkdir_parents_from abs rparent fs) as [e'|fs1] eqn:Hrec; [done |].
      apply mkdir_exist_ok_tree. by eapply IH.
    + intros [= <-]. by eapply os_mkdir_tree.
Qed.

Lemma mkdir_parents_tree fs d fs' :
  tree fs -> FS.mkdir_parents fs d = inr fs' -> tree fs'.
Proof. apply mkdir_parents_from_tree. Qed.

(** In a tree, the directories above a directory are directories. *)
Lemma tree_ancestors fs abs components :
  tree fs ->
  FS.is_dir fs (mkPath abs components) = true ->
  forall ancestors,
    ancestors `prefix_of` components ->
    FS.is_dir fs (mkPath abs ancestors) = true.
Proof.
  intros Htree. induction components as [|x components IH] using rev_ind.
  - intros _ ancestors Hprefix. by apply prefix_nil_inv in Hprefix as ->.
  - intros Hdir ancestors [k Hk].
    assert (Hparent : FS.is_dir fs (mkPath abs components) = true).
    { unfold FS.is_dir in Hdir.
      rewrite stat_lookup in Hdir by (simpl; by destruct components).
      destruct (fs !! mkPath abs (components ++ [x])%list) as [node|] eqn:Hnode;
        [| done].
      apply Htree in Hnode. unfold PyPath.parent in Hnode. simpl in Hnode.
      by rewrite removelast_last in Hnode. }
    destruct k as [|y k _] using rev_ind.
    + rewrite app_nil_r in Hk. by subst ancestors.
    + rewrite app_assoc in Hk. apply app_inj_tail in Hk as [-> _].
      apply IH; [done |]. by exists k.
Qed.

End FileSystemLemmas.

(** ** The Mistral binding *)

Section MistralProperties.
Context {R : Type}.
Implicit Types (self : MistralOCRService.t R) (w : World R).

(** A call of [process_file] that returns went through its three
    stages: the document was prepared, the OCR endpoint answered, the
    outputs were saved. *)
Lemma process_file_inr_inv self file_path output_dir include_image_base64 w result w' :
  MistralOCRService.process_file self file_path output_dir include_image_base64 w = (inr result, w') ->
  exists document w1 ocr_response r2,
    MistralOCRService.prepare_document self file_path w = (inr document, w1)
    /\ ocr_process (MistralOCRService.client self) (MistralOCRService.model self) document include_image_base64 (remote w1)
       = (inr ocr_response, r2)
    /\ MistralOCRService.save file_path output_dir
         (MistralOCRService._extract_content_from_response ocr_response)
         (MistralOCRService._create_metadata self ocr_response file_path include_image_base64)
         (PyM.sent w1 r2 (OcrProcess (MistralOCRService.model self) document include_image_base64))
       = (inr (output_path result), w')
    /\ content result = MistralOCRService._extract_content_from_response ocr_response
    /\ metadata result
       = MistralOCRService._create_metadata self ocr_response file_path include_image_base64.
Proof.
  unfold MistralOCRService.process_file. intros Hrun.
  apply bind_inr_inv in Hrun as (document & w1 & Hdoc & Hrun).
  apply bind_inr_inv in Hrun as (ocr_response & w2 & Hocr & Hrun).
  apply call_inr_inv in Hocr as (r2 & Hocr & ->).
  apply bind_inr_inv in Hrun as (saved & w3 & Hsave & Hret).
  unfold PyM.ret in Hret. injection Hret as <- <-.
  exists document, w1, ocr_response, r2. by repeat split.
Qed.

Lemma create_metadata_unmarked self ocr_response source_path include_image_base64 :
  let metadata :=
    MistralOCRService._create_metadata self ocr_response source_path include_image_base64 in
  PyDict.get metadata "success" = None /\ PyDict.get metadata "error" = None.
Proof.
  unfold MistralOCRService._create_metadata.
  destruct (Sdk.pages ocr_response) as [|page rest]; [by split |].
  destruct (0 <? length (page :: rest))%nat; by split.
Qed.

Lemma unmarked_invariant result :
  PyDict.get (metadata result) "success" = None ->
  PyDict.get (metadata result) "error" = None ->
  has_failure_marker (metadata result) = false /\ result_invariant result.
Proof.
  intros Hs He.
  assert (Hm : has_failure_marker (metadata result) = false).
  { unfold has_failure_marker, PyDict.contains. by rewrite Hs, He. }
  split; [done |]. split.
  - by rewrite Hm.
  - intros _. unfold PyDict.contains. rewrite Hs, He. by split.
Qed.

Lemma failed_result_invariant self file_path e :
  result_invariant (failed_result self file_path e).
Proof. split; [by split | discriminate]. Qed.

Lemma process_file_kwargs_inr_inv self file_path output_dir kwargs w result w' :
  MistralOCRService.process_file_kwargs self file_path output_dir kwargs w = (inr result, w') ->
  MistralOCRService.process_file self file_path output_dir
    (PyDict.get_default kwargs "include_image_base64" (PyBool false)) w
  = (inr result, w').
Proof.
  unfold MistralOCRService.process_file_kwargs.
  by destruct (PyDict.contains kwargs "file_path").
Qed.

Lemma process_file_unmarked self file_path output_dir include_image_base64 w result w' :
  MistralOCRService.process_file self file_path output_dir include_image_base64 w = (inr result, w') ->
  has_failure_marker (metadata result) = false /\ result_invariant result.
Proof.
  intros Hrun.
  apply process_file_inr_inv in Hrun as (? & ? & ocr_response & ? & _ & _ & _ & _ & Hmeta).
  destruct (create_metadata_unmarked self ocr_response file_path include_image_base64)
    as [Hs He].
  apply unmarked_invariant; by rewrite Hmeta.
Qed.

Lemma item_result_invariant self output_dir kwargs file_path w :
  result_invariant (item_result self output_dir kwargs file_path w).
Proof.
  unfold item_result.
  destruct (process_file self file_path output_dir kwargs w) as [[e|result] w'] eqn:E.
  - apply failed_result_invariant.
  - apply process_file_kwargs_inr_inv in E.
    by apply process_file_unmarked in E as [_ ?].
Qed.

(** C3: every Result that [process_file] returns carries no failure
    marker, so it satisfies the invariant; every Result in the list that
    [process_files] returns satisfies it too: with a failure marker
    (a [success] key set to [False], or an [error] key) the content is
    empty and the output path absent, and a successful Result has no
    [error] key and no false [success] marker. *)
Theorem results_satisfy_invariant self :
  (forall file_path output_dir include_image_base64 w result w',
      MistralOCRService.process_file self file_path output_dir include_image_base64 w
      = (inr result, w') ->
      has_failure_marker (metadata result) = false /\ result_invariant result)
  /\ (forall file_paths output_dir kwargs w results w',
        process_files self file_paths output_dir kwargs w = (inr results, w') ->
        Forall result_invariant results).
Proof.
  split.
  - intros *. apply process_file_unmarked.
  - intros file_paths output_dir kwargs w results w'.
    rewrite process_files_spec. intros [= <- _].
    revert w. induction file_paths as [|file_path rest IH]; intros w; simpl.
    + constructor.
    + constructor; [apply item_result_invariant | apply IH].
Qed.

(** C5: with no [api_key] argument and no [MISTRAL_API_KEY] in the
    environment, the constructor raises the configuration error and
    leaves the world as it was (no file read or written, no request
    sent); whatever was to be done with the service, a batch included,
    is not run, and the outcome is that exception, not a Result. *)
Theorem init_without_credential_fails
    (Mistral : string -> Exception + MistralClient R) (model : string) w :
  environ w !! "MISTRAL_API_KEY" = None ->
  let error :=
    mkExc ValueError
      "MISTRAL_API_KEY environment variable must be set or api_key provided" in
  MistralOCRService.__init__ Mistral None model w = (inl error, w)
  /\ (forall file_paths output_dir kwargs,
        (self <- MistralOCRService.__init__ Mistral None model ;;
         process_files self file_paths output_dir kwargs) w = (inl error, w))
  /\ (forall A (rest : MistralOCRService.t R -> M R A),
        (self <- MistralOCRService.__init__ Mistral None model ;; rest self) w
        = (inl error, w)).
Proof.
  intros Henv error.
  assert (Hinit : MistralOCRService.__init__ Mistral None model w = (inl error, w)).
  { unfold MistralOCRService.__init__, PyM.bind, PyM.environ_get. by rewrite Henv. }
  split; [done |]. split; intros *; by apply bind_inl.
Qed.

(** C8: the content of the Result that [process_file] returns is the
    text of the pages of the OCR response, in page order, with two
    newlines between consecutive pages; with no page it is empty. *)
Theorem content_joins_pages self file_path output_dir include_image_base64 w result w' :
  MistralOCRService.process_file self file_path output_dir include_image_base64 w
  = (inr result, w') ->
  exists document w1 ocr_response r2,
    MistralOCRService.prepare_document self file_path w = (inr document, w1)
    /\ ocr_process (MistralOCRService.client self) (MistralOCRService.model self)
         document include_image_base64 (remote w1)
       = (inr ocr_response, r2)
    /\ content result
       = String.concat (PyStr.nl +:+ PyStr.nl)
           (map Sdk.markdown (Sdk.pages ocr_response))
    /\ (Sdk.pages ocr_response = [] -> content result = "").
Proof.
  intros Hrun.
  apply process_file_inr_inv in Hrun
    as (document & w1 & ocr_response & r2 & Hdoc & Hocr & _ & Hcontent & _).
  exists document, w1, ocr_response, r2.
  split; [done |]. split; [done |].
  rewrite Hcontent. unfold MistralOCRService._extract_content_from_response.
  split; [apply join_concat |]. by intros ->.
Qed.

(** *** Saving the outputs *)

Lemma save_some_inr file_path output_dir content metadata w saved w' :
  MistralOCRService.save file_path (Some output_dir) content metadata w
  = (inr saved, w') ->
  let output_path :=
    PyPath.joinpath output_dir (PyPath.stem file_path +:+ ".ocr.md") in
  let metadata_path :=
    PyPath.joinpath output_dir (PyPath.stem file_path +:+ ".ocr.json") in
  exists fs1 r1 r2,
    FS.mkdir_parents (fs w) output_dir = inr fs1
    /\ saved = Some output_path
    /\ fs w' = <[metadata_path := RegularFile r2 true (Json.dumps metadata)]>
                 (<[output_path := RegularFile r1 true content]> fs1)
    /\ remote w' = remote w
    /\ requests w' = requests w.
Proof.
  intros Hsave output_path metadata_path. revert Hsave.
  unfold MistralOCRService.save, PyM.bind, PyM.mkdir_parents, PyM.write,
    PyM.write_chunks, PyM.fs_update, PyM.ret.
  fold output_path metadata_path.
  destruct (FS.mkdir_parents (fs w) output_dir) as [e|fs1] eqn:Hmk; [done |].
  cbn [fs PyM.with_fs].
  destruct (FS.write fs1 output_path content) as [e|fs2] eqn:Hmd; [done |].
  cbn [fs PyM.with_fs].
  destruct (PyM.write_loop (Json.iterencode metadata) "") as [error written] eqn:Hloop.
  destruct (FS.write fs2 metadata_path written) as [e|fs3] eqn:Hjson; [done |].
  destruct error as [e|]; [done |].
  intros [= <- <-].
  apply write_loop_None in Hloop. rewrite iterencode_dumps in Hloop.
  change ("" +:+ Json.dumps metadata) with (Json.dumps metadata) in Hloop.
  subst written.
  apply write_inr in Hmd as [r1 ->]; [| apply joinpath_parts].
  apply write_inr in Hjson as [r2 ->]; [| apply joinpath_parts].
  by exists fs1, r1, r2.
Qed.

(** *** The stages before saving leave the file system alone *)

Lemma call_fs {A} (q : Request) (endpoint : R -> (Exception + A) * R) w :
  fs (snd (PyM.call q endpoint w)) = fs w.
Proof. unfold PyM.call. by destruct (endpoint (remote w)). Qed.

Lemma prepare_document_fs self file_path w :
  fs (snd (MistralOCRService.prepare_document self file_path w)) = fs w.
Proof.
  unfold MistralOCRService.prepare_document,
    MistralOCRService._encode_file_to_base64,
    PyM.bind, PyM.try_except, PyM.read_bytes, PyM.call, PyM.ret, PyM.raise.
  destruct (MistralOCRService._is_image_file file_path).
  - destruct (FS.read_bytes (fs w) file_path) as [e|bytes]; [| done].
    by destruct (exc_class e).
  - destruct (FS.read_bytes (fs w) file_path) as [e|bytes]; [done |].
    destruct (files_upload _ _ _ _ _) as [[e|uploaded] r1]; [done |].
    cbn [remote PyM.sent].
    by destruct (files_get_signed_url _ _ _) as [[e|signed] r2].
Qed.

Lemma prepare_document_inr_fs self file_path w document w1 :
  MistralOCRService.prepare_document self file_path w = (inr document, w1) ->
  fs w1 = fs w.
Proof. intros Hdoc. by rewrite <- (prepare_document_fs self file_path w), Hdoc. Qed.

Lemma process_file_after_ocr self file_path output_dir include_image_base64 w
    document w1 ocr_response r2 :
  MistralOCRService.prepare_document self file_path w = (inr document, w1) ->
  ocr_process (MistralOCRService.client self) (MistralOCRService.model self)
    document include_image_base64 (remote w1) = (inr ocr_response, r2) ->
  let content := MistralOCRService._extract_content_from_response ocr_response in
  let metadata :=
    MistralOCRService._create_metadata self ocr_response file_path
      include_image_base64 in
  MistralOCRService.process_file self file_path output_dir include_image_base64 w
  = match MistralOCRService.save file_path output_dir content metadata
            (PyM.sent w1 r2
               (OcrProcess (MistralOCRService.model self) document
                  include_image_base64)) with
    | (inr saved, w') => (inr (mkOCRResult content metadata saved), w')
    | (inl e, w') => (inl e, w')
    end.
Proof.
  intros Hdoc Hocr content metadata.
  unfold MistralOCRService.process_file.
  rewrite (bind_inr _ _ _ _ _ Hdoc).
  rewrite (bind_inr _ _ _ _ _ (call_eq _ _ _ _ _ Hocr)).
  reflexivity.
Qed.

Lemma is_dir_insert_file fs q node d :
  FS.is_dir fs d = true -> q <> d -> FS.is_dir (<[q := node]> fs) d = true.
Proof.
  unfold FS.is_dir, FS.stat. intros Hdir Hne.
  destruct (parts d); [done |]. by rewrite lookup_insert_ne.
Qed.

Lemma joinpath_not_self d component : PyPath.joinpath d component <> d.
Proof.
  destruct d as [abs components]. unfold PyPath.joinpath. simpl.
  intros [= Heq]. apply (f_equal length) in Heq.
  rewrite length_app in Heq. simpl in Heq. lia.
Qed.

(** A call that returns with an output directory: the directory was
    made, then the two files were written. *)
Lemma process_file_outputs self file_path output_dir include_image_base64 w result w' :
  MistralOCRService.process_file self file_path (Some output_dir)
    include_image_base64 w = (inr result, w') ->
  let text_path :=
    PyPath.joinpath output_dir (PyPath.stem file_path +:+ ".ocr.md") in
  let metadata_path :=
    PyPath.joinpath output_dir (PyPath.stem file_path +:+ ".ocr.json") in
  exists fs1 ra rb,
    FS.mkdir_parents (fs w) output_dir = inr fs1
    /\ output_path result = Some text_path
    /\ fs w' = <[metadata_path := RegularFile rb true (Json.dumps (metadata result))]>
                 (<[text_path := RegularFile ra true (content result)]> fs1).
Proof.
  intros Hrun text_path metadata_path.
  apply process_file_inr_inv in Hrun
    as (document & w1 & ocr_response & r2 & Hdoc & _ & Hsave & Hcontent & Hmeta).
  apply prepare_document_inr_fs in Hdoc.
  apply save_some_inr in Hsave as (fs1 & ra & rb & Hmk & Hout & Hfs & _ & _).
  cbn [fs PyM.sent] in Hmk. rewrite Hdoc in Hmk.
  exists fs1, ra, rb. by rewrite Hcontent, Hmeta.
Qed.

Lemma create_metadata_keys self ocr_response source_path include_image_base64 :
  NoDup (map fst (MistralOCRService._create_metadata self ocr_response source_path
                    include_image_base64)).
Proof.
  unfold MistralOCRService._create_metadata.
  destruct (Sdk.pages ocr_response) as [|page rest]; cbn;
    apply (bool_decide_unpack _); by vm_compute.
Qed.

Lemma process_file_metadata_keys
    self file_path output_dir include_image_base64 w result w' :
  MistralOCRService.process_file self file_path output_dir include_image_base64 w
  = (inr result, w') ->
  NoDup (map fst (metadata result)).
Proof.
  intros Hrun.
  apply process_file_inr_inv in Hrun as (? & ? & ? & ? & _ & _ & _ & _ & ->).
  apply create_metadata_keys.
Qed.

Lemma output_dir_above_outputs d component ancestors :
  ancestors `prefix_of` parts d ->
  PyPath.joinpath d component <> mkPath (absolute d) ancestors.
Proof.
  intros Hprefix [= Heq]. apply prefix_length in Hprefix.
  rewrite <- Heq, length_app in Hprefix. simpl in Hprefix. lia.
Qed.

(** C6: when [process_file] is given an output directory and returns,
      the directory exists, and in a file system that is a tree so do
      all the directories above it; a text file named [<stem>.ocr.md]
      in it holds the content of the Result; a sibling file named
      [<stem>.ocr.json] holds the metadata as JSON, the text that
      [json.dump] writes, from which a JSON reader gets back every key
      with its value; the Result's output path is the text file; and
      nothing else of the file system has changed except for the
      directories created on the way to the output directory: exactly
      these two files were written. *)
Theorem process_file_persists_two_files
    self file_path output_dir include_image_base64 w result w' :
  MistralOCRService.process_file self file_path (Some output_dir)
    include_image_base64 w = (inr result, w') ->
  let text_path :=
    PyPath.joinpath output_dir (PyPath.stem file_path +:+ ".ocr.md") in
  let metadata_path :=
    PyPath.joinpath output_dir (PyPath.stem file_path +:+ ".ocr.json") in
  output_path result = Some text_path
  /\ PyPath.parent text_path = output_dir
  /\ PyPath.parent metadata_path = output_dir
  /\ text_path <> metadata_path
  /\ FS.is_dir (fs w') output_dir = true
  /\ (tree (fs w) ->
      forall ancestors,
        ancestors `prefix_of` parts output_dir ->
        FS.is_dir (fs w') (mkPath (absolute output_dir) ancestors) = true)
  /\ (exists readable,
        fs w' !! text_path = Some (RegularFile readable true (content result)))
  /\ (exists readable data,
        fs w' !! metadata_path = Some (RegularFile readable true data)
        /\ data = Json.dumps (metadata result)
        /\ Decode.json_loads data = Some (metadata result))
  /\ (forall q, q <> text_path -> q <> metadata_path ->
        fs w' !! q = fs w !! q
        \/ (fs w !! q = None /\ fs w' !! q = Some Directory
            /\ absolute q = absolute output_dir
            /\ parts q `prefix_of` parts output_dir)).
Proof.
  intros Hrun text_path metadata_path.
  pose proof (process_file_metadata_keys _ _ _ _ _ _ _ Hrun) as Hkeys.
  apply process_file_outputs in Hrun as (fs1 & ra & rb & Hmk & Hout & Hfs).
  pose proof Hmk as Hmade. apply mkdir_parents_inr in Hmade as [Hdir Hframe].
  fold text_path metadata_path in Hout, Hfs.
  assert (Hdiff : text_path <> metadata_path) by apply output_paths_differ.
  rewrite Hfs.
  split; [done |]. split; [apply joinpath_parent |].
  split; [apply joinpath_parent |]. split; [done |].
  split.
  { apply is_dir_insert_file; [| apply joinpath_not_self].
    apply is_dir_insert_file; [done | apply joinpath_not_self]. }
  split.
  { intros Htree ancestors Hprefix.
    apply is_dir_insert_file; [| by apply output_dir_above_outputs].
    apply is_dir_insert_file; [| by apply output_dir_above_outputs].
    apply (tree_ancestors fs1 (absolute output_dir) (parts output_dir));
      [by eapply mkdir_parents_tree | by destruct output_dir | done]. }
  split.
  { exists ra. rewrite lookup_insert_ne by done. by rewrite lookup_insert_eq. }
  split.
  { exists rb, (Json.dumps (metadata result)).
    split; [by rewrite lookup_insert_eq |]. split; [done |].
    by apply json_loads_dumps. }
  intros q Hq1 Hq2. rewrite !lookup_insert_ne by done. apply Hframe.
Qed.

(** C10: the output files are named from the output directory and the
      stem of the input alone, the extension is dropped.  So when two
      inputs with the same stem are processed into the same output
      directory, one after the other, and both calls return, both Results
      carry the same output path, and the second call has written over
      the files of the first: the text file and the metadata file, which
      held the content and the metadata of the first Result, hold those
      of the second afterwards; the second Result carries no failure
      marker, and nothing else is changed by the second call. *)
Theorem equal_stems_share_output_files
    self first second output_dir include1 include2 w result1 w1 result2 w2 :
  PyPath.stem first = PyPath.stem second ->
  MistralOCRService.process_file self first (Some output_dir) include1 w
  = (inr result1, w1) ->
  MistralOCRService.process_file self second (Some output_dir) include2 w1
  = (inr result2, w2) ->
  let text_path :=
    PyPath.joinpath output_dir (PyPath.stem first +:+ ".ocr.md") in
  let metadata_path :=
    PyPath.joinpath output_dir (PyPath.stem first +:+ ".ocr.json") in
  output_path result1 = Some text_path
  /\ output_path result2 = Some text_path
  /\ (exists readable,
        fs w1 !! text_path = Some (RegularFile readable true (content result1)))
  /\ (exists readable,
        fs w1 !! metadata_path
        = Some (RegularFile readable true (Json.dumps (metadata result1))))
  /\ (exists readable,
        fs w2 !! text_path = Some (RegularFile readable true (content result2)))
  /\ (exists readable data,
        fs w2 !! metadata_path = Some (RegularFile readable true data)
        /\ data = Json.dumps (metadata result2)
        /\ Decode.json_loads data = Some (metadata result2))
  /\ has_failure_marker (metadata result2) = false
  /\ (forall q, q <> text_path -> q <> metadata_path -> fs w2 !! q = fs w1 !! q).
Proof.
  intros Hstem Hfirst Hsecond text_path metadata_path.
  assert (Hdiff : text_path <> metadata_path) by apply output_paths_differ.
  pose proof (process_file_metadata_keys _ _ _ _ _ _ _ Hsecond) as Hkeys.
  pose proof (proj1 (process_file_unmarked _ _ _ _ _ _ _ Hsecond)) as Hunmarked.
  apply process_file_outputs in Hfirst as (fsa & ra & rb & Hmk1 & Hout1 & Hfs1).
  apply process_file_outputs in Hsecond as (fsb & rc & rd & Hmk2 & Hout2 & Hfs2).
  rewrite <- Hstem in Hout2, Hfs2.
  fold text_path metadata_path in Hout1, Hfs1, Hout2, Hfs2.
  apply mkdir_parents_inr in Hmk1 as [Hdir _].
  assert (Hdir1 : FS.is_dir (fs w1) output_dir = true).
  { rewrite Hfs1.
    apply is_dir_insert_file; [| apply joinpath_not_self].
    apply is_dir_insert_file; [done | apply joinpath_not_self]. }
  rewrite (mkdir_parents_existing _ _ Hdir1) in Hmk2. injection Hmk2 as <-.
  split; [done |]. split; [done |].
  split.
  { exists ra. rewrite Hfs1, lookup_insert_ne by done. by rewrite lookup_insert_eq. }
  split.
  { exists rb. by rewrite Hfs1, lookup_insert_eq. }
  split.
  { exists rc. rewrite Hfs2, lookup_insert_ne by done. by rewrite lookup_insert_eq. }
  split.
  { exists rd, (Json.dumps (metadata result2)).
    split; [by rewrite Hfs2, lookup_insert_eq |]. split; [done |].
    by apply json_loads_dumps. }
  split; [done |].
  intros q Hq1 Hq2. by rewrite Hfs2, !lookup_insert_ne.
Qed.

(** *** Failures *)

Lemma prepare_document_inl self file_path output_dir include_image_base64 w e w1 :
  MistralOCRService.prepare_document self file_path w = (inl e, w1) ->
  MistralOCRService.process_file self file_path output_dir include_image_base64 w
  = (inl e, w1).
Proof. intros Hdoc. unfold MistralOCRService.process_file. by apply bind_inl. Qed.

Lemma prepare_document_unreadable self file_path w e0 :
  FS.read_bytes (fs w) file_path = inl e0 ->
  MistralOCRService.prepare_document self file_path w
  = (inl (if MistralOCRService._is_image_file file_path
          then match exc_class e0 with
               | FileNotFoundError =>
                   mkExc FileNotFoundError
                     ("File not found: " +:+ PyPath.str file_path)
               | _ =>
                   mkExc RuntimeError
                     ("Error encoding file " +:+ PyPath.str file_path +:+ ": "
                      +:+ exc_str e0)
               end
          else e0), w).
Proof.
  intros Hread.
  unfold MistralOCRService.prepare_document,
    MistralOCRService._encode_file_to_base64,
    PyM.bind, PyM.try_except, PyM.read_bytes, PyM.raise.
  destruct (MistralOCRService._is_image_file file_path); rewrite Hread; [| done].
  by destruct (exc_class e0).
Qed.

(** C4, amended: a failure of [process_file] reaches its caller and no
      Result is returned.  When the source file cannot be read, a
      document-type input raises the I/O error of the read itself; an
      image-type input raises [FileNotFoundError] when the file does not
      exist, and otherwise a [RuntimeError] that wraps the error of the
      read.  When a remote call (the upload, the signed URL, the OCR call)
      raises, that exception is raised unchanged. *)
Theorem process_file_propagates_failures
    self file_path output_dir include_image_base64 w :
  (forall e0,
      FS.read_bytes (fs w) file_path = inl e0 ->
      is_OSError e0 = true
      /\ MistralOCRService.process_file self file_path output_dir
           include_image_base64 w
         = (inl (if MistralOCRService._is_image_file file_path
                 then match exc_class e0 with
                      | FileNotFoundError =>
                          mkExc FileNotFoundError
                            ("File not found: " +:+ PyPath.str file_path)
                      | _ =>
                          mkExc RuntimeError
                            ("Error encoding file " +:+ PyPath.str file_path
                             +:+ ": " +:+ exc_str e0)
                      end
                 else e0), w))
  /\ (forall bytes e r1,
        MistralOCRService._is_image_file file_path = false ->
        FS.read_bytes (fs w) file_path = inr bytes ->
        files_upload (MistralOCRService.client self) (PyPath.name file_path)
          bytes "ocr" (remote w) = (inl e, r1) ->
        MistralOCRService.process_file self file_path output_dir
          include_image_base64 w
        = (inl e,
           PyM.sent w r1 (FilesUpload (PyPath.name file_path) bytes "ocr")))
  /\ (forall bytes uploaded r1 e r2,
        MistralOCRService._is_image_file file_path = false ->
        FS.read_bytes (fs w) file_path = inr bytes ->
        files_upload (MistralOCRService.client self) (PyPath.name file_path)
          bytes "ocr" (remote w) = (inr uploaded, r1) ->
        files_get_signed_url (MistralOCRService.client self) (Sdk.id uploaded) r1
        = (inl e, r2) ->
        MistralOCRService.process_file self file_path output_dir
          include_image_base64 w
        = (inl e,
           PyM.sent
             (PyM.sent w r1 (FilesUpload (PyPath.name file_path) bytes "ocr"))
             r2 (FilesGetSignedUrl (Sdk.id uploaded))))
  /\ (forall document w1 e r2,
        MistralOCRService.prepare_document self file_path w = (inr document, w1) ->
        ocr_process (MistralOCRService.client self) (MistralOCRService.model self)
          document include_image_base64 (remote w1) = (inl e, r2) ->
        MistralOCRService.process_file self file_path output_dir
          include_image_base64 w
        = (inl e,
           PyM.sent w1 r2
             (OcrProcess (MistralOCRService.model self) document
                include_image_base64))).
Proof.
  split; [| split; [| split]].
  - intros e0 Hread. split; [by eapply read_bytes_error_is_OSError |].
    apply prepare_document_inl. by apply prepare_document_unreadable.
  - intros bytes e r1 Himage Hread Hupload.
    apply prepare_document_inl.
    unfold MistralOCRService.prepare_document. rewrite Himage.
    unfold PyM.bind, PyM.read_bytes. rewrite Hread.
    by rewrite (call_eq _ _ _ _ _ Hupload).
  - intros bytes uploaded r1 e r2 Himage Hread Hupload Hsigned.
    apply prepare_document_inl.
    unfold MistralOCRService.prepare_document. rewrite Himage.
    unfold PyM.bind, PyM.read_bytes. rewrite Hread.
    rewrite (call_eq _ _ _ _ _ Hupload).
    unfold PyM.call. cbn [remote PyM.sent]. by rewrite Hsigned.
  - intros document w1 e r2 Hdoc Hocr.
    unfold MistralOCRService.process_file.
    rewrite (bind_inr _ _ _ _ _ Hdoc).
    apply bind_inl. by apply call_eq.
Qed.

(** *** The requests sent *)

Lemma save_requests file_path output_dir content metadata w :
  requests (snd (MistralOCRService.save file_path output_dir content metadata w))
  = requests w.
Proof.
  destruct output_dir as [output_dir|]; [| done].
  unfold MistralOCRService.save, PyM.bind, PyM.mkdir_parents, PyM.write,
    PyM.fs_update, PyM.ret.
  destruct (FS.mkdir_parents (fs w) output_dir) as [e|fs1]; [done |].
  cbn [fs PyM.with_fs].
  destruct (FS.write fs1 _ content) as [e|fs2]; [done |].
  match goal with
  | |- context [PyM.write_chunks ?p ?chunks ?w0] =>
      pose proof (proj1 (write_loop_requests p chunks w0)) as Hwrite;
      destruct (PyM.write_chunks p chunks w0) as [[e|[]] w2]
  end; exact Hwrite.
Qed.

Lemma process_file_requests self file_path output_dir include_image_base64 w
    document w1 :
  MistralOCRService.prepare_document self file_path w = (inr document, w1) ->
  requests (snd (MistralOCRService.process_file self file_path output_dir
                   include_image_base64 w))
  = (requests w1
       ++ [OcrProcess (MistralOCRService.model self) document include_image_base64])%list.
Proof.
  intros Hdoc.
  destruct (ocr_process (MistralOCRService.client self)
              (MistralOCRService.model self) document include_image_base64
              (remote w1)) as [[e|ocr_response] r2] eqn:Hocr.
  - unfold MistralOCRService.process_file.
    rewrite (bind_inr _ _ _ _ _ Hdoc).
    by rewrite (bind_inl _ _ _ _ _ (call_eq _ _ _ _ _ Hocr)).
  - rewrite (process_file_after_ocr _ _ output_dir _ _ _ _ _ _ Hdoc Hocr).
    match goal with
    | |- context [MistralOCRService.save ?p ?d ?c ?m ?w0] =>
        pose proof (save_requests p d c m w0) as Hsave;
        destruct (MistralOCRService.save p d c m w0) as [[e|saved] w2]
    end; exact Hsave.
Qed.

Lemma image_extension_cases file_path :
  MistralOCRService._is_image_file file_path = true ->
  exists extension,
    extension ∈ ["png"; "jpg"; "jpeg"; "avif"; "gif"; "bmp"; "tiff"; "tif"]
    /\ PyStr.lower (PyPath.suffix file_path) = "." +:+ extension.
Proof.
  unfold MistralOCRService._is_image_file, MistralOCRService.image_extensions.
  intros Himage. apply bool_decide_eq_true in Himage.
  repeat (apply elem_of_cons in Himage as [Himage|Himage];
          [eexists; split; [| exact Himage]; set_solver |]).
  by apply elem_of_nil in Himage.
Qed.

(** C7: whether a file is an image or a document is decided by the
      suffix of its path alone: it is an image exactly when the suffix,
      in lower case, is one of .png, .jpg, .jpeg, .avif, .gif, .bmp,
      .tiff and .tif, so that two paths with the same suffix are
      classified alike, whatever the files hold.  For an image, no file
      is uploaded: the one request is the OCR call, whose document is an
      [image_url] with a data URI; its media type is the suffix (jpeg for
      .jpg) and its payload is base64 text that decodes to the bytes of
      the file.  For a document, the bytes of the file are uploaded under
      its name, a signed URL is asked for the uploaded file, and the OCR
      call gets a [document_url] with that URL. *)
Theorem process_file_request_by_extension
    self file_path output_dir include_image_base64 w bytes :
  FS.read_bytes (fs w) file_path = inr bytes ->
  (MistralOCRService._is_image_file file_path = true
   <-> PyStr.lower (PyPath.suffix file_path)
       ∈ [".png"; ".jpg"; ".jpeg"; ".avif"; ".gif"; ".bmp"; ".tiff"; ".tif"])
  /\ (forall other,
        PyPath.suffix other = PyPath.suffix file_path ->
        MistralOCRService._is_image_file other
        = MistralOCRService._is_image_file file_path)
  /\ if MistralOCRService._is_image_file file_path then
       exists extension payload,
         PyStr.lower (PyPath.suffix file_path) = "." +:+ extension
         /\ Decode.b64decode payload = Some bytes
         /\ let subtype := if String.eqb extension "jpg" then "jpeg" else extension in
            let document :=
              [("type", PyString "image_url");
               ("image_url",
                PyString ("data:image/" +:+ subtype +:+ ";base64," +:+ payload))] in
            MistralOCRService.prepare_document self file_path w = (inr document, w)
            /\ requests (snd (MistralOCRService.process_file self file_path
                                output_dir include_image_base64 w))
               = (requests w
                    ++ [OcrProcess (MistralOCRService.model self) document
                          include_image_base64])%list
     else
       forall uploaded r1 signed r2,
         files_upload (MistralOCRService.client self) (PyPath.name file_path)
           bytes "ocr" (remote w) = (inr uploaded, r1) ->
         files_get_signed_url (MistralOCRService.client self) (Sdk.id uploaded) r1
         = (inr signed, r2) ->
         let document :=
           [("type", PyString "document_url");
            ("document_url", PyString (Sdk.url signed))] in
         requests (snd (MistralOCRService.process_file self file_path
                          output_dir include_image_base64 w))
         = (requests w
              ++ [FilesUpload (PyPath.name file_path) bytes "ocr";
                  FilesGetSignedUrl (Sdk.id uploaded);
                  OcrProcess (MistralOCRService.model self) document
                    include_image_base64])%list.
Proof.
  intros Hread. split.
  { unfold MistralOCRService._is_image_file, MistralOCRService.image_extensions.
    apply bool_decide_eq_true. }
  split.
  { intros other Hsuffix. unfold MistralOCRService._is_image_file.
    by rewrite Hsuffix. }
  destruct (MistralOCRService._is_image_file file_path) eqn:Himage.
  - destruct (image_extension_cases file_path Himage) as (extension & Hin & Hext).
    exists extension, (Base64.b64encode bytes).
    split; [done |]. split; [apply b64decode_b64encode |].
    assert (Hdoc :
      MistralOCRService.prepare_document self file_path w
      = (inr [("type", PyString "image_url");
              ("image_url",
               PyString ("data:image/"
                         +:+ (if String.eqb extension "jpg" then "jpeg" else extension)
                         +:+ ";base64," +:+ Base64.b64encode bytes))], w)).
    { unfold MistralOCRService.prepare_document. rewrite Himage.
      unfold MistralOCRService._encode_file_to_base64,
        PyM.bind, PyM.try_except, PyM.read_bytes, PyM.ret.
      rewrite Hread, Hext.
      repeat (apply elem_of_cons in Hin as [->|Hin]; [reflexivity |]).
      by apply elem_of_nil in Hin. }
    split; [exact Hdoc |].
    by rewrite (process_file_requests _ _ _ _ _ _ _ Hdoc).
  - intros uploaded r1 signed r2 Hupload Hsigned document.
    assert (Hdoc :
      MistralOCRService.prepare_document self file_path w
      = (inr document,
         PyM.sent
           (PyM.sent w r1 (FilesUpload (PyPath.name file_path) bytes "ocr"))
           r2 (FilesGetSignedUrl (Sdk.id uploaded)))).
    { unfold MistralOCRService.prepare_document. rewrite Himage.
      unfold PyM.bind, PyM.read_bytes. rewrite Hread.
      rewrite (call_eq _ _ _ _ _ Hupload).
      unfold PyM.call. cbn [remote PyM.sent]. by rewrite Hsigned. }
    rewrite (process_file_requests _ _ _ _ _ _ _ Hdoc).
    cbn [requests PyM.sent]. by rewrite <- !app_assoc.
Qed.

(** *** Repeating a call *)

Lemma deterministic_endpoint {A} (endpoint : R -> (Exception + A) * R) r r' :
  (forall r r', fst (endpoint r) = fst (endpoint r')) ->
  exists x s s', endpoint r = (x, s) /\ endpoint r' = (x, s').
Proof.
  intros Hdet. specialize (Hdet r r').
  destruct (endpoint r) as [x s], (endpoint r') as [x' s']. simpl in Hdet.
  subst x'. by exists x, s, s'.
Qed.

Lemma call_outcome {A} (q : Request) (endpoint : R -> (Exception + A) * R) w1 w2 :
  (forall r r', fst (endpoint r) = fst (endpoint r')) ->
  fst (PyM.call q endpoint w1) = fst (PyM.call q endpoint w2).
Proof.
  intros Hdet. unfold PyM.call.
  by destruct (deterministic_endpoint endpoint (remote w1) (remote w2) Hdet)
    as (x & s & s' & -> & ->).
Qed.

Lemma bind_outcome {A B} (c : M R A) (k : A -> M R B) w1 w2 :
  fst (c w1) = fst (c w2) ->
  (forall a, fst (c w1) = inr a ->
             fst (k a (snd (c w1))) = fst (k a (snd (c w2)))) ->
  fst (PyM.bind c k w1) = fst (PyM.bind c k w2).
Proof.
  unfold PyM.bind.
  destruct (c w1) as [[e|a] wa], (c w2) as [[e'|a'] wb]; simpl;
    intros Hc Hk; try congruence.
  injection Hc as <-. by apply Hk.
Qed.

Lemma prepare_document_outcome self file_path w1 w2 :
  deterministic (MistralOCRService.client self) ->
  fs w1 = fs w2 ->
  fst (MistralOCRService.prepare_document self file_path w1)
  = fst (MistralOCRService.prepare_document self file_path w2).
Proof.
  intros (Hupload & Hsigned & _) Hfs.
  unfold MistralOCRService.prepare_document.
  destruct (MistralOCRService._is_image_file file_path).
  - unfold MistralOCRService._encode_file_to_base64,
      PyM.bind, PyM.try_except, PyM.read_bytes, PyM.ret, PyM.raise.
    rewrite Hfs.
    destruct (FS.read_bytes (fs w2) file_path) as [e|bytes]; [| done].
    by destruct (exc_class e).
  - apply bind_outcome.
    { unfold PyM.read_bytes. simpl. by rewrite Hfs. }
    intros bytes _. apply bind_outcome.
    { apply call_outcome. intros r r'. apply Hupload. }
    intros uploaded _. apply bind_outcome; [| done].
    apply call_outcome. intros r r'. apply Hsigned.
Qed.

Lemma process_file_outcome self file_path include_image_base64 w1 w2 :
  deterministic (MistralOCRService.client self) ->
  fs w1 = fs w2 ->
  fst (MistralOCRService.process_file self file_path None include_image_base64 w1)
  = fst (MistralOCRService.process_file self file_path None include_image_base64 w2).
Proof.
  intros Hdet Hfs.
  unfold MistralOCRService.process_file.
  apply bind_outcome; [by apply prepare_document_outcome |].
  intros document _. apply bind_outcome; [| done].
  apply call_outcome. intros r r'. apply Hdet.
Qed.

Lemma process_file_keeps_fs self file_path include_image_base64 w :
  fs (snd (MistralOCRService.process_file self file_path None
             include_image_base64 w)) = fs w.
Proof.
  pose proof (prepare_document_fs self file_path w) as Hdoc.
  unfold MistralOCRService.process_file.
  unfold PyM.bind at 1.
  destruct (MistralOCRService.prepare_document self file_path w) as [[e|document] w1];
    [done |].
  simpl in Hdoc. rewrite <- Hdoc.
  unfold PyM.bind at 1, PyM.call.
  by destruct (ocr_process _ _ _ _ _) as [[e|ocr_response] r2].
Qed.

(** C9: when every endpoint of the remote service gives the same
      response to the same request, calling [process_file] on a path with
      no output directory, and calling it again with the same arguments
      in the world the first call left, have the same outcome: if the
      first call returns a Result, the second returns a Result with the
      same content and the same metadata (and neither has an output path);
      the file system is not changed by the calls. *)
Theorem process_file_twice_same_result self file_path include_image_base64 w :
  deterministic (MistralOCRService.client self) ->
  let first :=
    MistralOCRService.process_file self file_path None include_image_base64 w in
  let second :=
    MistralOCRService.process_file self file_path None include_image_base64
      (snd first) in
  fst second = fst first
  /\ fs (snd first) = fs w
  /\ forall result1,
       fst first = inr result1 ->
       exists result2,
         fst second = inr result2
         /\ content result2 = content result1
         /\ metadata result2 = metadata result1
         /\ output_path result1 = None
         /\ output_path result2 = None.
Proof.
  intros Hdet first second.
  assert (Hfs : fs (snd first) = fs w) by apply process_file_keeps_fs.
  assert (Hsame : fst second = fst first)
    by (apply process_file_outcome; done).
  split; [done |]. split; [done |].
  intros result1 Hfirst. exists result1. rewrite Hsame.
  split; [done |]. split; [done |]. split; [done |].
  assert (Hnone : output_path result1 = None); [| by split].
  subst first. clear second Hsame Hfs.
  destruct (MistralOCRService.process_file self file_path None
              include_image_base64 w) as [x w'] eqn:Hrun.
  simpl in Hfirst. subst x.
  apply process_file_inr_inv in Hrun as (? & ? & ? & ? & _ & _ & Hsave & _).
  unfold MistralOCRService.save, PyM.ret in Hsave. by injection Hsave.
Qed.

End MistralProperties.

(** * More properties of the code *)

(** ** [process_files], continued *)

Section BatchComposition.
Context {R S : Type} `{BaseOCRService R S}.
Implicit Types (self : S) (w : World R).

Lemma results_from_app self output_dir kwargs (a b : list Path) :
  forall w,
    results_from self output_dir kwargs (a ++ b) w
    = (results_from self output_dir kwargs a w
       ++ results_from self output_dir kwargs b
            (world_after self output_dir kwargs a w))%list.
Proof.
  induction a as [|file_path a IH]; intros w; simpl; [done |].
  by rewrite IH.
Qed.

(** X1: a batch over [a ++ b] is the batch over [a] followed by the
    batch over [b] in the world the first one left: the Results are
    those of [a] followed by those of [b]. *)
Theorem process_files_app self (a b : list Path) output_dir kwargs w ra wa rb wb :
  process_files self a output_dir kwargs w = (inr ra, wa) ->
  process_files self b output_dir kwargs wa = (inr rb, wb) ->
  process_files self (a ++ b) output_dir kwargs w = (inr (ra ++ rb)%list, wb).
Proof.
  rewrite !process_files_spec. intros [= <- <-] [= <- <-].
  unfold world_after. by rewrite results_from_app, fold_left_app.
Qed.

End BatchComposition.

(** ** The Mistral binding, continued *)

Section MistralBatch.
Context {R : Type}.
Implicit Types (self : MistralOCRService.t R) (w : World R).

Lemma item_world_keeps_fs self kwargs file_path w :
  fs (item_world self None kwargs file_path w) = fs w.
Proof.
  unfold item_world. simpl. unfold MistralOCRService.process_file_kwargs.
  destruct (PyDict.contains kwargs "file_path"); [done |].
  apply process_file_keeps_fs.
Qed.

(** X2: a batch run without an output directory does not change the
    file system, whatever happens to its items. *)
Theorem process_files_without_output_dir_keeps_fs self file_paths kwargs w :
  fs (snd (process_files self file_paths None kwargs w)) = fs w.
Proof.
  rewrite process_files_spec. simpl. unfold world_after.
  revert w. induction file_paths as [|file_path rest IH]; intros w; simpl; [done |].
  by rewrite IH, item_world_keeps_fs.
Qed.

Lemma process_files_loop_ext {S1 S2 : Type}
    `{BaseOCRService R S1} `{BaseOCRService R S2}
    (self1 : S1) (self2 : S2) output_dir kwargs1 kwargs2 file_paths :
  provider_name self1 = provider_name self2 ->
  (forall file_path w,
      process_file self1 file_path output_dir kwargs1 w
      = process_file self2 file_path output_dir kwargs2 w) ->
  forall results w,
    process_files_loop self1 file_paths output_dir kwargs1 results w
    = process_files_loop self2 file_paths output_dir kwargs2 results w.
Proof.
  intros Hname Hsame.
  induction file_paths as [|file_path rest IH]; intros results w; simpl; [done |].
  unfold PyM.bind at 1 3, PyM.try_except, PyM.bind.
  rewrite Hsame. unfold failed_result. rewrite Hname.
  destruct (process_file self2 file_path output_dir kwargs2 w) as [[e|result] w'];
    apply IH.
Qed.

(** X3: the keyword arguments of a batch matter only through
    [include_image_base64] (whose default is [False]): two batches whose
    keyword arguments agree on it, neither using the name [file_path],
    do the same. *)
Theorem process_files_ignores_other_kwargs
    self file_paths output_dir (kwargs1 kwargs2 : Dict) w :
  PyDict.contains kwargs1 "file_path" = false ->
  PyDict.contains kwargs2 "file_path" = false ->
  PyDict.get_default kwargs1 "include_image_base64" (PyBool false)
  = PyDict.get_default kwargs2 "include_image_base64" (PyBool false) ->
  process_files self file_paths output_dir kwargs1 w
  = process_files self file_paths output_dir kwargs2 w.
Proof.
  intros Hfree1 Hfree2 Hinclude. unfold process_files.
  apply process_files_loop_ext; [done |].
  intros file_path w0. simpl. unfold MistralOCRService.process_file_kwargs.
  by rewrite Hfree1, Hfree2, Hinclude.
Qed.

(** *** The constructor *)

Variable Mistral : string -> Exception + MistralClient R.

(** X4: how the constructor finds the credential.  A non-empty
    [api_key] argument is used whatever the environment holds; without
    one (no argument, or an empty string) a non-empty [MISTRAL_API_KEY]
    of the environment is used; with neither, an empty value counting as
    none, the constructor raises [ValueError].  The world is left as it
    was in all three cases. *)
Theorem init_credential_resolution (api_key : option string) (model : string) w :
  (forall key client,
      api_key = Some key -> key <> "" -> Mistral key = inr client ->
      MistralOCRService.__init__ Mistral api_key model w
      = (inr (MistralOCRService.mk model key client), w))
  /\ (forall key client,
        no_key api_key ->
        environ w !! "MISTRAL_API_KEY" = Some key -> key <> "" ->
        Mistral key = inr client ->
        MistralOCRService.__init__ Mistral api_key model w
        = (inr (MistralOCRService.mk model key client), w))
  /\ (no_key api_key ->
      no_key (environ w !! "MISTRAL_API_KEY") ->
      MistralOCRService.__init__ Mistral api_key model w
      = (inl (mkExc ValueError
                "MISTRAL_API_KEY environment variable must be set or api_key provided"),
         w)).
Proof.
  unfold MistralOCRService.__init__, PyM.bind, PyM.environ_get, PyM.ret, PyM.raise.
  split; [| split].
  - intros key client -> Hkey Hclient.
    destruct key as [|c key]; [done |]. cbn. by rewrite Hclient.
  - intros key client Hnone Henv Hkey Hclient. rewrite Henv.
    destruct key as [|c key]; [done |].
    destruct Hnone as [-> | ->]; cbn; by rewrite Hclient.
  - intros Hnone Henv.
    destruct Hnone as [-> | ->], Henv as [-> | ->]; reflexivity.
Qed.

(** X5: the constructor has no effect on the world, and when it raises,
    the exception is the [ValueError] for a missing credential or a
    [RuntimeError] whose text starts with
    "Error initializing Mistral client: " and ends with the text of the
    exception the SDK raised. *)
Theorem init_failure_kinds (api_key : option string) (model : string) w e w' :
  MistralOCRService.__init__ Mistral api_key model w = (inl e, w') ->
  w' = w
  /\ (e = mkExc ValueError
            "MISTRAL_API_KEY environment variable must be set or api_key provided"
      \/ exists key e0,
           Mistral key = inl e0
           /\ e = mkExc RuntimeError
                    ("Error initializing Mistral client: " +:+ exc_str e0)).
Proof.
  unfold MistralOCRService.__init__, PyM.bind, PyM.environ_get, PyM.ret, PyM.raise.
  set (self_api_key :=
         match api_key with
         | Some k => if String.eqb k "" then environ w !! "MISTRAL_API_KEY" else Some k
         | None => environ w !! "MISTRAL_API_KEY"
         end).
  destruct self_api_key as [[|c key]|].
  - intros [= <- <-]. split; [done | by left].
  - destruct (Mistral (String c key)) as [e0|client] eqn:Hclient; [| done].
    intros [= <- <-]. split; [done |]. right. by exists (String c key), e0.
  - intros [= <- <-]. split; [done | by left].
Qed.

End MistralBatch.

(** ** Strings and paths, continued *)

Lemma append_inj_r (a b c : string) : a +:+ c = b +:+ c -> a = b.
Proof.
  revert b. induction a as [|x a IH]; intros [|y b] Heq.
  - done.
  - apply (f_equal String.length) in Heq.
    rewrite !length_append in Heq. simpl in Heq. lia.
  - apply (f_equal String.length) in Heq.
    rewrite !length_append in Heq. simpl in Heq. lia.
  - rewrite !append_cons in Heq. injection Heq as -> Heq.
    f_equal. by apply IH.
Qed.

Lemma last_char_append (a : string) (x : ascii) (b : string) :
  forall default,
    List.last (list_ascii_of_string (a +:+ String x b)) default
    = List.last (list_ascii_of_string (String x b)) default.
Proof.
  intros default. induction a as [|y a IH]; [reflexivity |].
  rewrite append_cons. cbn [list_ascii_of_string].
  destruct (list_ascii_of_string (a +:+ String x b)) as [|z rest] eqn:Hlist.
  - destruct a; discriminate.
  - exact IH.
Qed.

Lemma text_name_not_metadata_name (a b : string) :
  a +:+ ".ocr.md" <> b +:+ ".ocr.json".
Proof.
  intros Heq.
  apply (f_equal (fun s => List.last (list_ascii_of_string s) "000"%char)) in Heq.
  by rewrite !last_char_append in Heq.
Qed.

Lemma lower_char_dot (c : ascii) :
  Ascii.eqb (PyStr.lower_char c) "."%char = Ascii.eqb c "."%char.
Proof. by destruct c as [[] [] [] [] [] [] [] []]. Qed.

Lemma rfind_lower (s : string) :
  PyStr.rfind "."%char (PyStr.lower s) = PyStr.rfind "."%char s.
Proof.
  induction s as [|c s IH]; [done |].
  cbn [PyStr.lower PyStr.rfind]. by rewrite IH, lower_char_dot.
Qed.

Lemma length_lower (s : string) : String.length (PyStr.lower s) = String.length s.
Proof. induction s as [|c s IH]; [done |]. simpl. by rewrite IH. Qed.

Lemma rfind_append (c : ascii) (s t : string) :
  PyStr.rfind c (s +:+ t)
  = match PyStr.rfind c t with
    | Some i => Some (String.length s + i)
    | None => PyStr.rfind c s
    end.
Proof.
  induction s as [|a s IH].
  - change ("" +:+ t) with t. by destruct (PyStr.rfind c t).
  - rewrite append_cons. cbn [PyStr.rfind String.length]. rewrite IH.
    by destruct (PyStr.rfind c t).
Qed.

Lemma substring_all (t : string) : substring 0 (String.length t) t = t.
Proof. induction t as [|c t IH]; [done |]. simpl. by rewrite IH. Qed.

Lemma slice_from_append (s t : string) :
  PyStr.slice_from (String.length s) (s +:+ t) = t.
Proof.
  unfold PyStr.slice_from. rewrite length_append.
  replace (String.length s + String.length t - String.length s)
    with (String.length t) by lia.
  induction s as [|c s IH]; [apply substring_all |].
  rewrite append_cons. exact IH.
Qed.

Lemma image_extension_shape (ext : string) :
  PyStr.lower ext ∈ MistralOCRService.image_extensions ->
  PyStr.rfind "."%char ext = Some 0 /\ 2 <= String.length ext.
Proof.
  intros Hin. rewrite <- rfind_lower, <- length_lower.
  unfold MistralOCRService.image_extensions in Hin.
  repeat (apply elem_of_cons in Hin as [->|Hin]; [split; [done | simpl; lia] |]).
  by apply elem_of_nil in Hin.
Qed.

(** X6: a file whose name is a non-empty base followed by one of the
    image extensions, in any mix of upper and lower case, is an image;
    a file whose whole name is such an extension (".png", say) has no
    suffix for pathlib and is a document.  Dots in the base and the
    directory of the file do not matter. *)
Theorem image_file_by_name (abs : bool) (dirs : list string) (base ext : string) :
  PyStr.lower ext ∈ MistralOCRService.image_extensions ->
  MistralOCRService._is_image_file (mkPath abs (dirs ++ [base +:+ ext]))
  = negb (String.eqb base "").
Proof.
  intros Hext. destruct (image_extension_shape ext Hext) as [Hdot Hlen].
  unfold MistralOCRService._is_image_file, PyPath.suffix, PyPath.name.
  cbn [parts]. rewrite last_last, rfind_append, Hdot, length_append.
  destruct base as [|c base].
  - cbn. apply bool_decide_eq_false.
    unfold MistralOCRService.image_extensions. intros Hin.
    repeat (apply elem_of_cons in Hin as [Hin|Hin]; [discriminate |]).
    by apply elem_of_nil in Hin.
  - rewrite Nat.add_0_r, slice_from_append.
    assert (Hin_range :
              (0 <? String.length (String c base))%nat
              && (String.length (String c base)
                  <? String.length (String c base) + String.length ext - 1)%nat
              = true).
    { apply andb_true_iff. split; apply Nat.ltb_lt; simpl; lia. }
    rewrite Hin_range. cbn. by apply bool_decide_eq_true.
Qed.

(** ** Failures of [process_file], continued *)

Section FileSystemErrors.
Implicit Types (fs : gmap Path Node) (p : Path).

Lemma missing_is_OSError fs p : is_OSError (FS.missing fs p) = true.
Proof.
  unfold FS.missing. by destruct (FS.through_file _ _ _ _).
Qed.

Lemma os_mkdir_error fs p e : FS.os_mkdir fs p = inl e -> is_OSError e = true.
Proof.
  unfold FS.os_mkdir. destruct (FS.stat fs p); [by intros [= <-] |].
  destruct (FS.stat fs (PyPath.parent p)) as [[| ? ? ?]|] eqn:Hparent;
    try done; intros [= <-]; apply missing_is_OSError.
Qed.

Lemma mkdir_exist_ok_error fs p e :
  FS.mkdir_exist_ok fs p = inl e -> is_OSError e = true.
Proof.
  unfold FS.mkdir_exist_ok.
  destruct (FS.os_mkdir fs p) as [e0|fs'] eqn:Hmk; [| done].
  apply os_mkdir_error in Hmk.
  destruct (exc_class e0), (FS.is_dir fs p); try done; by intros [= <-].
Qed.

Lemma mkdir_parents_from_error abs rparts :
  forall fs e, FS.mkdir_parents_from abs rparts fs = inl e -> is_OSError e = true.
Proof.
  induction rparts as [|x rparent IH]; intros fs e.
  - cbn. done.
  - cbn [FS.mkdir_parents_from].
    destruct (FS.os_mkdir fs (mkPath abs (rev (x :: rparent)))) as [e0|fs'] eqn:Hmk;
      [| done].
    apply os_mkdir_error in Hmk.
    destruct (exc_class e0) eqn:Hclass;
      try (destruct (FS.is_dir fs _); [done | by intros [= <-]]).
    destruct (FS.mkdir_parents_from abs rparent fs) as [e1|fs1] eqn:Hrec.
    + intros [= <-]. by eapply IH.
    + apply mkdir_exist_ok_error.
Qed.

Lemma mkdir_parents_error fs p e :
  FS.mkdir_parents fs p = inl e -> is_OSError e = true.
Proof. apply mkdir_parents_from_error. Qed.

Lemma write_error fs p data e : FS.write fs p data = inl e -> is_OSError e = true.
Proof.
  unfold FS.write.
  destruct (FS.stat fs p) as [[|r [|] old]|]; try done; try by intros [= <-].
  destruct (FS.stat fs (PyPath.parent p)) as [[| ? ? ?]|];
    try done; intros [= <-]; apply missing_is_OSError.
Qed.

End FileSystemErrors.

Section MistralFailures.
Context {R : Type}.
Implicit Types (self : MistralOCRService.t R) (w : World R).

Lemma save_inl file_path output_dir content metadata w e w' :
  MistralOCRService.save file_path output_dir content metadata w = (inl e, w') ->
  is_Some output_dir /\ requests w' = requests w.
Proof.
  intros Hsave. split.
  - destruct output_dir; [done |].
    unfold MistralOCRService.save, PyM.ret in Hsave. done.
  - by rewrite <- (save_requests file_path output_dir content metadata w), Hsave.
Qed.

Lemma prepare_document_inl_inv self file_path w e w' :
  MistralOCRService.prepare_document self file_path w = (inl e, w') ->
  (exists e0,
      FS.read_bytes (fs w) file_path = inl e0
      /\ e = raised_for_unreadable file_path e0 /\ w' = w)
  \/ (exists bytes r1,
        MistralOCRService._is_image_file file_path = false
        /\ FS.read_bytes (fs w) file_path = inr bytes
        /\ files_upload (MistralOCRService.client self) (PyPath.name file_path)
             bytes "ocr" (remote w) = (inl e, r1))
  \/ (exists bytes uploaded r1 r2,
        MistralOCRService._is_image_file file_path = false
        /\ FS.read_bytes (fs w) file_path = inr bytes
        /\ files_upload (MistralOCRService.client self) (PyPath.name file_path)
             bytes "ocr" (remote w) = (inr uploaded, r1)
        /\ files_get_signed_url (MistralOCRService.client self) (Sdk.id uploaded) r1
           = (inl e, r2)).
Proof.
  destruct (FS.read_bytes (fs w) file_path) as [e0|bytes] eqn:Hread.
  { rewrite (prepare_document_unreadable self file_path w e0 Hread).
    intros [= <- <-]. left. by exists e0. }
  unfold MistralOCRService.prepare_document.
  destruct (MistralOCRService._is_image_file file_path) eqn:Himage.
  { unfold MistralOCRService._encode_file_to_base64,
      PyM.bind, PyM.try_except, PyM.read_bytes, PyM.ret.
    by rewrite Hread. }
  unfold PyM.bind, PyM.read_bytes, PyM.call. rewrite Hread.
  destruct (files_upload _ _ _ _ _) as [[e1|uploaded] r1] eqn:Hupload.
  { intros [= <- <-]. right. left. by exists bytes, r1. }
  cbn [remote PyM.sent].
  destruct (files_get_signed_url _ _ _) as [[e2|signed] r2] eqn:Hsigned; [| done].
  intros [= <- <-]. right. right. by exists bytes, uploaded, r1, r2.
Qed.

(** X7: where [process_file] can raise.  The exception comes from
    reading the source file (as raised for an unreadable file), from the
    upload, from the request for the signed URL, from the OCR call, or
    it is raised while the outputs are saved; in the last case an output
    directory was given, and the OCR request had been sent and answered
    before, and no request was sent after it. *)
Theorem process_file_raises_only
    self file_path output_dir include_image_base64 w e w' :
  MistralOCRService.process_file self file_path output_dir include_image_base64 w
  = (inl e, w') ->
  (exists e0,
      FS.read_bytes (fs w) file_path = inl e0
      /\ e = raised_for_unreadable file_path e0 /\ w' = w)
  \/ (exists bytes r1,
        MistralOCRService._is_image_file file_path = false
        /\ FS.read_bytes (fs w) file_path = inr bytes
        /\ files_upload (MistralOCRService.client self) (PyPath.name file_path)
             bytes "ocr" (remote w) = (inl e, r1))
  \/ (exists bytes uploaded r1 r2,
        MistralOCRService._is_image_file file_path = false
        /\ FS.read_bytes (fs w) file_path = inr bytes
        /\ files_upload (MistralOCRService.client self) (PyPath.name file_path)
             bytes "ocr" (remote w) = (inr uploaded, r1)
        /\ files_get_signed_url (MistralOCRService.client self) (Sdk.id uploaded) r1
           = (inl e, r2))
  \/ (exists document w1 r2,
        MistralOCRService.prepare_document self file_path w = (inr document, w1)
        /\ ocr_process (MistralOCRService.client self)
             (MistralOCRService.model self) document include_image_base64
             (remote w1) = (inl e, r2))
  \/ (exists document w1 ocr_response r2,
        MistralOCRService.prepare_document self file_path w = (inr document, w1)
        /\ ocr_process (MistralOCRService.client self)
             (MistralOCRService.model self) document include_image_base64
             (remote w1) = (inr ocr_response, r2)
        /\ is_Some output_dir
        /\ requests w'
           = (requests w1
                ++ [OcrProcess (MistralOCRService.model self) document
                      include_image_base64])%list).
Proof.
  intros Hrun.
  destruct (MistralOCRService.prepare_document self file_path w)
    as [[e0|document] w1] eqn:Hdoc.
  { rewrite (prepare_document_inl _ _ _ _ _ _ _ Hdoc) in Hrun.
    injection Hrun as <- <-.
    apply prepare_document_inl_inv in Hdoc as [?|[?|?]]; auto. }
  destruct (ocr_process (MistralOCRService.client self)
              (MistralOCRService.model self) document include_image_base64
              (remote w1)) as [[e1|ocr_response] r2] eqn:Hocr.
  { unfold MistralOCRService.process_file in Hrun.
    rewrite (bind_inr _ _ _ _ _ Hdoc) in Hrun.
    rewrite (bind_inl _ _ _ _ _ (call_eq _ _ _ _ _ Hocr)) in Hrun.
    injection Hrun as <- <-.
    right. right. right. left. by exists document, w1, r2. }
  rewrite (process_file_after_ocr _ _ output_dir _ _ _ _ _ _ Hdoc Hocr) in Hrun.
  match type of Hrun with
  | context [MistralOCRService.save ?p ?d ?c ?m ?w0] =>
      destruct (MistralOCRService.save p d c m w0) as [[e2|saved] w2] eqn:Hsave
  end; [| done].
  injection Hrun as <- <-.
  apply save_inl in Hsave as (Hdir & Hrequests).
  right. right. right. right.
  exists document, w1, ocr_response, r2. by repeat split.
Qed.

End MistralFailures.

(** ** Outputs on disk, continued *)

Section MistralOutputs.
Context {R : Type}.
Implicit Types (self : MistralOCRService.t R) (w : World R).

Lemma is_dir_stat (fs : gmap Path Node) d :
  FS.is_dir fs d = true -> FS.stat fs d = Some Directory.
Proof. unfold FS.is_dir. by destruct (FS.stat fs d) as [[| ? ? ?]|]. Qed.

(** X8: the text file is written before the metadata file, and nothing
    is undone.  With the output directory in place, no text file yet,
    and a directory where the metadata file should go, [process_file]
    raises [IsADirectoryError] for the metadata path after the OCR
    response came in, and the text file it created stays on disk with
    the extracted content. *)
Theorem metadata_write_failure_leaves_text_file
    self file_path output_dir include_image_base64 w document w1 ocr_response r2 :
  let text_path :=
    PyPath.joinpath output_dir (PyPath.stem file_path +:+ ".ocr.md") in
  let metadata_path :=
    PyPath.joinpath output_dir (PyPath.stem file_path +:+ ".ocr.json") in
  MistralOCRService.prepare_document self file_path w = (inr document, w1) ->
  ocr_process (MistralOCRService.client self) (MistralOCRService.model self)
    document include_image_base64 (remote w1) = (inr ocr_response, r2) ->
  FS.is_dir (fs w) output_dir = true ->
  fs w !! text_path = None ->
  fs w !! metadata_path = Some Directory ->
  exists w',
    MistralOCRService.process_file self file_path (Some output_dir)
      include_image_base64 w = (inl (FS.EISDIR metadata_path), w')
    /\ fs w' !! text_path
       = Some (RegularFile true true
                 (MistralOCRService._extract_content_from_response ocr_response))
    /\ fs w' !! metadata_path = Some Directory.
Proof.
  intros text_path metadata_path Hdoc Hocr Hdir Htext Hmeta.
  assert (Hdiff : text_path <> metadata_path) by apply output_paths_differ.
  assert (Hwrite :
    forall data,
      FS.write (fs w) text_path data
      = inr (<[text_path := RegularFile true true data]> (fs w))).
  { intros data. unfold FS.write.
    rewrite (stat_lookup _ text_path (joinpath_parts _ _)), Htext.
    replace (PyPath.parent text_path) with output_dir
      by (symmetry; apply joinpath_parent).
    by rewrite (is_dir_stat _ _ Hdir). }
  assert (Hfail :
    forall content data,
      FS.write (<[text_path := RegularFile true true content]> (fs w))
        metadata_path data
      = inl (FS.EISDIR metadata_path)).
  { intros content data. unfold FS.write.
    rewrite (stat_lookup _ metadata_path (joinpath_parts _ _)).
    by rewrite lookup_insert_ne, Hmeta. }
  rewrite (process_file_after_ocr _ _ _ _ _ _ _ _ _ Hdoc Hocr).
  apply prepare_document_inr_fs in Hdoc.
  unfold MistralOCRService.save, PyM.bind, PyM.mkdir_parents, PyM.write,
    PyM.fs_update, PyM.ret.
  fold text_path metadata_path. cbn [fs PyM.sent PyM.with_fs]. rewrite Hdoc.
  rewrite (mkdir_parents_existing _ _ Hdir). cbn [fs PyM.with_fs].
  rewrite Hwrite. cbn [fs PyM.with_fs].
  unfold PyM.write_chunks.
  destruct (PyM.write_loop _ _) as [error written]. cbn [fs PyM.with_fs].
  rewrite Hfail. eexists. split; [reflexivity |]. cbn [fs PyM.with_fs].
  split; [apply lookup_insert_eq |]. by rewrite lookup_insert_ne.
Qed.

Lemma process_file_saved self file_path output_dir include_image_base64 w result w' :
  MistralOCRService.process_file self file_path (Some output_dir)
    include_image_base64 w = (inr result, w') ->
  let text_path :=
    PyPath.joinpath output_dir (PyPath.stem file_path +:+ ".ocr.md") in
  let metadata_path :=
    PyPath.joinpath output_dir (PyPath.stem file_path +:+ ".ocr.json") in
  exists fs1 ra rb,
    only_creates_directories (absolute output_dir) (parts output_dir) (fs w) fs1
    /\ output_path result = Some text_path
    /\ fs w' = <[metadata_path := RegularFile rb true (Json.dumps (metadata result))]>
                 (<[text_path := RegularFile ra true (content result)]> fs1).
Proof.
  intros Hrun text_path metadata_path.
  apply process_file_inr_inv in Hrun
    as (document & w1 & ocr_response & r2 & Hdoc & _ & Hsave & Hcontent & Hmeta).
  apply prepare_document_inr_fs in Hdoc.
  apply save_some_inr in Hsave as (fs1 & ra & rb & Hmk & Hout & Hfs & _ & _).
  cbn [fs PyM.sent] in Hmk. rewrite Hdoc in Hmk.
  apply mkdir_parents_inr in Hmk as [_ Hframe].
  exists fs1, ra, rb. by rewrite Hcontent, Hmeta.
Qed.

Lemma created_directories_keep_files abs components (fs fs' : gmap Path Node) q node :
  only_creates_directories abs components fs fs' ->
  fs !! q = Some node -> fs' !! q = Some node.
Proof.
  intros Hframe Hq. destruct (Hframe q) as [Heq|(Hnone & _)]; congruence.
Qed.

(** X9: inputs with different stems do not touch each other's output
    files.  After a first file has been processed into an output
    directory, processing a second file with another stem into the same
    directory gives another output path, and the two output files of the
    first still hold its content and metadata. *)
Theorem distinct_stems_keep_outputs
    self first second output_dir include1 include2 w result1 w1 result2 w2 :
  PyPath.stem first <> PyPath.stem second ->
  MistralOCRService.process_file self first (Some output_dir) include1 w
  = (inr result1, w1) ->
  MistralOCRService.process_file self second (Some output_dir) include2 w1
  = (inr result2, w2) ->
  output_path result1 <> output_path result2
  /\ (exists readable,
        fs w2 !! PyPath.joinpath output_dir (PyPath.stem first +:+ ".ocr.md")
        = Some (RegularFile readable true (content result1)))
  /\ (exists readable,
        fs w2 !! PyPath.joinpath output_dir (PyPath.stem first +:+ ".ocr.json")
        = Some (RegularFile readable true (Json.dumps (metadata result1)))).
Proof.
  intros Hstems Hfirst Hsecond.
  apply process_file_saved in Hfirst as (fsa & ra & rb & _ & Hout1 & Hfs1).
  apply process_file_saved in Hsecond as (fsb & rc & rd & Hframe & Hout2 & Hfs2).
  set (text1 := PyPath.joinpath output_dir (PyPath.stem first +:+ ".ocr.md")) in *.
  set (meta1 := PyPath.joinpath output_dir (PyPath.stem first +:+ ".ocr.json")) in *.
  set (text2 := PyPath.joinpath output_dir (PyPath.stem second +:+ ".ocr.md")) in *.
  set (meta2 := PyPath.joinpath output_dir (PyPath.stem second +:+ ".ocr.json")) in *.
  assert (Htt : text1 <> text2).
  { intros Heq. apply joinpath_inj, append_inj_r in Heq. done. }
  assert (Hmm : meta1 <> meta2).
  { intros Heq. apply joinpath_inj, append_inj_r in Heq. done. }
  assert (Htm : text1 <> meta2).
  { intros Heq. apply joinpath_inj in Heq. by apply text_name_not_metadata_name in Heq. }
  assert (Hmt : meta1 <> text2).
  { intros Heq. apply joinpath_inj in Heq. symmetry in Heq.
    by apply text_name_not_metadata_name in Heq. }
  assert (Hdiff : text1 <> meta1) by apply output_paths_differ.
  split; [rewrite Hout1, Hout2; congruence |].
  rewrite Hfs2. split.
  - exists ra. rewrite !lookup_insert_ne by done.
    apply (created_directories_keep_files _ _ _ _ _ _ Hframe).
    rewrite Hfs1, lookup_insert_ne by done. apply lookup_insert_eq.
  - exists rb. rewrite !lookup_insert_ne by done.
    apply (created_directories_keep_files _ _ _ _ _ _ Hframe).
    rewrite Hfs1. apply lookup_insert_eq.
Qed.

(** X10: what the metadata of a returned Result says.  It names the
    scheme, the provider, the model of the service, the source path and
    the image-inclusion option as given; its page count is never zero:
    for a response with pages it is their number, and for a response
    without pages the key is absent and the content is empty. *)
Theorem result_metadata_entries
    self file_path output_dir include_image_base64 w result w' :
  MistralOCRService.process_file self file_path output_dir include_image_base64 w
  = (inr result, w') ->
  PyDict.get (metadata result) "scheme" = Some (PyString "mistral_ocr")
  /\ PyDict.get (metadata result) "provider" = Some (PyString "mistral")
  /\ PyDict.get (metadata result) "model"
     = Some (PyString (MistralOCRService.model self))
  /\ PyDict.get (metadata result) "source_file"
     = Some (PyString (PyPath.str file_path))
  /\ PyDict.get (metadata result) "include_image_base64" = Some include_image_base64
  /\ exists document w1 ocr_response r2,
       MistralOCRService.prepare_document self file_path w = (inr document, w1)
       /\ ocr_process (MistralOCRService.client self)
            (MistralOCRService.model self) document include_image_base64
            (remote w1) = (inr ocr_response, r2)
       /\ match Sdk.pages ocr_response with
          | [] => PyDict.get (metadata result) "pages" = None /\ content result = ""
          | pages =>
              PyDict.get (metadata result) "pages"
              = Some (PyInt (Z.of_nat (length pages)))
          end.
Proof.
  intros Hrun.
  apply process_file_inr_inv in Hrun
    as (document & w1 & ocr_response & r2 & Hdoc & Hocr & _ & Hcontent & Hmeta).
  rewrite Hmeta, Hcontent.
  unfold MistralOCRService._create_metadata,
    MistralOCRService._extract_content_from_response.
  destruct (Sdk.pages ocr_response) as [|page rest] eqn:Hpages.
  - repeat (split; [reflexivity |]).
    exists document, w1, ocr_response, r2. rewrite Hpages. by repeat split.
  - repeat (split; [reflexivity |]).
    exists document, w1, ocr_response, r2. rewrite Hpages. by repeat split.
Qed.

End MistralOutputs.

(** ** The [ocr] command *)

Section CommandProperties.
Context {R : Type}.
Variable Mistral : string -> Exception + MistralClient R.
Implicit Types (w : World R) (files : list Path).

Lemma is_file_exists (fs : gmap Path Node) p :
  Cli.is_file fs p = true -> Cli.exists_ fs p = true.
Proof. unfold Cli.is_file, Cli.exists_. by destruct (FS.stat fs p). Qed.

Lemma validate_valid (fs : gmap Path Node) files :
  Forall (fun p => Cli.is_file fs p = true) files ->
  forall valid_files,
    Cli.validate fs files valid_files = inr (valid_files ++ files)%list.
Proof.
  induction 1 as [|p files Hp _ IH]; intros valid_files; simpl.
  - by rewrite app_nil_r.
  - rewrite (is_file_exists _ _ Hp), Hp. simpl. by rewrite IH, <- app_assoc.
Qed.

(** X12: with valid files and no credential in the environment, the
    command exits with code 1 and shows the initialization error; no
    request is sent and nothing is written. *)
Theorem ocr_without_credential
    files (output_dir : Path) (model : string) (include_image_base64 : bool) w :
  files <> [] ->
  Forall (fun p => Cli.is_file (fs w) p = true) files ->
  environ w !! "MISTRAL_API_KEY" = None ->
  Cli.ocr Mistral files output_dir model include_image_base64 w
  = (Exit 1,
     [Print ("[red]Error initializing Mistral OCR service:[/red] "
             +:+ "MISTRAL_API_KEY environment variable must be set or api_key provided")],
     w).
Proof.
  intros Hsome Hvalid Henv. unfold Cli.ocr.
  rewrite (validate_valid _ _ Hvalid). simpl.
  destruct files as [|p files]; [done |].
  unfold MistralOCRService.__init__, PyM.bind, PyM.environ_get.
  by rewrite Henv.
Qed.

End CommandProperties.

(** ** The scenario, run *)

Import Scenario.

(** A batch of four paths: an image, a path with no file, a document and
    an unreadable image.  Every position gets its Result. *)
Example batch_of_four :
  exists results,
    fst (process_files service [scan_png; missing_png; report_pdf; locked_png]
           (Some out) [] world) = inr results
    /\ map is_successful results = [true; false; true; false]
    /\ map output_path results
       = [Some (mkPath false ["out"; "ocr"; "scan.ocr.md"]); None;
          Some (mkPath false ["out"; "ocr"; "report.ocr.md"]); None].
Proof. eexists. split; [vm_compute; reflexivity |]. by split. Qed.

Lemma process_files_substitutes_failed_result_witness :
  exists results result,
    fst (process_files service [scan_png; missing_png; report_pdf] None [] world)
    = inr results
    /\ results !! 1%nat = Some result
    /\ content result = ""
    /\ output_path result = None
    /\ metadata result
       = [("error", PyString "File not found: missing.png");
          ("provider", PyString "mistral");
          ("source_file", PyString "missing.png");
          ("success", PyBool false)].
Proof.
  edestruct (process_files_substitutes_failed_result service
               [scan_png; missing_png; report_pdf] None [] world 1%nat
               missing_png
               (mkExc FileNotFoundError "File not found: missing.png"))
    as (results & result & Hrun & Hat & Hcontent & Hpath & Hmeta & _).
  - reflexivity.
  - apply run_inl. vm_compute. reflexivity.
  - exists results, result. repeat split; assumption.
Defined.

Lemma results_satisfy_invariant_witness :
  exists results,
    fst (process_files service [scan_png; missing_png; report_pdf; locked_png]
           (Some out) [] world) = inr results
    /\ length results = 4%nat
    /\ Forall result_invariant results.
Proof.
  eexists. split; [vm_compute; reflexivity |]. split; [reflexivity |].
  eapply (proj2 (results_satisfy_invariant service)
            [scan_png; missing_png; report_pdf; locked_png] (Some out) [] world).
  apply run_inr. vm_compute. reflexivity.
Defined.

(** An image that exists but cannot be read: the read fails with a
    permission error, an I/O error, and [process_file] raises a
    [RuntimeError], which is no I/O error. *)
Lemma unreadable_image_raises_RuntimeError :
  FS.read_bytes (fs world) locked_png = inl (FS.EACCES locked_png)
  /\ is_OSError (FS.EACCES locked_png) = true
  /\ MistralOCRService._is_image_file locked_png = true
  /\ exists e,
       fst (MistralOCRService.process_file service locked_png None (PyBool false)
              world) = inl e
       /\ e = mkExc RuntimeError
                "Error encoding file locked.png: [Errno 13] Permission denied: 'locked.png'"
       /\ is_OSError e = false.
Proof.
  split; [by vm_compute |]. split; [done |]. split; [by vm_compute |].
  eexists. split; [vm_compute; reflexivity |]. by split.
Qed.

Lemma process_file_propagates_failures_witness :
  (FS.read_bytes (fs world) missing_png = inl (FS.ENOENT missing_png)
   /\ fst (MistralOCRService.process_file service missing_png (Some out)
             (PyBool false) world)
      = inl (mkExc FileNotFoundError "File not found: missing.png"))
  /\ (fst (MistralOCRService.process_file service_down scan_png (Some out)
             (PyBool false) world)
      = inl (mkExc SDKError "API error occurred: Status 503")).
Proof.
  destruct (process_file_propagates_failures service missing_png (Some out)
              (PyBool false) world) as (Hread & _).
  destruct (process_file_propagates_failures service_down scan_png (Some out)
              (PyBool false) world) as (_ & _ & _ & Hocr).
  split.
  - split; [by vm_compute |].
    destruct (Hread (FS.ENOENT missing_png)) as [_ Hrun]; [by vm_compute |].
    rewrite Hrun. cbn [fst]. vm_compute. reflexivity.
  - erewrite Hocr; [reflexivity | |].
    + apply run_inr. vm_compute. reflexivity.
    + vm_compute. reflexivity.
Defined.

Lemma init_without_credential_fails_witness :
  environ world !! "MISTRAL_API_KEY" = None
  /\ MistralOCRService.__init__ Mistral None "mistral-ocr-latest" world
     = (inl (mkExc ValueError
               "MISTRAL_API_KEY environment variable must be set or api_key provided"),
        world).
Proof.
  split; [reflexivity |].
  exact (proj1 (init_without_credential_fails Mistral "mistral-ocr-latest" world
                  eq_refl)).
Defined.

Lemma process_file_persists_two_files_witness :
  fs world !! mkPath false ["out"] = None
  /\ fs world !! out = None
  /\ tree (fs world)
  /\ MistralOCRService.process_file service scan_png (Some out) (PyBool false) world
     = (inr scan_png_result, after_scan_png)
  /\ output_path scan_png_result = Some (mkPath false ["out"; "ocr"; "scan.ocr.md"])
  /\ FS.is_dir (fs after_scan_png) (mkPath false ["out"]) = true
  /\ FS.is_dir (fs after_scan_png) out = true
  /\ (exists readable,
        fs after_scan_png !! mkPath false ["out"; "ocr"; "scan.ocr.md"]
        = Some (RegularFile readable true
                  ("# Title" +:+ PyStr.nl +:+ PyStr.nl +:+ "Body")))
  /\ (exists readable,
        fs after_scan_png !! mkPath false ["out"; "ocr"; "scan.ocr.json"]
        = Some (RegularFile readable true scan_ocr_json))
  /\ Decode.json_loads scan_ocr_json
     = Some [("scheme", PyString "mistral_ocr");
             ("provider", PyString "mistral");
             ("model", PyString "mistral-ocr-latest");
             ("source_file", PyString "scan.png");
             ("include_image_base64", PyBool false);
             ("pages", PyInt 2)].
Proof.
  assert (Hrun :
    MistralOCRService.process_file service scan_png (Some out) (PyBool false) world
    = (inr scan_png_result, after_scan_png))
    by (apply run_inr; vm_compute; reflexivity).
  assert (Htree : tree (fs world)).
  { intros p node Hp. cbn [fs world] in Hp. unfold disk in Hp.
    repeat (apply lookup_insert_Some in Hp as [[<- _]|[_ Hp]];
            [vm_compute; reflexivity |]).
    by rewrite lookup_empty in Hp. }
  split; [by vm_compute |]. split; [by vm_compute |].
  split; [exact Htree |]. split; [exact Hrun |].
  destruct (process_file_persists_two_files _ _ _ _ _ _ _ Hrun)
    as (Hpath & _ & _ & _ & Hdir & Hparents & Htext
        & (readable & data & Hmeta & Hdata & Hloads) & _).
  split; [exact Hpath |].
  split; [exact (Hparents Htree ["out"] (prefix_cons "out" [] ["ocr"] (prefix_nil _))) |].
  split; [exact Hdir |]. split; [exact Htext |].
  rewrite Hdata in Hmeta, Hloads.
  split; [by exists readable |]. exact Hloads.
Defined.

Lemma process_file_request_by_extension_witness :
  (FS.read_bytes (fs world) scan_png = inr "PNG"
   /\ MistralOCRService._is_image_file scan_png = true
   /\ PyStr.lower (PyPath.suffix scan_png)
      ∈ [".png"; ".jpg"; ".jpeg"; ".avif"; ".gif"; ".bmp"; ".tiff"; ".tif"]
   /\ Decode.b64decode "UE5H" = Some "PNG"
   /\ requests (snd (MistralOCRService.process_file service scan_png None
                       (PyBool false) world))
      = [OcrProcess "mistral-ocr-latest"
           [("type", PyString "image_url");
            ("image_url", PyString "data:image/png;base64,UE5H")]
           (PyBool false)])
  /\ (FS.read_bytes (fs Cases.photos) Cases.photo_JPG = inr "JFIF"
      /\ MistralOCRService._is_image_file Cases.photo_JPG = true
      /\ Decode.b64decode "SkZJRg==" = Some "JFIF"
      /\ requests (snd (MistralOCRService.process_file service Cases.photo_JPG None
                          (PyBool false) Cases.photos))
         = [OcrProcess "mistral-ocr-latest"
              [("type", PyString "image_url");
               ("image_url", PyString "data:image/jpeg;base64,SkZJRg==")]
              (PyBool false)])
  /\ (FS.read_bytes (fs world) report_pdf = inr "%PDF-1.7"
      /\ MistralOCRService._is_image_file report_pdf = false
      /\ ~ PyStr.lower (PyPath.suffix report_pdf)
           ∈ [".png"; ".jpg"; ".jpeg"; ".avif"; ".gif"; ".bmp"; ".tiff"; ".tif"]
      /\ requests (snd (MistralOCRService.process_file service report_pdf None
                          (PyBool false) world))
         = [FilesUpload "report.pdf" "%PDF-1.7" "ocr";
            FilesGetSignedUrl "file-report.pdf";
            OcrProcess "mistral-ocr-latest"
              [("type", PyString "document_url");
               ("document_url", PyString "https://files.example/file-report.pdf")]
              (PyBool false)]).
Proof.
  assert (Hpng : FS.read_bytes (fs world) scan_png = inr "PNG")
    by (vm_compute; reflexivity).
  assert (Hjpg : FS.read_bytes (fs Cases.photos) Cases.photo_JPG = inr "JFIF")
    by (vm_compute; reflexivity).
  assert (Hpdf : FS.read_bytes (fs world) report_pdf = inr "%PDF-1.7")
    by (vm_compute; reflexivity).
  assert (Himage1 : MistralOCRService._is_image_file scan_png = true)
    by (vm_compute; reflexivity).
  assert (Himage2 : MistralOCRService._is_image_file Cases.photo_JPG = true)
    by (vm_compute; reflexivity).
  assert (Hdocument : MistralOCRService._is_image_file report_pdf = false)
    by (vm_compute; reflexivity).
  destruct (process_file_request_by_extension service scan_png None
              (PyBool false) world "PNG" Hpng) as (Hclass1 & _ & Hrequest1).
  destruct (process_file_request_by_extension service Cases.photo_JPG None
              (PyBool false) Cases.photos "JFIF" Hjpg) as (_ & _ & Hrequest2).
  destruct (process_file_request_by_extension service report_pdf None
              (PyBool false) world "%PDF-1.7" Hpdf) as (Hclass3 & _ & Hrequest3).
  rewrite Himage1 in Hrequest1. rewrite Himage2 in Hrequest2.
  rewrite Hdocument in Hrequest3.
  destruct Hrequest1 as (extension1 & payload1 & Hext1 & Hdecode1 & Hdoc1 & Hsent1).
  destruct Hrequest2 as (extension2 & payload2 & Hext2 & Hdecode2 & Hdoc2 & Hsent2).
  assert (Hpayload1 : payload1 = "UE5H" /\ extension1 = "png").
  { vm_compute in Hext1. injection Hext1 as <-.
    apply (f_equal fst) in Hdoc1. vm_compute in Hdoc1. by injection Hdoc1 as <-. }
  assert (Hpayload2 : payload2 = "SkZJRg==" /\ extension2 = "jpg").
  { vm_compute in Hext2. injection Hext2 as <-.
    apply (f_equal fst) in Hdoc2. vm_compute in Hdoc2. by injection Hdoc2 as <-. }
  destruct Hpayload1 as [-> ->]. destruct Hpayload2 as [-> ->].
  split; [| split].
  - split; [exact Hpng |]. split; [exact Himage1 |].
    split; [exact (proj1 Hclass1 Himage1) |]. split; [exact Hdecode1 |].
    exact Hsent1.
  - split; [exact Hjpg |]. split; [exact Himage2 |]. split; [exact Hdecode2 |].
    exact Hsent2.
  - split; [exact Hpdf |]. split; [exact Hdocument |].
    split.
    { intros Hin. apply (proj2 Hclass3) in Hin. congruence. }
    rewrite (Hrequest3 (Sdk.mkUploadedFile "file-report.pdf") 1%nat
               (Sdk.mkSignedUrl "https://files.example/file-report.pdf") 1%nat
               eq_refl eq_refl).
    reflexivity.
Defined.

Lemma content_joins_pages_witness :
  exists result,
    fst (MistralOCRService.process_file service scan_png None (PyBool false) world)
    = inr result
    /\ content result = "# Title" +:+ PyStr.nl +:+ PyStr.nl +:+ "Body".
Proof.
  eexists. split; [vm_compute; reflexivity |].
  edestruct (content_joins_pages service scan_png None (PyBool false) world)
    as (document & w1 & ocr_response & r2 & _ & Hocr & Hcontent & _).
  - apply run_inr. vm_compute. reflexivity.
  - reflexivity.
Defined.

Lemma process_file_twice_same_result_witness :
  deterministic (MistralOCRService.client service)
  /\ fst (MistralOCRService.process_file service report_pdf None (PyBool false)
            (snd (MistralOCRService.process_file service report_pdf None
                    (PyBool false) world)))
     = fst (MistralOCRService.process_file service report_pdf None (PyBool false)
              world)
  /\ is_Some (match fst (MistralOCRService.process_file service report_pdf None
                            (PyBool false) world) with
              | inr result => Some result
              | inl _ => None
              end).
Proof.
  assert (Hdet : deterministic (MistralOCRService.client service))
    by (repeat split; intros; reflexivity).
  split; [exact Hdet |]. split.
  - exact (proj1 (process_file_twice_same_result service report_pdf (PyBool false)
                    world Hdet)).
  - vm_compute. eauto.
Defined.

Lemma equal_stems_share_output_files_witness :
  scan_png <> scan_pdf
  /\ PyPath.stem scan_png = PyPath.stem scan_pdf
  /\ exists result2 w2,
       MistralOCRService.process_file service scan_png (Some out) (PyBool false)
         world = (inr scan_png_result, after_scan_png)
       /\ MistralOCRService.process_file service scan_pdf (Some out) (PyBool false)
            after_scan_png = (inr result2, w2)
       /\ PyDict.get (metadata scan_png_result) "source_file"
          = Some (PyString "scan.png")
       /\ PyDict.get (metadata result2) "source_file" = Some (PyString "in/scan.pdf")
       /\ output_path scan_png_result
          = Some (mkPath false ["out"; "ocr"; "scan.ocr.md"])
       /\ output_path result2 = Some (mkPath false ["out"; "ocr"; "scan.ocr.md"])
       /\ (exists readable,
             fs after_scan_png !! mkPath false ["out"; "ocr"; "scan.ocr.json"]
             = Some (RegularFile readable true
                       (Json.dumps (metadata scan_png_result))))
       /\ (exists readable,
             fs w2 !! mkPath false ["out"; "ocr"; "scan.ocr.json"]
             = Some (RegularFile readable true (Json.dumps (metadata result2)))).
Proof.
  assert (Hstem : PyPath.stem scan_png = PyPath.stem scan_pdf)
    by (vm_compute; reflexivity).
  assert (Hrun1 :
    MistralOCRService.process_file service scan_png (Some out) (PyBool false) world
    = (inr scan_png_result, after_scan_png))
    by (apply run_inr; vm_compute; reflexivity).
  eassert (Hrun2 :
    fst (MistralOCRService.process_file service scan_pdf (Some out) (PyBool false)
           after_scan_png) = inr _) by (vm_compute; reflexivity).
  apply run_inr in Hrun2.
  split; [done |]. split; [exact Hstem |].
  destruct (equal_stems_share_output_files service scan_png scan_pdf out
              (PyBool false) (PyBool false) world _ _ _ _ Hstem Hrun1 Hrun2)
    as (Hpath1 & Hpath2 & _ & Hmeta1 & _ & (readable & data & Hmeta2 & -> & _) & _).
  eexists _, _. split; [exact Hrun1 |]. split; [exact Hrun2 |].
  split; [reflexivity |]. split; [reflexivity |].
  split; [exact Hpath1 |]. split; [exact Hpath2 |].
  split; [exact Hmeta1 |]. by exists readable.
Defined.

(** ** Further cases, run *)

(** A source whose name is not UTF-8, processed into an output
    directory: the OCR call is made and the text file is written, then
    [json.dump] fails on the path of the source, and the metadata file is
    left with what was written before it. *)
Example source_name_not_utf8 :
  Utf8.valid (PyPath.str Cases.latin1_png) = false
  /\ fst (MistralOCRService.process_file service Cases.latin1_png (Some out)
            (PyBool false) Cases.latin1)
     = inl (mkExc UnicodeEncodeError
              "'utf-8' codec can't encode character '\udce9' in position 1: surrogates not allowed")
  /\ fs (snd (MistralOCRService.process_file service Cases.latin1_png (Some out)
                (PyBool false) Cases.latin1))
       !! mkPath false ["out"; "ocr"; String "233"%char ".ocr.md"]
     = Some (RegularFile true true ("# Title" +:+ PyStr.nl +:+ PyStr.nl +:+ "Body"))
  /\ fs (snd (MistralOCRService.process_file service Cases.latin1_png (Some out)
                (PyBool false) Cases.latin1))
       !! mkPath false ["out"; "ocr"; String "233"%char ".ocr.json"]
     = Some (RegularFile true true Cases.truncated_json)
  /\ length (requests (snd (MistralOCRService.process_file service Cases.latin1_png
                              (Some out) (PyBool false) Cases.latin1))) = 1%nat.
Proof. repeat split; vm_compute; reflexivity. Qed.

(** The texts of errors of the operating system: the name is shown as
    [repr] shows it. *)
Example os_error_texts :
  exc_str (FS.ENOENT missing_png) = "[Errno 2] No such file or directory: 'missing.png'"
  /\ exc_str (FS.ENOENT (mkPath false ["it's.png"]))
     = "[Errno 2] No such file or directory: " +:+ Scenario.quoted "it's.png"
  /\ exc_str (FS.EACCES Cases.latin1_png)
     = "[Errno 13] Permission denied: '\udce9.png'"
  /\ FS.mkdir_parents (fs world) (mkPath false ["scan.png"; "sub"; "dir"])
     = inl (mkExc NotADirectoryError "[Errno 20] Not a directory: 'scan.png/sub/dir'")
  /\ FS.read_bytes (fs world) (mkPath false ["nodir"; "a"; "b"])
     = inl (mkExc FileNotFoundError "[Errno 2] No such file or directory: 'nodir/a/b'").
Proof. repeat split; vm_compute; reflexivity. Qed.

Lemma process_files_app_witness :
  exists ra rb,
    fst (process_files service [scan_png] None [] world) = inr ra
    /\ fst (process_files service [missing_png; report_pdf] None []
              (snd (process_files service [scan_png] None [] world))) = inr rb
    /\ length rb = 2%nat
    /\ fst (process_files service ([scan_png] ++ [missing_png; report_pdf]) None []
              world) = inr (ra ++ rb)%list.
Proof.
  eexists _, _.
  split; [vm_compute; reflexivity |]. split; [vm_compute; reflexivity |].
  split; [reflexivity |].
  erewrite process_files_app; [reflexivity | |].
  - apply run_inr. vm_compute. reflexivity.
  - apply run_inr. vm_compute. reflexivity.
Defined.

Lemma process_files_ignores_other_kwargs_witness :
  process_files service [scan_png; report_pdf] (Some out)
    [("language", PyString "en"); ("include_image_base64", PyBool false)] world
  = process_files service [scan_png; report_pdf] (Some out) [] world.
Proof. by apply process_files_ignores_other_kwargs. Defined.

Lemma init_credential_resolution_witness :
  environ Cases.keyed !! "MISTRAL_API_KEY" = Some "secret"
  /\ MistralOCRService.__init__ Mistral (Some "explicit") "mistral-ocr-latest"
       Cases.keyed
     = (inr (MistralOCRService.mk "mistral-ocr-latest" "explicit"
               (mkClient upload get_signed_url ocr)), Cases.keyed)
  /\ MistralOCRService.__init__ Mistral (Some "") "mistral-ocr-latest" Cases.keyed
     = (inr (MistralOCRService.mk "mistral-ocr-latest" "secret"
               (mkClient upload get_signed_url ocr)), Cases.keyed).
Proof.
  split; [reflexivity |]. split.
  - apply (proj1 (init_credential_resolution Mistral (Some "explicit")
                    "mistral-ocr-latest" Cases.keyed)); done.
  - apply (proj1 (proj2 (init_credential_resolution Mistral (Some "")
                           "mistral-ocr-latest" Cases.keyed))); try done.
    by right.
Defined.

Lemma init_failure_kinds_witness :
  MistralOCRService.__init__ Cases.broken_sdk (Some "secret") "mistral-ocr-latest"
    world
  = (inl (mkExc RuntimeError "Error initializing Mistral client: invalid api key"),
     world)
  /\ exists key e0,
       Cases.broken_sdk key = inl e0
       /\ mkExc RuntimeError "Error initializing Mistral client: invalid api key"
          = mkExc RuntimeError
              ("Error initializing Mistral client: " +:+ exc_str e0).
Proof.
  assert (Hrun :
    MistralOCRService.__init__ Cases.broken_sdk (Some "secret")
      "mistral-ocr-latest" world
    = (inl (mkExc RuntimeError "Error initializing Mistral client: invalid api key"),
       world)) by reflexivity.
  split; [exact Hrun |].
  destruct (init_failure_kinds _ _ _ _ _ _ Hrun) as [_ [Hvalue|Hwrapped]];
    [discriminate | exact Hwrapped].
Defined.

Lemma image_file_by_name_witness :
  PyStr.lower ".JPG" ∈ MistralOCRService.image_extensions
  /\ MistralOCRService._is_image_file
       (mkPath false (["photos"] ++ ["Holiday.Beach" +:+ ".JPG"])) = true
  /\ MistralOCRService._is_image_file (mkPath false ([] ++ ["" +:+ ".JPG"])) = false.
Proof.
  assert (Hext : PyStr.lower ".JPG" ∈ MistralOCRService.image_extensions).
  { apply (list_elem_of_lookup_2 _ 1%nat). reflexivity. }
  split; [exact Hext |]. split.
  - exact (image_file_by_name false ["photos"] "Holiday.Beach" ".JPG" Hext).
  - exact (image_file_by_name false [] "" ".JPG" Hext).
Defined.

(** The output directory given is a regular file: saving fails, after
    the OCR request has been sent. *)
Lemma process_file_raises_only_witness :
  fst (MistralOCRService.process_file service scan_png (Some scan_png)
         (PyBool false) world) = inl (FS.EEXIST scan_png)
  /\ length (requests (snd (MistralOCRService.process_file service scan_png
                              (Some scan_png) (PyBool false) world))) = 1%nat.
Proof.
  assert (Hfst :
    fst (MistralOCRService.process_file service scan_png (Some scan_png)
           (PyBool false) world) = inl (FS.EEXIST scan_png))
    by (vm_compute; reflexivity).
  split; [exact Hfst |].
  destruct (process_file_raises_only _ _ _ _ _ _ _ (run_inl _ _ Hfst))
    as [(e0 & Hread & _)|[(bytes & r1 & Himage & _)|[(bytes & u & r1 & r2 & Himage & _)
       |[(document & w1 & r2 & _ & Hocr)
        |(document & w1 & ocr_response & r2 & Hdoc & _ & _ & Hrequests)]]]].
  - vm_compute in Hread. discriminate.
  - vm_compute in Himage. discriminate.
  - vm_compute in Himage. discriminate.
  - cbn in Hocr. discriminate.
  - assert (Hnone : requests w1 = []).
    { apply (f_equal (fun run => requests (snd run))) in Hdoc.
      cbn [snd] in Hdoc. rewrite <- Hdoc. vm_compute. reflexivity. }
    by rewrite Hrequests, Hnone.
Defined.

Lemma metadata_write_failure_leaves_text_file_witness :
  fs Cases.blocked !! PyPath.joinpath out (PyPath.stem scan_png +:+ ".ocr.md") = None
  /\ exists w',
       MistralOCRService.process_file service scan_png (Some out) (PyBool false)
         Cases.blocked
       = (inl (FS.EISDIR
                 (PyPath.joinpath out (PyPath.stem scan_png +:+ ".ocr.json"))), w')
       /\ fs w' !! PyPath.joinpath out (PyPath.stem scan_png +:+ ".ocr.md")
          = Some (RegularFile true true
                    (MistralOCRService._extract_content_from_response
                       (Sdk.mkOCRResponse
                          [Sdk.mkOCRPage 0 "# Title"; Sdk.mkOCRPage 1 "Body"]))).
Proof.
  assert (Htext :
    fs Cases.blocked !! PyPath.joinpath out (PyPath.stem scan_png +:+ ".ocr.md")
    = None) by (vm_compute; reflexivity).
  split; [exact Htext |].
  destruct (metadata_write_failure_leaves_text_file service scan_png out
              (PyBool false) Cases.blocked
              [("type", PyString "image_url");
               ("image_url", PyString "data:image/png;base64,UE5H")]
              (snd (MistralOCRService.prepare_document service scan_png
                      Cases.blocked))
              (Sdk.mkOCRResponse
                 [Sdk.mkOCRPage 0 "# Title"; Sdk.mkOCRPage 1 "Body"])
              0%nat)
    as (w' & Hrun & Hfile & _).
  - apply run_inr. vm_compute. reflexivity.
  - vm_compute. reflexivity.
  - vm_compute. reflexivity.
  - exact Htext.
  - vm_compute. reflexivity.
  - exists w'. by split.
Defined.

Lemma distinct_stems_keep_outputs_witness :
  PyPath.stem scan_png <> PyPath.stem report_pdf
  /\ exists result2 w2,
       MistralOCRService.process_file service report_pdf (Some out) (PyBool false)
         after_scan_png = (inr result2, w2)
       /\ output_path scan_png_result <> output_path result2
       /\ exists readable,
            fs w2 !! PyPath.joinpath out (PyPath.stem scan_png +:+ ".ocr.md")
            = Some (RegularFile readable true (content scan_png_result)).
Proof.
  assert (Hstems : PyPath.stem scan_png <> PyPath.stem report_pdf)
    by (vm_compute; discriminate).
  split; [exact Hstems |].
  eassert (Hsecond :
    fst (MistralOCRService.process_file service report_pdf (Some out) (PyBool false)
           after_scan_png) = inr _) by (vm_compute; reflexivity).
  apply run_inr in Hsecond.
  edestruct (distinct_stems_keep_outputs service scan_png report_pdf out
               (PyBool false) (PyBool false) world scan_png_result after_scan_png)
    as (Hpaths & Htext & _).
  - exact Hstems.
  - apply run_inr. vm_compute. reflexivity.
  - exact Hsecond.
  - eexists _, _. split; [exact Hsecond |]. by split.
Defined.

Lemma result_metadata_entries_witness :
  MistralOCRService.process_file service scan_png (Some out) (PyBool false) world
  = (inr scan_png_result, after_scan_png)
  /\ PyDict.get (metadata scan_png_result) "model"
     = Some (PyString (MistralOCRService.model service))
  /\ PyDict.get (metadata scan_png_result) "source_file"
     = Some (PyString (PyPath.str scan_png)).
Proof.
  assert (Hrun :
    MistralOCRService.process_file service scan_png (Some out) (PyBool false) world
    = (inr scan_png_result, after_scan_png))
    by (apply run_inr; vm_compute; reflexivity).
  split; [exact Hrun |].
  destruct (result_metadata_entries _ _ _ _ _ _ _ Hrun)
    as (_ & _ & Hmodel & Hsource & _).
  by split.
Defined.

Lemma ocr_without_credential_witness :
  Cli.ocr Mistral [scan_png; report_pdf] out "mistral-ocr-latest" false world
  = (Exit 1,
     [Print ("[red]Error initializing Mistral OCR service:[/red] "
             +:+ "MISTRAL_API_KEY environment variable must be set or api_key provided")],
     world).
Proof.
  apply ocr_without_credential; [done | | done].
  by repeat constructor.
Defined.
